(** * dipy_web: publications dashboard, documentation mirror, workshop pages

    A shallow embedding of the request handlers and helpers of

      - website/views/manage_publications.py
      - website/views/tools.py
      - workshop/views.py

    The handlers are thin glue over three things this repository does not
    implement: the Django object-relational mapper, the [requests] HTTP
    client and two parsers (bibtexparser, BeautifulSoup).  The mapper is
    modelled as tables of rows with primary keys; the outside world (remote
    servers, parsers) enters as explicit parameters of the functions that
    consult it.  Python exceptions are values: a computation yields either
    [Return v] or [Raise e], together with the state it leaves behind, so
    that what was written before an exception stays written. *)

From Stdlib Require Import String Ascii List Bool Arith Lia.
From stdpp Require Import base list strings gmap pretty.

Open Scope string_scope.
Open Scope nat_scope.
Open Scope list_scope.

(* ====================================================================== *)
(** * Part I: the model                                                    *)
(* ====================================================================== *)

(** ** Python exceptions and results *)

Inductive exn : Type :=
| ObjectDoesNotExist
| MultipleObjectsReturned
| FieldError
| ConnectionError
| KeyError (key : string)
| IndexError
| AttributeError
| TypeError
| ValueError
| Http404 (message : string).

Inductive result (A : Type) : Type :=
| Return (a : A)
| Raise (e : exn).
Arguments Return {A} a.
Arguments Raise {A} e.

Definition is_Return {A} (r : result A) : bool :=
  match r with Return _ => true | Raise _ => false end.

(** ** A state-and-exception monad

    [M S A] is a Python computation over a mutable store [S].  The store
    that comes back with [Raise e] is the store at the moment the exception
    was raised: rows saved earlier are not rolled back. *)

Definition M (S A : Type) : Type := S -> result A * S.

Definition ret {S A} (a : A) : M S A := fun s => (Return a, s).

Definition raise {S A} (e : exn) : M S A := fun s => (Raise e, s).

Definition bind {S A B} (m : M S A) (k : A -> M S B) : M S B :=
  fun s => match m s with
           | (Return a, s') => k a s'
           | (Raise e, s') => (Raise e, s')
           end.

Definition lift_result {S A} (r : result A) : M S A := fun s => (r, s).

Definition gets {S A} (f : S -> A) : M S A := fun s => (Return (f s), s).

Definition modify {S} (f : S -> S) : M S unit := fun s => (Return tt, f s).

(** [try: m except ...: h]; the handler receives the exception and decides
    whether it is one it catches (re-raising it otherwise). *)
Definition try_except {S A} (m : M S A) (h : exn -> M S A) : M S A :=
  fun s => match m s with
           | (Return a, s') => (Return a, s')
           | (Raise e, s') => h e s'
           end.

(** Sequencing of results without a store. *)
Definition rbind {A B} (r : result A) (k : A -> result B) : result B :=
  match r with Return a => k a | Raise e => Raise e end.

Declare Scope py_scope.
Delimit Scope py_scope with py.
Notation "'let*' x := m 'in' k" := (bind m (fun x => k))
  (at level 10, x name, m at level 100, k at level 200) : py_scope.
Notation "'let?' x := r 'in' k" := (rbind r (fun x => k))
  (at level 10, x name, r at level 100, k at level 200) : py_scope.
Notation "m ;; k" := (bind m (fun _ => k))
  (at level 100, k at level 200, right associativity) : py_scope.
Open Scope py_scope.

(** [for x in l: body], without [break] or [return] in the body. *)
Fixpoint for_each {S A} (l : list A) (body : A -> M S unit) : M S unit :=
  match l with
  | [] => ret tt
  | x :: l' => body x ;; for_each l' body
  end.

(** ** Strings *)

(** [str.lower()] on ASCII letters. *)
Definition lower_ascii (c : ascii) : ascii :=
  let n := nat_of_ascii c in
  if (65 <=? n) && (n <=? 90) then ascii_of_nat (n + 32) else c.

Fixpoint lower (s : string) : string :=
  match s with
  | EmptyString => EmptyString
  | String c s' => String (lower_ascii c) (lower s')
  end.

(** [s.startswith(p)] *)
Definition startswith (s p : string) : bool := String.prefix p s.

(** [sub in s] for two strings. *)
Fixpoint str_in (sub s : string) : bool :=
  String.prefix sub s ||
  match s with
  | EmptyString => false
  | String _ s' => str_in sub s'
  end.

(** [field__contains=sub] of a queryset, as the database evaluates it: the
    lookup becomes a [LIKE] pattern, and SQLite compares [LIKE] patterns
    without regard to the case of ASCII letters. *)
Definition sql_contains (sub s : string) : bool :=
  str_in (lower sub) (lower s).

(** Truth value of a [str]. *)
Definition str_truthy (s : string) : bool :=
  match s with EmptyString => false | _ => true end.

(** [str(n)] for a non-negative integer. *)
Definition str_of_nat (n : nat) : string := pretty n.

(** ** Dictionaries with string keys and values *)

Abbreviation dict := (gmap string string).

(** [k in d] *)
Definition has_key (d : dict) (k : string) : bool :=
  match d !! k with Some _ => true | None => false end.

(** [d[k]] *)
Definition getitem (d : dict) (k : string) : result string :=
  match d !! k with Some v => Return v | None => Raise (KeyError k) end.

(** [l[0]] *)
Definition first_item {A} (l : list A) : result A :=
  match l with [] => Raise IndexError | x :: _ => Return x end.

(** ** The object-relational mapper

    A table holds its rows in storage order, each under its primary key,
    and the counter the next automatic key is drawn from.  An [Obj] is a
    model instance in memory: its fields and the key of the row it stands
    for, or [None] when it stands for no row. *)

Record Table (R : Type) : Type := mkTable {
  rows : list (nat * R);
  next_id : nat
}.
Arguments mkTable {R} rows next_id.
Arguments rows {R} t.
Arguments next_id {R} t.

Record Obj (R : Type) : Type := mkObj {
  pk : option nat;
  fields : R
}.
Arguments mkObj {R} pk fields.
Arguments pk {R} o.
Arguments fields {R} o.

Definition obj_of_row {R} (r : nat * R) : Obj R := mkObj (Some (fst r)) (snd r).

(** [Model.objects.all()], evaluated. *)
Definition objects_all {R} (t : Table R) : list (Obj R) :=
  map obj_of_row (rows t).

(** [Model.objects.filter(...)], evaluated. *)
Definition objects_filter {R} (p : nat -> R -> bool) (t : Table R) : list (Obj R) :=
  List.filter (fun o => match pk o with Some i => p i (fields o) | None => false end)
              (objects_all t).

(** [Model.objects.get(...)]: exactly one match, or an exception. *)
Definition objects_get {R} (p : nat -> R -> bool) (t : Table R) : result (Obj R) :=
  match objects_filter p t with
  | [] => Raise ObjectDoesNotExist
  | [o] => Return o
  | _ :: _ :: _ => Raise MultipleObjectsReturned
  end.

Definition has_row {R} (i : nat) (t : Table R) : bool :=
  existsb (fun r => fst r =? i) (rows t).

Definition sql_update {R} (i : nat) (x : R) (t : Table R) : Table R :=
  mkTable (map (fun r => if fst r =? i then (i, x) else r) (rows t)) (next_id t).

Definition sql_insert {R} (i : nat) (x : R) (t : Table R) : Table R :=
  mkTable (rows t ++ [(i, x)]) (Nat.max (next_id t) (S i)).

Definition sql_delete {R} (i : nat) (t : Table R) : Table R :=
  mkTable (List.filter (fun r => negb (fst r =? i)) (rows t)) (next_id t).

(** [obj.save()]: an instance with a key updates the row of that key and,
    when there is none, inserts a row under that key; an instance without
    a key is inserted under a fresh key, which it then carries. *)
Definition save {R} (o : Obj R) (t : Table R) : Obj R * Table R :=
  match pk o with
  | Some i =>
      if has_row i t then (o, sql_update i (fields o) t)
      else (o, sql_insert i (fields o) t)
  | None =>
      (mkObj (Some (next_id t)) (fields o), sql_insert (next_id t) (fields o) t)
  end.

(** [obj.delete()]: the row goes, the instance stays in memory with its
    fields.  Current Django releases reset the instance's key to [None];
    older ones left it in place for a model without dependants.
    [clears_pk] selects between the two. *)
Definition delete {R} (clears_pk : bool) (o : Obj R) (t : Table R)
  : result (Obj R) * Table R :=
  match pk o with
  | None => (Raise ValueError, t)
  | Some i =>
      (Return (mkObj (if clears_pk then None else Some i) (fields o)),
       sql_delete i t)
  end.

(** [Model.objects.get(...)] and [obj.save()] as steps of a computation on
    the table ([delete] is one as it stands). *)
Definition get_object {R} (p : nat -> R -> bool) : M (Table R) (Obj R) :=
  fun t => (objects_get p t, t).

Definition save_object {R} (o : Obj R) : M (Table R) (Obj R) :=
  fun t => let '(o', t') := save o t in (Return o', t').

(** [obj.field = v]: the instance with its fields changed by [f]. *)
Definition with_fields {R} (f : R -> R) (o : Obj R) : Obj R :=
  mkObj (pk o) (f (fields o)).

(** [str(obj.id)] *)
Definition str_of_id {R} (o : Obj R) : string :=
  match pk o with Some i => str_of_nat i | None => "None" end.

Definition keys {R} (t : Table R) : list nat := map fst (rows t).

(** Primary keys are unique and below the counter. *)
Definition table_wf {R} (t : Table R) : Prop :=
  NoDup (keys t) /\ Forall (fun i => i < next_id t) (keys t).

(** ** Requests and responses *)

(** A [QueryDict]: the submitted (key, value) pairs in submission order. *)
Definition QueryDict : Type := list (string * string).

(** [QueryDict.getlist(k)] *)
Definition getlist (q : QueryDict) (k : string) : list string :=
  map snd (List.filter (fun kv => String.eqb (fst kv) k) q).

(** [QueryDict.get(k)]: the last value submitted under [k], or [None]. *)
Definition QueryDict_get (q : QueryDict) (k : string) : option string :=
  last (getlist q k).

Record HttpRequest : Type := mkRequest {
  method : string;
  POST : QueryDict
}.

(* ---------------------------------------------------------------------- *)
(** ** website/models.py: Publication                                      *)
(* ---------------------------------------------------------------------- *)

(** Modelled from the spec: website/models.py is not among the sources.
    The fields are those the spec's data model lists and the handlers
    assign.  A field the handler leaves alone is [None] here, standing for
    whatever default the model declares. *)
Module Publication.
Record t : Type := mk {
  title : string;
  author : string;
  url : string;
  entry_type : option string;
  doi : option string;
  published_in : option string;
  publisher : option string;
  year_of_publication : option string;
  month_of_publication : option string;
  bibtex : option string;
  is_highlighted : bool
}.

Definition set_entry_type (v : string) (p : t) : t :=
  mk (title p) (author p) (url p) (Some v) (doi p) (published_in p)
     (publisher p) (year_of_publication p) (month_of_publication p)
     (bibtex p) (is_highlighted p).
Definition set_doi (v : string) (p : t) : t :=
  mk (title p) (author p) (url p) (entry_type p) (Some v) (published_in p)
     (publisher p) (year_of_publication p) (month_of_publication p)
     (bibtex p) (is_highlighted p).
Definition set_published_in (v : string) (p : t) : t :=
  mk (title p) (author p) (url p) (entry_type p) (doi p) (Some v)
     (publisher p) (year_of_publication p) (month_of_publication p)
     (bibtex p) (is_highlighted p).
Definition set_publisher (v : string) (p : t) : t :=
  mk (title p) (author p) (url p) (entry_type p) (doi p) (published_in p)
     (Some v) (year_of_publication p) (month_of_publication p)
     (bibtex p) (is_highlighted p).
Definition set_year_of_publication (v : string) (p : t) : t :=
  mk (title p) (author p) (url p) (entry_type p) (doi p) (published_in p)
     (publisher p) (Some v) (month_of_publication p)
     (bibtex p) (is_highlighted p).
Definition set_month_of_publication (v : string) (p : t) : t :=
  mk (title p) (author p) (url p) (entry_type p) (doi p) (published_in p)
     (publisher p) (year_of_publication p) (Some v)
     (bibtex p) (is_highlighted p).
Definition set_bibtex (v : option string) (p : t) : t :=
  mk (title p) (author p) (url p) (entry_type p) (doi p) (published_in p)
     (publisher p) (year_of_publication p) (month_of_publication p)
     v (is_highlighted p).
Definition set_is_highlighted (v : bool) (p : t) : t :=
  mk (title p) (author p) (url p) (entry_type p) (doi p) (published_in p)
     (publisher p) (year_of_publication p) (month_of_publication p)
     (bibtex p) v.
End Publication.

(** [if k in d: obj.field = d[k]] *)
Definition assign_if_present (d : dict) (k : string)
    (set : string -> Publication.t -> Publication.t) (p : Publication.t)
  : Publication.t :=
  match d !! k with Some v => set v p | None => p end.

(* ---------------------------------------------------------------------- *)
(** ** workshop/models.py: Workshop                                        *)
(* ---------------------------------------------------------------------- *)

(** The fields workshop/models.py declares (dates as timestamps, speakers
    by key), and two more, [slug] and [is_published], which the views and
    the template tag filter on and read although models.py as given does
    not declare them. *)
Module Workshop.
Record t : Type := mk {
  code_name : string;
  start_date : nat;
  end_date : nat;
  registration_start_date : nat;
  registration_end_date : nat;
  speakers : list nat;
  body_markdown : string;
  body_html : string;
  description : string;
  created : nat;
  modified : nat;
  is_online : bool;
  slug : string;
  is_published : bool
}.
End Workshop.

(* ---------------------------------------------------------------------- *)
(** ** website/views/manage_publications.py                                *)
(* ---------------------------------------------------------------------- *)

(** [AddEditPublicationForm(data, instance=...)] *)
Record Form : Type := AddEditPublicationForm {
  form_data : option QueryDict;
  form_instance : option (Obj Publication.t)
}.

Inductive ctx_value : Type :=
| CtxStr (s : string)
| CtxForm (f : Form)
| CtxPublications (l : list (Obj Publication.t))
| CtxWorkshop (w : Obj Workshop.t).

Inductive HttpResponse : Type :=
| redirect (to : string)
| render (template : string) (context : list (string * ctx_value)).

(** What the handlers take from outside this repository: the citation
    parser ([bibtexparser.loads], then [.entries]), the form class of
    website/forms.py (absent from the sources: [form_clean f] is [None]
    when [f.is_valid()] is false, and otherwise the fields [f.save()]
    writes), and the default of [Publication.is_highlighted]. *)
Record PublicationEnv : Type := mkPublicationEnv {
  bibtexparser_loads : option string -> result (list dict);
  form_clean : Form -> option Publication.t;
  default_is_highlighted : bool
}.

Definition PubM : Type -> Type := M (Table Publication.t).

(** [form.save()] of a valid form: the cleaned fields go to the form's
    instance, or to a new one. *)
Definition form_save (f : Form) (cleaned : Publication.t) : PubM unit :=
  save_object
    (mkObj (match form_instance f with Some o => pk o | None => None end) cleaned) ;;
  ret tt.

Definition dashboard_publications (request : HttpRequest) : PubM HttpResponse :=
  let* all_publications := gets objects_all in
  ret (render "website/dashboard_publications.html"
              [("all_publications", CtxPublications all_publications)]).

Definition add_publication (env : PublicationEnv)
    (request : HttpRequest) (method_ : string) : PubM HttpResponse :=
  if String.eqb method_ "manual" then
    let context := [("title", CtxStr "Add")] in
    if String.eqb (method request) "POST" then
      let submitted_form := AddEditPublicationForm (Some (POST request)) None in
      match form_clean env submitted_form with
      | Some cleaned =>
          form_save submitted_form cleaned ;;
          ret (redirect "/dashboard/publications/")
      | None =>
          ret (render "website/addeditpublication.html"
                      (context ++ [("form", CtxForm submitted_form)]))
      end
    else
      let form := AddEditPublicationForm None None in
      ret (render "website/addeditpublication.html"
                  (context ++ [("form", CtxForm form)]))
  else if String.eqb method_ "bibtex" then
    if String.eqb (method request) "POST" then
      let bibtex_entered := QueryDict_get (POST request) "bibtex" in
      try_except
        (let* bib_parsed := lift_result (bibtexparser_loads env bibtex_entered) in
         let* bibInfo := lift_result (first_item bib_parsed) in
         let* title :=
           if has_key bibInfo "title"
           then (let* v := lift_result (getitem bibInfo "title") in ret (Some v))
           else ret None in
         let* authors :=
           if has_key bibInfo "author"
           then (let* v := lift_result (getitem bibInfo "author") in ret (Some v))
           else if has_key bibInfo "authors"
           then (let* v := lift_result (getitem bibInfo "aithors") in ret (Some v))
           else ret None in
         let* url :=
           if has_key bibInfo "url"
           then (let* v := lift_result (getitem bibInfo "url") in ret (Some v))
           else if has_key bibInfo "link"
           then (let* v := lift_result (getitem bibInfo "link") in ret (Some v))
           else if has_key bibInfo "doi"
           then (let* v := lift_result (getitem bibInfo "doi") in
                 ret (Some ("https://doi.org/" +:+ v)))
           else ret None in
         match title, authors, url with
         | Some title', Some authors', Some url' =>
             if str_truthy title' && str_truthy authors' && str_truthy url' then
               let publicationObj :=
                 Publication.mk title' authors' url' None None None None None
                                None None (default_is_highlighted env) in
               let publicationObj :=
                 assign_if_present bibInfo "ENTRYTYPE" Publication.set_entry_type publicationObj in
               let publicationObj :=
                 assign_if_present bibInfo "doi" Publication.set_doi publicationObj in
               let publicationObj :=
                 assign_if_present bibInfo "journal" Publication.set_published_in publicationObj in
               let publicationObj :=
                 assign_if_present bibInfo "booktitle" Publication.set_published_in publicationObj in
               let publicationObj :=
                 assign_if_present bibInfo "publisher" Publication.set_publisher publicationObj in
               let publicationObj :=
                 assign_if_present bibInfo "year" Publication.set_year_of_publication publicationObj in
               let publicationObj :=
                 assign_if_present bibInfo "month" Publication.set_month_of_publication publicationObj in
               let publicationObj := Publication.set_bibtex bibtex_entered publicationObj in
               save_object (mkObj None publicationObj) ;;
               ret (redirect "/dashboard/publications/")
             else ret (render "website/addpublicationbibtex.html" [])
         | _, _, _ => ret (render "website/addpublicationbibtex.html" [])
         end)
        (fun _ => ret (render "website/addpublicationbibtex.html" []))
    else ret (render "website/addpublicationbibtex.html" [])
  else raise (Http404 "Not a valid method for adding publications.").

Definition edit_publication (env : PublicationEnv)
    (request : HttpRequest) (publication_id : nat) : PubM HttpResponse :=
  let* publication :=
    try_except
      (get_object (fun i _ => i =? publication_id))
      (fun _ => raise (Http404 "Publication does not exist")) in
  let context := [("title", CtxStr "Edit")] in
  if String.eqb (method request) "POST" then
    let submitted_form := AddEditPublicationForm (Some (POST request)) (Some publication) in
    match form_clean env submitted_form with
    | Some cleaned =>
        form_save submitted_form cleaned ;;
        ret (redirect "/dashboard/publications/")
    | None =>
        ret (render "website/addeditpublication.html"
                    (context ++ [("form", CtxForm submitted_form)]))
    end
  else
    let form := AddEditPublicationForm None (Some publication) in
    ret (render "website/addeditpublication.html"
                (context ++ [("form", CtxForm form)])).

Definition delete_publication (clears_pk : bool)
    (request : HttpRequest) (publication_id : nat) : PubM HttpResponse :=
  let* p :=
    try_except
      (get_object (fun i _ => i =? publication_id))
      (fun _ => raise (Http404 "Publication does not exist")) in
  delete clears_pk p ;;
  ret (redirect "/dashboard/publications/").

Definition highlight_publications (request : HttpRequest) : PubM HttpResponse :=
  if String.eqb (method request) "POST" then
    let highlighted_publications := getlist (POST request) "highlights[]" in
    let* all_publications := gets objects_all in
    for_each all_publications (fun p =>
      let p :=
        if bool_decide (str_of_id p ∈ highlighted_publications)
        then with_fields (Publication.set_is_highlighted true) p
        else with_fields (Publication.set_is_highlighted false) p in
      save_object p ;; ret tt) ;;
    ret (redirect "/dashboard/publications/")
  else
    let* all_publications := gets objects_all in
    ret (render "website/highlightpublications.html"
                [("all_publications", CtxPublications all_publications)]).

(* ---------------------------------------------------------------------- *)
(** ** JSON values                                                         *)
(* ---------------------------------------------------------------------- *)

(** What [response.json()] yields, and what the cached fragments of a
    documentation record hold. *)
#[local] Set Warnings "-register-all".
Inductive json : Type :=
| JNull
| JBool (b : bool)
| JNum (n : nat)
| JStr (s : string)
| JList (l : list json)
| JDict (d : list (string * json)).
#[local] Set Warnings "register-all".

(* ---------------------------------------------------------------------- *)
(** ** website/models.py: DocumentationLink                                *)
(* ---------------------------------------------------------------------- *)

(** Modelled from the spec: website/models.py is not among the sources.
    The fields are those of the spec's data model under the names the code
    uses: version label, URL, display flag [displayed], freshness flag
    [is_updated], and the cached fragments [intro], [gallery] and
    [tutorials]. *)
Module DocumentationLink.
Record t : Type := mk {
  version : string;
  url : string;
  displayed : bool;
  is_updated : bool;
  intro : json;
  gallery : json;
  tutorials : json
}.

Definition set_is_updated (v : bool) (d : t) : t :=
  mk (version d) (url d) (displayed d) v (intro d) (gallery d) (tutorials d).
Definition set_intro (v : json) (d : t) : t :=
  mk (version d) (url d) (displayed d) (is_updated d) v (gallery d) (tutorials d).
Definition set_gallery (v : json) (d : t) : t :=
  mk (version d) (url d) (displayed d) (is_updated d) (intro d) v (tutorials d).
Definition set_tutorials (v : json) (d : t) : t :=
  mk (version d) (url d) (displayed d) (is_updated d) (intro d) (gallery d) v.
End DocumentationLink.

(** [settings.DOCUMENTATION_REPO_OWNER] and [..._NAME]; which of the two
    behaviours of [delete] the installed Django has; and the defaults the
    model declares for the fields [DocumentationLink(version=, url=)]
    leaves out. *)
Record DocConfig : Type := mkDocConfig {
  DOCUMENTATION_REPO_OWNER : string;
  DOCUMENTATION_REPO_NAME : string;
  delete_clears_pk : bool;
  default_displayed : bool;
  default_is_updated : bool;
  default_fragment : json
}.

Abbreviation Doc := DocumentationLink.t.

Definition DocM : Type -> Type := M (Table Doc).

Definition doc_delete (cfg : DocConfig) (o : Obj Doc) : DocM (Obj Doc) :=
  delete (delete_clears_pk cfg) o.

(* ---------------------------------------------------------------------- *)
(** ** website/views/tools.py: documentation sync                          *)
(* ---------------------------------------------------------------------- *)

(** One entry of the directory listing GitHub's contents API returns. *)
Record Content : Type := mkContent {
  type_ : string;
  name : string
}.

(** [for x in l: ...] with a local variable the body rebinds. *)
Fixpoint for_each_acc {S A B} (l : list A) (acc : B) (body : A -> B -> M S B)
  : M S B :=
  match l with
  | [] => ret acc
  | x :: l' => let* acc' := body x acc in for_each_acc l' acc' body
  end.

Definition base_url (cfg : DocConfig) : string :=
  "https://raw.githubusercontent.com/" +:+ DOCUMENTATION_REPO_OWNER cfg +:+ "/"
  +:+ DOCUMENTATION_REPO_NAME cfg +:+ "/gh-pages/".

(** [DocumentationLink(version=version, url=url)] *)
Definition new_DocumentationLink (cfg : DocConfig) (version url : string) : Doc :=
  DocumentationLink.mk version url
    (default_displayed cfg) (default_is_updated cfg)
    (default_fragment cfg) (default_fragment cfg) (default_fragment cfg).

(** The body of the loop under [# add new docs to database], for one
    entry of the listing; [all_versions_in_github] goes in and comes out. *)
Definition add_new_doc (cfg : DocConfig) (content : Content)
    (all_versions_in_github : list string) : DocM (list string) :=
  if String.eqb (type_ content) "dir" then
    let version_name := name content in
    let all_versions_in_github := all_versions_in_github ++ [version_name] in
    let page_url := base_url cfg +:+ version_name in
    try_except
      (get_object (fun _ d => String.eqb (DocumentationLink.version d) version_name) ;;
       ret tt)
      (fun e =>
         match e with
         | ObjectDoesNotExist =>
             let d := new_DocumentationLink cfg version_name page_url in
             save_object (mkObj None d) ;; ret tt
         | _ => raise e
         end) ;;
    ret all_versions_in_github
  else ret all_versions_in_github.

Definition add_new_docs (cfg : DocConfig) (response_json : list Content)
  : DocM (list string) :=
  for_each_acc response_json [] (add_new_doc cfg).

(** The body of the loop under [# remove deleted docs from database]. *)
Definition remove_deleted_doc (cfg : DocConfig)
    (all_versions_in_github : list string) (doc : Obj Doc) : DocM unit :=
  let* doc :=
    if negb (bool_decide (DocumentationLink.version (fields doc)
                            ∈ all_versions_in_github))
    then doc_delete cfg doc
    else ret doc in
  let doc := with_fields (DocumentationLink.set_is_updated false) doc in
  save_object doc ;;
  ret tt.

Definition remove_deleted_docs (cfg : DocConfig)
    (all_versions_in_github : list string) (all_doc_links : list (Obj Doc))
  : DocM unit :=
  for_each all_doc_links (remove_deleted_doc cfg all_versions_in_github).

(** [update_documentations], from the decoded directory listing on.  It
    returns [displayed_id], the list handed to the background thread (and
    joined into the dictionary the caller gets). *)
Definition update_documentations (cfg : DocConfig) (response_json : list Content)
  : DocM (list nat) :=
  let* all_versions_in_github := add_new_docs cfg response_json in
  let* all_doc_links := gets objects_all in
  remove_deleted_docs cfg all_versions_in_github all_doc_links ;;
  let* displayed_doc := gets (objects_filter (fun _ d => DocumentationLink.displayed d)) in
  let displayed_id := omap pk displayed_doc in
  ret displayed_id.

(** The versions the store tracks, in storage order. *)
Definition tracked_versions (t : Table Doc) : list string :=
  map (fun r => DocumentationLink.version (snd r)) (rows t).

(** How many records track version [v]. *)
Definition version_count (v : string) (t : Table Doc) : nat :=
  length (List.filter (fun r => String.eqb (DocumentationLink.version (snd r)) v)
                      (rows t)).

(* ---------------------------------------------------------------------- *)
(** ** The outside world                                                   *)
(* ---------------------------------------------------------------------- *)

(** [lookup k d] in a JSON object. *)
Fixpoint assoc {A} (k : string) (d : list (string * A)) : option A :=
  match d with
  | [] => None
  | (k', v) :: d' => if String.eqb k' k then Some v else assoc k d'
  end.

(** [v[k]] for a string key. *)
Definition json_getitem (v : json) (k : string) : result json :=
  match v with
  | JDict d => match assoc k d with Some x => Return x | None => Raise (KeyError k) end
  | _ => Raise TypeError
  end.

(** [v == s] for a string [s]. *)
Definition json_is_str (v : json) (s : string) : bool :=
  match v with JStr s' => String.eqb s' s | _ => false end.

(** [k in v] for a string [k]. *)
Definition json_contains (k : string) (v : json) : result bool :=
  match v with
  | JDict d => Return (match assoc k d with Some _ => true | None => false end)
  | JList l => Return (existsb (fun x => json_is_str x k) l)
  | JStr s => Return (str_in k s)
  | _ => Raise TypeError
  end.

Fixpoint chars (s : string) : list json :=
  match s with
  | EmptyString => []
  | String c s' => JStr (String c EmptyString) :: chars s'
  end.

(** [for x in v] *)
Definition json_iter (v : json) : result (list json) :=
  match v with
  | JList l => Return l
  | JDict d => Return (map (fun kv => JStr (fst kv)) d)
  | JStr s => Return (chars s)
  | _ => Raise TypeError
  end.

(** Truth value. *)
Definition json_truthy (v : json) : bool :=
  match v with
  | JNull => false
  | JBool b => b
  | JNum n => negb (n =? 0)
  | JStr s => str_truthy s
  | JList l => match l with [] => false | _ => true end
  | JDict d => match d with [] => false | _ => true end
  end.

(** What [requests.get] hands back: the status and what [.json()] gives
    (it raises on a body that is not JSON). *)
Record Response : Type := mkResponse {
  status_code : nat;
  json_ : result json
}.

(** An HTML tag as BeautifulSoup presents it: a name and an attribute
    dictionary, read with [tag.get(k)] and written with [tag[k] = v]. *)
Record Tag : Type := mkTag {
  tag_name : string;
  attrs : dict
}.

Definition tag_get (tag : Tag) (k : string) : option string := attrs tag !! k.

Definition tag_set (tag : Tag) (k v : string) : Tag :=
  mkTag (tag_name tag) (<[k := v]> (attrs tag)).

(** What [get_dipy_intro] reads of a [div] it rewrites: its first [h2]
    (if any), and the [a] and [img] tags [find_all] yields once that
    heading is gone. *)
Record Container : Type := mkContainer {
  h2 : option Tag;
  a_tags : list Tag;
  img_tags : list Tag
}.

(** What [get_dipy_intro] reads of the [div] with id
    [diffusion-imaging-in-python]: its first [p] and the two [div]s with
    ids [highlights] and [announcements], each [None] when [find] finds
    nothing. *)
Record ExamplesDiv : Type := mkExamplesDiv {
  find_p : option Tag;
  find_highlights : option Container;
  find_announcements : option Container
}.

(** The parts of the process that live outside this repository, over a
    world [W] that each outbound call may change:
    - [requests_get url headers] and [requests_post url headers data];
    - [soup_find_intro body]: [BeautifulSoup(body, "lxml")] followed by
      [find("div", id="diffusion-imaging-in-python")];
    - [str_tag], [str_container]: [str] of a tag and of a container;
    - [scrape_examples version], [scrape_gallery version]: the scraping
      of the examples index by [get_doc_examples] and by
      [get_doc_examples_images], from their first outbound call on;
    - [b64encode]: [base64.b64encode] between [str.encode] and [decode]. *)
Record Remote (W : Type) : Type := mkRemote {
  requests_get : string -> list (string * string) -> W -> result Response * W;
  requests_post : string -> list (string * string) -> list (string * string)
                  -> W -> result Response * W;
  soup_find_intro : string -> option ExamplesDiv;
  str_tag : Tag -> string;
  str_container : Container -> string;
  scrape_examples : string -> W -> result json * W;
  scrape_gallery : string -> W -> result json * W;
  b64encode : string -> string
}.
Arguments mkRemote {W}.
Arguments requests_get {W} r url headers w.
Arguments requests_post {W} r url headers data w.
Arguments soup_find_intro {W} r body.
Arguments str_tag {W} r tag.
Arguments str_container {W} r c.
Arguments scrape_examples {W} r version w.
Arguments scrape_gallery {W} r version w.
Arguments b64encode {W} r s.

(** The state of the running site: the documentation table, the process
    environment ([os.environ]) and the world outside. *)
Record Site (W : Type) : Type := mkSite {
  docs : Table Doc;
  environ : dict;
  world : W
}.
Arguments mkSite {W} docs environ world.
Arguments docs {W} s.
Arguments environ {W} s.
Arguments world {W} s.

Definition SiteM (W : Type) : Type -> Type := M (Site W).

(** An outbound call: it changes the world and nothing else. *)
Definition outbound {W A} (call : W -> result A * W) : SiteM W A :=
  fun s => let '(r, w) := call (world s) in (r, mkSite (docs s) (environ s) w).

(** A computation on the documentation table, run on the site. *)
Definition on_docs {W A} (m : DocM A) : SiteM W A :=
  fun s => let '(r, t) := m (docs s) in (r, mkSite t (environ s) (world s)).

(* ---------------------------------------------------------------------- *)
(** ** website/views/tools.py: documentation fragments                     *)
(* ---------------------------------------------------------------------- *)

(** [order_by('-version')]: descending by version string, rows with equal
    versions staying in storage order. *)
Fixpoint insert_by_version (x : Obj Doc) (l : list (Obj Doc)) : list (Obj Doc) :=
  match l with
  | [] => [x]
  | y :: l' =>
      if String.leb (DocumentationLink.version (fields y))
                    (DocumentationLink.version (fields x))
      then x :: y :: l'
      else y :: insert_by_version x l'
  end.

Definition order_by_version_desc (l : list (Obj Doc)) : list (Obj Doc) :=
  fold_right insert_by_version [] l.

Definition is_nil {A} (l : list A) : bool :=
  match l with [] => true | _ => false end.

Definition get_docs (version : option string) (t : Table Doc) : list (Obj Doc) :=
  let doc :=
    match version with
    | None =>
        order_by_version_desc
          (objects_filter
             (fun _ d => DocumentationLink.displayed d
                         && negb (sql_contains "dev" (DocumentationLink.version d))) t)
    | Some v =>
        objects_filter (fun _ d => String.eqb (DocumentationLink.version d) v) t
    end in
  let doc :=
    if is_nil doc
    then order_by_version_desc
           (objects_filter (fun _ d => DocumentationLink.displayed d) t)
    else doc in
  doc.

(** The common opening of the three fragment getters: the empty-table
    guard, then [doc = get_docs(version); version = doc[0].version]. *)
Definition resolve_version {W} (version : option string) (if_empty : json)
    (k : string -> SiteM W json) : SiteM W json :=
  let* all := gets (fun s => objects_all (docs s)) in
  if is_nil all then ret if_empty
  else
    let* doc := gets (fun s => get_docs version (docs s)) in
    let* doc0 := lift_result (first_item doc) in
    k (DocumentationLink.version (fields doc0)).

Definition get_doc_examples {W} (R : Remote W) (version : option string)
  : SiteM W json :=
  resolve_version version (JList []) (fun version =>
    outbound (scrape_examples R version)).

Definition get_doc_examples_images {W} (R : Remote W) (version : option string)
  : SiteM W json :=
  resolve_version version (JList []) (fun version =>
    outbound (scrape_gallery R version)).

(** [for x in l: ...] over tags the body may rewrite or skip. *)
Fixpoint for_each_tag (l : list Tag) (body : Tag -> result Tag) : result (list Tag) :=
  match l with
  | [] => Return []
  | x :: l' =>
      let? x' := body x in
      let? l'' := for_each_tag l' body in
      Return (x' :: l'')
  end.

(** The body of [for link in highlight_div.find_all('a')]. *)
Definition rewrite_highlight_link (link : Tag) : result Tag :=
  match tag_get link "href" with
  | None => Raise AttributeError
  | Some l =>
      if startswith (lower l) "#" || str_in "http:/" l || str_in "https:/" l
      then Return link
      else Return (tag_set link "href" ("documentation/latest/" +:+ l))
  end.

(** The body of [for link in annoucement.find_all('a')]. *)
Definition rewrite_announcement_link (link : Tag) : result Tag :=
  match tag_get link "href" with
  | None => Raise AttributeError
  | Some l =>
      if startswith (lower l) "#" || str_in "http:/" (lower l)
         || str_in "https:/" (lower l)
      then Return link
      else Return (tag_set link "href" ("documentation/latest/" +:+ l))
  end.

(** The body of [for link in annoucement.find_all('img')]. *)
Definition rewrite_announcement_image (base_url version : string) (link : Tag)
  : result Tag :=
  match tag_get link "src" with
  | None => Raise AttributeError
  | Some l =>
      if str_in "http:/" (lower l) || str_in "https:/" (lower l)
      then Return link
      else Return (tag_set link "src" (base_url +:+ version +:+ "/" +:+ l))
  end.

(** [x.attr] or [x.method()] on a value that may be [None]. *)
Definition not_None {A} (o : option A) : result A :=
  match o with Some x => Return x | None => Raise AttributeError end.

Definition get_dipy_intro {W} (cfg : DocConfig) (R : Remote W)
    (version : option string) : SiteM W json :=
  resolve_version version (JList [JStr ""; JStr ""; JStr ""]) (fun version =>
    let path := "index" in
    let base_url := base_url cfg in
    let parse (response : Response) : SiteM W json :=
      lift_result (
        let? response_json := json_ response in
        let? body := json_getitem response_json "body" in
        let? body := match body with JStr b => Return b | _ => Raise TypeError end in
        let? examples_div := not_None (soup_find_intro R body) in
        let? intro_text_p := not_None (find_p examples_div) in
        let intro_text_p := tag_set intro_text_p "class" "text-center" in
        let? highlight_div := not_None (find_highlights examples_div) in
        let? _ := not_None (h2 highlight_div) in
        let? highlight_links :=
          for_each_tag (a_tags highlight_div) rewrite_highlight_link in
        let highlight_div :=
          mkContainer None highlight_links (img_tags highlight_div) in
        let? annoucement := not_None (find_announcements examples_div) in
        let? _ := not_None (h2 annoucement) in
        let? annoucement_links :=
          for_each_tag (a_tags annoucement) rewrite_announcement_link in
        let? annoucement_images :=
          for_each_tag (img_tags annoucement)
            (rewrite_announcement_image base_url version) in
        let annoucement :=
          mkContainer None annoucement_links annoucement_images in
        Return (JList [JStr (str_tag R intro_text_p);
                       JStr (str_container R annoucement);
                       JStr (str_container R highlight_div)])) in
    let url := base_url +:+ version +:+ "/" +:+ path +:+ ".fjson" in
    let* response := outbound (requests_get R url []) in
    if status_code response =? 404 then
      let url := base_url +:+ version +:+ "/" +:+ path +:+ "/index.fjson" in
      let* response := outbound (requests_get R url []) in
      if status_code response =? 404 then ret (JList [])
      else parse response
    else parse response).

(** The body of the loop of [update_doc_informations], for one record. *)
Definition update_doc_information {W} (cfg : DocConfig) (R : Remote W)
    (doc : Obj Doc) : SiteM W unit :=
  let* tutorials :=
    get_doc_examples R (Some (DocumentationLink.version (fields doc))) in
  let doc := with_fields (DocumentationLink.set_tutorials tutorials) doc in
  let* doc := on_docs (save_object doc) in
  let* gallery :=
    get_doc_examples_images R (Some (DocumentationLink.version (fields doc))) in
  let doc := with_fields (DocumentationLink.set_gallery gallery) doc in
  let* doc := on_docs (save_object doc) in
  let* intro :=
    get_dipy_intro cfg R (Some (DocumentationLink.version (fields doc))) in
  let doc := with_fields (DocumentationLink.set_intro intro) doc in
  let doc := with_fields (DocumentationLink.set_is_updated true) doc in
  let* doc := on_docs (save_object doc) in
  ret tt.

(** [update_doc_informations(ids)], the target of the background thread. *)
Definition update_doc_informations {W} (cfg : DocConfig) (R : Remote W)
    (ids : list nat) : SiteM W unit :=
  let* snapshot :=
    gets (fun s => objects_filter (fun i _ => bool_decide (i ∈ ids)) (docs s)) in
  for_each snapshot (update_doc_information cfg R).

(** *** What a refresh of one record amounts to

    [put_doc i x s] is the site [s] with the record of key [i] holding the
    fields [x].  [refreshed cfg R i d s res x] reads: the refresh of the
    record of key [i], which held [d] when the refresh began on site [s],
    ended with [res] and left the record holding [x].  The four cases are
    the four places the loop body can end: at the first fetch, at the
    second, at the third, or after the last save. *)
Definition put_doc {W} (i : nat) (x : Doc) (s : Site W) : Site W :=
  mkSite (sql_update i x (docs s)) (environ s) (world s).

(** A computation that leaves the documentation table alone. *)
Definition keeps_docs {W A} (m : SiteM W A) : Prop :=
  forall s r s', m s = (r, s') -> docs s' = docs s.

Inductive refreshed {W} (cfg : DocConfig) (R : Remote W) (i : nat) (d : Doc)
    (s : Site W) : result unit -> Doc -> Prop :=
| stops_at_tutorials e s1 :
    get_doc_examples R (Some (DocumentationLink.version d)) s = (Raise e, s1) ->
    refreshed cfg R i d s (Raise e) d
| stops_at_gallery tutorials s1 e s2 :
    get_doc_examples R (Some (DocumentationLink.version d)) s
    = (Return tutorials, s1) ->
    get_doc_examples_images R (Some (DocumentationLink.version d))
      (put_doc i (DocumentationLink.set_tutorials tutorials d) s1)
    = (Raise e, s2) ->
    refreshed cfg R i d s (Raise e) (DocumentationLink.set_tutorials tutorials d)
| stops_at_intro tutorials s1 gallery s2 e s3 :
    get_doc_examples R (Some (DocumentationLink.version d)) s
    = (Return tutorials, s1) ->
    get_doc_examples_images R (Some (DocumentationLink.version d))
      (put_doc i (DocumentationLink.set_tutorials tutorials d) s1)
    = (Return gallery, s2) ->
    get_dipy_intro cfg R (Some (DocumentationLink.version d))
      (put_doc i (DocumentationLink.set_gallery gallery
                    (DocumentationLink.set_tutorials tutorials d)) s2)
    = (Raise e, s3) ->
    refreshed cfg R i d s (Raise e)
      (DocumentationLink.set_gallery gallery
         (DocumentationLink.set_tutorials tutorials d))
| all_three_fetched tutorials s1 gallery s2 intro s3 :
    get_doc_examples R (Some (DocumentationLink.version d)) s
    = (Return tutorials, s1) ->
    get_doc_examples_images R (Some (DocumentationLink.version d))
      (put_doc i (DocumentationLink.set_tutorials tutorials d) s1)
    = (Return gallery, s2) ->
    get_dipy_intro cfg R (Some (DocumentationLink.version d))
      (put_doc i (DocumentationLink.set_gallery gallery
                    (DocumentationLink.set_tutorials tutorials d)) s2)
    = (Return intro, s3) ->
    refreshed cfg R i d s (Return tt)
      (DocumentationLink.set_is_updated true
         (DocumentationLink.set_intro intro
            (DocumentationLink.set_gallery gallery
               (DocumentationLink.set_tutorials tutorials d)))).

(* ---------------------------------------------------------------------- *)
(** ** website/views/tools.py: GitHub, Facebook, Twitter, YouTube          *)
(* ---------------------------------------------------------------------- *)

(** The credentials [django.conf.settings] supplies. *)
Record Settings : Type := mkSettings {
  FACEBOOK_APP_ID : string;
  FACEBOOK_APP_SECRET : string;
  TWITTER_CONSUMER_KEY : string;
  TWITTER_CONSUMER_SECRET : string;
  GOOGLE_API_KEY : string
}.

(** The loop of [has_commit_permission] over the decoded repositories; it
    returns from inside the loop on the first match with all three
    permissions. *)
Fixpoint scan_repos (repository_name : string) (repos : list json) : result bool :=
  match repos with
  | [] => Return false
  | repo :: rest =>
      let? repo_name := json_getitem repo "name" in
      if json_is_str repo_name repository_name then
        let? permissions := json_getitem repo "permissions" in
        let? admin := json_getitem permissions "admin" in
        if json_truthy admin then
          let? push := json_getitem permissions "push" in
          if json_truthy push then
            let? pull := json_getitem permissions "pull" in
            if json_truthy pull then Return true
            else scan_repos repository_name rest
          else scan_repos repository_name rest
        else scan_repos repository_name rest
      else scan_repos repository_name rest
  end.

Definition has_commit_permission {W} (R : Remote W)
    (access_token repository_name : string) : SiteM W bool :=
  if String.eqb access_token "" then ret false
  else
    let headers := [("Authorization", "token " +:+ access_token)] in
    let* response :=
      outbound (requests_get R "https://api.github.com/orgs/dipy/repos" headers) in
    let* response_json := lift_result (json_ response) in
    let* repos := lift_result (json_iter response_json) in
    lift_result (scan_repos repository_name repos).

(** [try: response = requests.get(url, headers=headers)] with
    [except requests.exceptions.ConnectionError:] as the only handler;
    [None] stands for the handler having run. *)
Definition get_or_connection_error {W} (R : Remote W) (url : string)
    (headers : list (string * string)) : SiteM W (option Response) :=
  try_except
    (let* response := outbound (requests_get R url headers) in ret (Some response))
    (fun e => match e with ConnectionError => ret None | _ => raise e end).

Definition get_facebook_page_feed {W} (settings : Settings) (R : Remote W)
    (page_id : string) (count : nat) : SiteM W json :=
  let app_id := FACEBOOK_APP_ID settings in
  let app_secret := FACEBOOK_APP_SECRET settings in
  let url :=
    "https://graph.facebook.com/" +:+ page_id +:+ "/feed?limit="
    +:+ str_of_nat count +:+ "&access_token=" +:+ app_id +:+ "|" +:+ app_secret in
  let* response := get_or_connection_error R url [] in
  match response with
  | None => ret (JDict [])
  | Some response =>
      let* response_json := lift_result (json_ response) in
      let* has_data := lift_result (json_contains "data" response_json) in
      if has_data then lift_result (json_getitem response_json "data")
      else ret (JDict [])
  end.

(** [os.environ[k] = v] *)
Definition setenv {W} (k v : string) : SiteM W unit :=
  modify (fun s => mkSite (docs s) (<[k := v]> (environ s)) (world s)).

Definition get_twitter_bearer_token {W} (settings : Settings) (R : Remote W)
  : SiteM W string :=
  let consumer_key := TWITTER_CONSUMER_KEY settings in
  let consumer_secret := TWITTER_CONSUMER_SECRET settings in
  let bearer_token_credentials := consumer_key +:+ ":" +:+ consumer_secret in
  let encoded_credentials := b64encode R bearer_token_credentials in
  let auth_header := "Basic " +:+ encoded_credentials in
  let headers :=
    [("Authorization", auth_header);
     ("Content-Type", "application/x-www-form-urlencoded;charset=UTF-8")] in
  let* response_json :=
    try_except
      (let* response :=
         outbound (requests_post R "https://api.twitter.com/oauth2/token" headers
                     [("grant_type", "client_credentials")]) in
       lift_result (json_ response))
      (fun e => match e with ConnectionError => ret (JDict []) | _ => raise e end) in
  let* has_token := lift_result (json_contains "access_token" response_json) in
  let* token :=
    if has_token then lift_result (json_getitem response_json "access_token")
    else ret (JStr "") in
  match token with
  | JStr token => setenv "TWITER_TOKEN" token ;; ret token
  | _ => raise TypeError
  end.

Definition get_twitter_feed {W} (settings : Settings) (R : Remote W)
    (screen_name : string) (count : nat) : SiteM W json :=
  let* token :=
    try_except
      (let* env := gets environ in lift_result (getitem env "TWITER_TOKEN"))
      (fun e => match e with
                | KeyError _ => get_twitter_bearer_token settings R
                | _ => raise e
                end) in
  let url :=
    "https://api.twitter.com/1.1/statuses/user_timeline.json?screen_name="
    +:+ screen_name +:+ "&count=" +:+ str_of_nat count in
  let headers := [("Authorization", "Bearer " +:+ token)] in
  let* response := get_or_connection_error R url headers in
  match response with
  | None => ret (JDict [])
  | Some response => lift_result (json_ response)
  end.

(** [[items for items in l if items['id']['kind'] == "youtube#video"]] *)
Fixpoint youtube_videos (l : list json) : result (list json) :=
  match l with
  | [] => Return []
  | items :: l' =>
      let? id_ := json_getitem items "id" in
      let? kind := json_getitem id_ "kind" in
      let? videos := youtube_videos l' in
      if json_is_str kind "youtube#video" then Return (items :: videos)
      else Return videos
  end.

Definition get_youtube_videos {W} (settings : Settings) (R : Remote W)
    (channel_id : string) (count : nat) : SiteM W json :=
  if negb (str_truthy (GOOGLE_API_KEY settings)) then ret (JDict [])
  else
    let url :=
      "https://www.googleapis.com/youtube/v3/search?order=date&part=snippet&channelId="
      +:+ channel_id +:+ "&maxResults=25&key=" +:+ GOOGLE_API_KEY settings in
    let* response :=
      try_except
        (let* response := outbound (requests_get R url []) in ret (Some response))
        (fun _ => ret None) in
    match response with
    | None => ret (JDict [])
    | Some response =>
        let* response_json := lift_result (json_ response) in
        let* keys :=
          match response_json with
          | JDict d => ret (map fst d)
          | _ => raise AttributeError
          end in
        if bool_decide ("error" ∈ keys) then ret (JDict [])
        else
          let* items := lift_result (json_getitem response_json "items") in
          let* items := lift_result (json_iter items) in
          let* videos := lift_result (youtube_videos items) in
          ret (JList videos)
    end.

(* ---------------------------------------------------------------------- *)
(** ** workshop/views.py                                                   *)
(* ---------------------------------------------------------------------- *)

(** What the workshop views take from outside: whether the installed
    [Workshop] model has the field [slug] its lookups name (models.py as
    given has not; a lookup on an undeclared field raises [FieldError]),
    [timezone.now()] and [settings.STRIPE_PUBLIC_KEY]. *)
Record WorkshopEnv : Type := mkWorkshopEnv {
  slug_is_a_field : bool;
  now : nat;
  STRIPE_PUBLIC_KEY : string
}.

Definition WorkshopM : Type -> Type := M (Table Workshop.t).

(** [Workshop.objects.get(slug__contains=workshop_slug)] *)
Definition get_slug_contains (env : WorkshopEnv) (workshop_slug : string)
  : WorkshopM (Obj Workshop.t) :=
  if slug_is_a_field env then
    get_object (fun _ w => str_in workshop_slug (Workshop.slug w))
  else raise FieldError.

(** Truth value of a model instance: the class defines neither [__bool__]
    nor [__len__]. *)
Definition instance_truthy {R} (o : Obj R) : bool := true.

Definition index_static (request : HttpRequest) (year : string)
  : WorkshopM HttpResponse :=
  ret (render ("workshop/index_" +:+ year +:+ ".html") []).

Definition index (env : WorkshopEnv) (request : HttpRequest)
    (workshop_slug : string) : WorkshopM HttpResponse :=
  let* workshop := get_slug_contains env workshop_slug in
  if negb (instance_truthy workshop) then raise (Http404 "")
  else if negb (Workshop.is_published (fields workshop)) then raise (Http404 "")
  else
    let context := [("workshop", CtxWorkshop workshop)] in
    if now env <? Workshop.registration_start_date (fields workshop) then
      ret (render "workshop/comingsoon.html" context)
    else
      let context :=
        context ++ [("STRIPE_PUBLIC_KEY", CtxStr (STRIPE_PUBLIC_KEY env))] in
      ret (render "workshop/index.html" context).

Definition eventspace (env : WorkshopEnv) (request : HttpRequest)
    (workshop_slug : string) : WorkshopM HttpResponse :=
  let* workshop := get_slug_contains env workshop_slug in
  let context := [("workshop", CtxWorkshop workshop)] in
  ret (render "workshop/eventspace.html" context).

(** *** The URL of a citation

    What the chain [if 'url' ... elif 'link' ... elif 'doi' ...] binds [url]
    to: the first of the three that the entry has, a DOI turned into a
    resolver address. *)
Definition url_of_entry (bibInfo : dict) : option string :=
  match bibInfo !! "url" with
  | Some u => Some u
  | None =>
      match bibInfo !! "link" with
      | Some u => Some u
      | None =>
          match bibInfo !! "doi" with
          | Some d => Some ("https://doi.org/" +:+ d)
          | None => None
          end
      end
  end.

(** *** Sample citations

    A parser that reads every submitted string as the one given entry, to
    run the bibtex path on concrete entries. *)
Definition parser_yielding (entry : dict) : option string -> result (list dict) :=
  fun s => match s with Some _ => Return [entry] | None => Raise TypeError end.

Definition env_yielding (entry : dict) : PublicationEnv :=
  mkPublicationEnv (parser_yielding entry) (fun _ => None) false.

Definition bibtex_post (citation : string) : HttpRequest :=
  mkRequest "POST" [("bibtex", citation)].

(** An entry whose author is given under the key [authors]. *)
Definition entry_with_authors : dict :=
  {[ "title" := "Dipy, a library for the analysis of diffusion MRI data";
     "authors" := "Garyfallidis, E. and Brett, M.";
     "url" := "https://doi.org/10.3389/fninf.2014.00008" ]}.

(** The same entry with the key spelled [author]. *)
Definition entry_with_author : dict :=
  {[ "title" := "Dipy, a library for the analysis of diffusion MRI data";
     "author" := "Garyfallidis, E. and Brett, M.";
     "url" := "https://doi.org/10.3389/fninf.2014.00008" ]}.

(** An entry without a title. *)
Definition entry_without_title : dict :=
  {[ "author" := "Garyfallidis, E. and Brett, M.";
     "doi" := "10.3389/fninf.2014.00008" ]}.

(** *** Sample documentation stores

    The spec's example: a store that tracks [1.0] and [dev], both refreshed
    and displayed, and an upstream listing of the directories [1.0] and
    [1.1] next to a file. *)
Definition sample_config (clears_pk : bool) : DocConfig :=
  mkDocConfig "dipy" "dipy_web" clears_pk true false (JList []).

Definition refreshed_doc (version : string) : Doc :=
  DocumentationLink.mk version
    ("https://raw.githubusercontent.com/dipy/dipy_web/gh-pages/" +:+ version)
    true true (JList [JStr "intro"]) (JList [JStr "gallery"])
    (JList [JStr "tutorials"]).

Definition store_1_0_dev : Table Doc :=
  mkTable [(1, refreshed_doc "1.0"); (2, refreshed_doc "dev")] 3.

Definition listing_1_0_1_1 : list Content :=
  [mkContent "dir" "1.0"; mkContent "file" "index.html"; mkContent "dir" "1.1"].

(** A remote, over the number of outbound calls made so far: the tutorial
    scrape returns a list naming the version; the gallery scrape returns
    an empty list, except for [failing_version], for which it cannot
    connect; every page asked for by URL is missing (404). *)
Definition sample_remote (failing_version : string) : Remote nat :=
  mkRemote
    (fun _ _ w => (Return (mkResponse 404 (Raise ValueError)), S w))
    (fun _ _ _ w => (Raise ConnectionError, S w))
    (fun _ => None)
    (fun _ => "")
    (fun _ => "")
    (fun version w => (Return (JList [JStr version]), S w))
    (fun version w =>
       if String.eqb version failing_version
       then (Raise ConnectionError, S w)
       else (Return (JList []), S w))
    (fun s => s).

(** The sample store after one pass over the sample listing, and the site
    the background refresh then starts on. *)
Definition store_after_sync : Table Doc :=
  snd (update_documentations (sample_config true) listing_1_0_1_1 store_1_0_dev).

Definition site_after_sync : Site nat := mkSite store_after_sync ∅ 0.



(** *** Sample links *)

Definition anchor (href : string) : Tag := mkTag "a" {[ "href" := href ]}.

(** How the amended claim C6 reads for one anchor and what the loop made of
    it: an [href] that starts with [#] or has [http:/] or [https:/]
    anywhere in it leaves the anchor as it was; an [href] that does not
    start with [#] and has neither [http:/] nor [https:/] in it in any
    letter case is replaced by [documentation/latest/] followed by
    itself. *)
Definition link_rewritten (link link' : Tag) : Prop :=
  forall l, tag_get link "href" = Some l ->
    (startswith l "#" = true \/ str_in "http:/" l = true
     \/ str_in "https:/" l = true ->
     link' = link) /\
    (startswith l "#" = false /\ str_in "http:/" (lower l) = false
     /\ str_in "https:/" (lower l) = false ->
     link' = tag_set link "href" ("documentation/latest/" +:+ l)).

(** *** A network that is down

    Every outbound call fails to connect. *)
Definition network_down : Remote nat :=
  mkRemote
    (fun _ _ w => (Raise ConnectionError, S w))
    (fun _ _ _ w => (Raise ConnectionError, S w))
    (fun _ => None)
    (fun _ => "")
    (fun _ => "")
    (fun _ w => (Raise ConnectionError, S w))
    (fun _ w => (Raise ConnectionError, S w))
    (fun s => s).

Definition sample_settings : Settings :=
  mkSettings "app-id" "app-secret" "consumer-key" "consumer-secret" "api-key".

Definition idle_site : Site nat := mkSite (mkTable [] 1) ∅ 0.

(** *** A sample workshop *)

Definition workshop_2021 : Workshop.t :=
  Workshop.mk "DIPY workshop 2021" 70 75 30 60
    [] "" "" "Online workshop" 10 10 true
    "dipy-workshop-2021" true.

Definition workshops : Table Workshop.t := mkTable [(1, workshop_2021)] 2.

Definition get_request : HttpRequest := mkRequest "GET" [].

(* ---------------------------------------------------------------------- *)
(** ** website/views/tools.py: the latest release                          *)
(* ---------------------------------------------------------------------- *)

(** [get_last_release()]: a list on an empty table, a string otherwise. *)
Definition get_last_release (t : Table Doc) : json :=
  if is_nil (objects_all t) then JList []
  else
    let doc :=
      order_by_version_desc
        (objects_filter
           (fun _ d => DocumentationLink.displayed d
                       && negb (sql_contains "dev" (DocumentationLink.version d))) t) in
    match doc with
    | doc0 :: _ => JStr (DocumentationLink.version (fields doc0))
    | [] => JStr "0.0.0"
    end.

(** A record [get_last_release] and [get_docs()] count as a release: it is
    displayed and its version does not contain [dev], in any letter
    case. *)
Definition is_release (d : Doc) : bool :=
  DocumentationLink.displayed d && negb (sql_contains "dev" (DocumentationLink.version d)).

(** *** Reading a repository listing

    What [has_commit_permission] reads of one repository of the listing:
    its name and the three permissions, each [None] when the key is
    missing. *)
Definition repo_name (repo : json) : option json :=
  match json_getitem repo "name" with Return n => Some n | Raise _ => None end.

Definition repo_permission (repo : json) (k : string) : option json :=
  match json_getitem repo "permissions" with
  | Return permissions =>
      match json_getitem permissions k with Return v => Some v | Raise _ => None end
  | Raise _ => None
  end.

(** A repository entry with a name and all three permissions. *)
Definition repo_complete (repo : json) : Prop :=
  is_Some (repo_name repo) /\ is_Some (repo_permission repo "admin") /\
  is_Some (repo_permission repo "push") /\ is_Some (repo_permission repo "pull").

(** The entry is named [repository_name] and grants admin, push and pull. *)
Definition repo_grants (repository_name : string) (repo : json) : bool :=
  match repo_name repo, repo_permission repo "admin",
        repo_permission repo "push", repo_permission repo "pull" with
  | Some n, Some admin, Some push, Some pull =>
      json_is_str n repository_name
      && json_truthy admin && json_truthy push && json_truthy pull
  | _, _, _, _ => false
  end.

(** The kind of a search result, [items['id']['kind']]. *)
Definition item_kind (items : json) : option json :=
  match json_getitem items "id" with
  | Return id_ =>
      match json_getitem id_ "kind" with Return k => Some k | Raise _ => None end
  | Raise _ => None
  end.

Definition is_video (items : json) : bool :=
  match item_kind items with
  | Some kind => json_is_str kind "youtube#video"
  | None => false
  end.

(** The timeline request of [get_twitter_feed]. *)
Definition timeline_url (screen_name : string) (count : nat) : string :=
  "https://api.twitter.com/1.1/statuses/user_timeline.json?screen_name="
  +:+ screen_name +:+ "&count=" +:+ str_of_nat count.

(** A sample listing of repositories. *)
Definition repo_entry (name : string) (admin push pull : bool) : json :=
  JDict [("id", JNum 1); ("name", JStr name);
         ("permissions",
          JDict [("admin", JBool admin); ("push", JBool push); ("pull", JBool pull)])].

(** A remote, over the log of the URLs asked for, that answers every GET
    with the given JSON value and every POST with a connection failure. *)
Definition remote_answering (answer : json) : Remote (list string) :=
  mkRemote
    (fun url _ w => (Return (mkResponse 200 (Return answer)), w ++ [url]))
    (fun url _ _ w => (Raise ConnectionError, w ++ [url]))
    (fun _ => None)
    (fun _ => "")
    (fun _ => "")
    (fun _ w => (Raise ConnectionError, w))
    (fun _ w => (Raise ConnectionError, w))
    (fun s => s).

Definition quiet_site (t : Table Doc) : Site (list string) := mkSite t ∅ [].

(** A store that displays a release and a development version whose
    label is in capitals. *)
Definition store_1_0_DEV : Table Doc :=
  mkTable [(1, refreshed_doc "1.0"); (2, refreshed_doc "2.0.DEV")] 3.

(** A store whose only record is not displayed. *)
Definition hidden_store : Table Doc :=
  mkTable [(1, DocumentationLink.mk "1.0"
                 "https://raw.githubusercontent.com/dipy/dipy_web/gh-pages/1.0"
                 false false (JList []) (JList []) (JList []))] 2.

(** The listing of an account that may read and write [dipy_web] under
    one entry and administer it under another. *)
Definition sample_repos : list json :=
  [repo_entry "dipy_web" false true true;
   repo_entry "dipy" true true true;
   repo_entry "dipy_web" true true true].

(** A search answer with two videos among four results. *)
Definition sample_search_items : list json :=
  [JDict [("id", JDict [("kind", JStr "youtube#channel")])];
   JDict [("id", JDict [("kind", JStr "youtube#video"); ("videoId", JStr "a")])];
   JDict [("id", JDict [("kind", JStr "youtube#playlist")])];
   JDict [("id", JDict [("kind", JStr "youtube#video"); ("videoId", JStr "b")])]].

Definition sample_search_answer : list (string * json) :=
  [("kind", JStr "youtube#searchListResponse");
   ("items", JList sample_search_items)].

(** The second half of [get_twitter_feed], from the token on: the timeline
    request under [Bearer token], a connection failure giving [{}]. *)
Definition fetch_timeline {W} (R : Remote W) (token screen_name : string)
    (count : nat) : SiteM W json :=
  let url := timeline_url screen_name count in
  let headers := [("Authorization", "Bearer " +:+ token)] in
  let* response := get_or_connection_error R url headers in
  match response with
  | None => ret (JDict [])
  | Some response => lift_result (json_ response)
  end.

(** The credential exchange [get_twitter_bearer_token] posts. *)
Definition token_request {W} (settings : Settings) (R : Remote W)
  : W -> result Response * W :=
  requests_post R "https://api.twitter.com/oauth2/token"
    [("Authorization",
      "Basic " +:+ b64encode R (TWITTER_CONSUMER_KEY settings +:+ ":"
                                +:+ TWITTER_CONSUMER_SECRET settings));
     ("Content-Type", "application/x-www-form-urlencoded;charset=UTF-8")]
    [("grant_type", "client_credentials")].

(** A remote, over the log of the URLs asked for, whose token endpoint
    grants [token] and whose other endpoints answer with an empty list. *)
Definition remote_granting (token : string) : Remote (list string) :=
  mkRemote
    (fun url _ w => (Return (mkResponse 200 (Return (JList []))), w ++ [url]))
    (fun url _ _ w =>
       (Return (mkResponse 200
                  (Return (JDict [("token_type", JStr "bearer");
                                  ("access_token", JStr token)]))),
        w ++ [url]))
    (fun _ => None)
    (fun _ => "")
    (fun _ => "")
    (fun _ w => (Raise ConnectionError, w))
    (fun _ w => (Raise ConnectionError, w))
    (fun s => s).

(** An image whose [src] names a scheme, in any letter case. *)
Definition has_absolute_src (img : Tag) : Prop :=
  exists src, tag_get img "src" = Some src /\
              str_in "http:/" (lower src) || str_in "https:/" (lower src) = true.

(** A computation that changes nothing of the site but the world outside:
    the documentation table and the environment come back as they were. *)
Definition only_outbound {W A} (m : SiteM W A) : Prop :=
  forall s r s', m s = (r, s') -> docs s' = docs s /\ environ s' = environ s.

(* ---------------------------------------------------------------------- *)
(** ** website/views/tools.py: scraping the examples index                 *)
(* ---------------------------------------------------------------------- *)

(** [s[n:]] *)
Fixpoint str_from (n : nat) (s : string) : string :=
  match n, s with
  | S n', String _ s' => str_from n' s'
  | _, _ => s
  end.

(** [s.split(c)] for a separator of one character. *)
Fixpoint str_split (c : ascii) (s : string) : list string :=
  match s with
  | EmptyString => [EmptyString]
  | String a s' =>
      if Ascii.eqb a c then EmptyString :: str_split c s'
      else match str_split c s' with
           | w :: ws => String a w :: ws
           | [] => [String a EmptyString]
           end
  end.

(** [s.replace(old, new)] for a non-empty [old]: the occurrences of [old]
    are replaced from left to right, without overlap; [skip] counts the
    characters of the occurrence just replaced that are still to be passed
    over. *)
Fixpoint replace_from (old new : string) (skip : nat) (s : string) : string :=
  match s with
  | EmptyString => EmptyString
  | String c s' =>
      match skip with
      | S k => replace_from old new k s'
      | 0 =>
          if String.prefix old s
          then new +:+ replace_from old new (String.length old - 1) s'
          else String c (replace_from old new 0 s')
      end
  end.

Definition str_replace (old new s : string) : string := replace_from old new 0 s.

(** [s[-1] != "/"] on a string that is not empty. *)
Fixpoint ends_with_slash (s : string) : bool :=
  match s with
  | EmptyString => false
  | String c EmptyString => Ascii.eqb c "/"
  | String _ s' => ends_with_slash s'
  end.

(** The double quote and the pilcrow sign (U+00B6, in UTF-8). *)
Definition dquote : string := String "034" EmptyString.
Definition pilcrow : string := String "194" (String "182" EmptyString).

(** What the scrapers read of the pages they parse.  An [li] of the index
    is read through its first anchor; a section through its heading, its
    direct sub-sections and the [li]s of its first [ul] ([None] when it has
    no [ul]); the page of one example through the text of its first [p]
    ([None] when it has no [p]) and its images. *)
Record Li : Type := mkLi {
  find_a : option Tag
}.

Record MinorSection : Type := mkMinorSection {
  minor_h3 : option Tag;
  minor_ul : option (list Li)
}.

Record MajorSection : Type := mkMajorSection {
  major_h2 : option Tag;
  minor_sections : list MinorSection;
  major_ul : option (list Li)
}.

Record ExamplePage : Type := mkExamplePage {
  p_text : option string;
  find_all_img : list Tag
}.

(** What [get_dipy_publications] reads of the [div] with id
    [publications]: its [h1] and its paragraphs. *)
Record PublicationsDiv : Type := mkPublicationsDiv {
  pub_h1 : option Tag;
  pub_p : list Tag
}.

(** The parsers, which live outside this repository:
    - [soup_find_sections body]: [BeautifulSoup(body, "lxml")], then
      [find("div", id="examples")] ([None] when there is none), then
      [find_all("div", class_="section", recursive=False)];
    - [soup_find_all_a body]: [BeautifulSoup(body, 'html.parser')], then
      [find_all('a')];
    - [soup_example parser body]: [BeautifulSoup(body, parser)] of the
      page of one example;
    - [soup_find_publications body]: [BeautifulSoup(body, "lxml")], then
      [find("div", id="publications")];
    - [strip_tags]: Django's [strip_tags], which takes the [str] of its
      argument first. *)
Record Soup : Type := mkSoup {
  soup_find_sections : string -> option (list MajorSection);
  soup_find_all_a : string -> list Tag;
  soup_example : string -> string -> ExamplePage;
  soup_find_publications : string -> option PublicationsDiv;
  strip_tags : json -> string
}.

(** [str(tag)] of what [find] returned, a tag or [None]. *)
Definition str_found {W} (R : Remote W) (o : option Tag) : string :=
  match o with Some tag => str_tag R tag | None => "None" end.

(** [v.replace] needs [v] to be a string. *)
Definition json_str (v : json) : result string :=
  match v with JStr s => Return s | _ => Raise AttributeError end.

(** ["/".join(href[3:].split("/")[:-1])] *)
Definition rel_url (href : string) : string :=
  String.concat "/" (removelast (str_split "/" (str_from 3 href))).

Definition get_examples_list_from_li_tags {W} (R : Remote W) (P : Soup)
    (base_url version path : string) (li_tags : list Li) : M W (list json) :=
  let url_dir := base_url +:+ version +:+ "/" +:+ path +:+ ".fjson/" in
  for_each_acc li_tags [] (fun li examples_list =>
    match find_a li with
    | None => ret examples_list
    | Some link =>
        let* href := lift_result (not_None (tag_get link "href")) in
        if startswith href "../examples_built" then
          let rel_url := rel_url href in
          let example_url := base_url +:+ version +:+ "/" +:+ rel_url +:+ ".fjson" in
          let* example_response := requests_get R example_url [] in
          let* example_json := lift_result (json_ example_response) in
          let* title := lift_result (json_getitem example_json "title") in
          let example_title := strip_tags P title in
          let* body := lift_result (json_getitem example_json "body") in
          let* body := lift_result (json_str body) in
          let body :=
            str_replace ("src=" +:+ dquote +:+ "../")
                        ("src=" +:+ dquote +:+ url_dir) body in
          let example_bs_doc := soup_example P "lxml" body in
          let* description := lift_result (not_None (p_text example_bs_doc)) in
          let example_dict :=
            JDict [("title", JStr example_title);
                   ("link", JStr ("/documentation/" +:+ version +:+ "/" +:+ path
                                  +:+ "/" +:+ href));
                   ("description", JStr description);
                   ("images",
                    JList (map (fun tag => JStr (str_tag R tag))
                               (find_all_img example_bs_doc)))] in
          ret (examples_list ++ [example_dict])
        else ret examples_list
    end).

(** The opening the fetchers share: [<path>.fjson] is asked for first, and
    [<path>/index.fjson] when the answer is 404; [None] stands for both
    being 404.  The URL that answered comes back with its response. *)
Definition get_fjson {W} (R : Remote W) (base_url version path : string)
  : M W (option (string * Response)) :=
  let url := base_url +:+ version +:+ "/" +:+ path +:+ ".fjson" in
  let* response := requests_get R url [] in
  if status_code response =? 404 then
    let url := base_url +:+ version +:+ "/" +:+ path +:+ "/index.fjson" in
    let* response := requests_get R url [] in
    if status_code response =? 404 then ret None
    else ret (Some (url, response))
  else ret (Some (url, response)).

(** [section.find("ul").find_all("li")], then the examples of those. *)
Definition examples_of_ul {W} (R : Remote W) (P : Soup)
    (base_url version path : string) (ul : option (list Li)) : M W (list json) :=
  let* all_li := lift_result (not_None ul) in
  get_examples_list_from_li_tags R P base_url version path all_li.

(** The body of [for minor_section in all_minor_sections]. *)
Definition minor_section_dict {W} (R : Remote W) (P : Soup)
    (base_url version path : string) (minor_section : MinorSection) : M W json :=
  let minor_section_title := minor_h3 minor_section in
  let* examples_list :=
    examples_of_ul R P base_url version path (minor_ul minor_section) in
  let valid := negb (length examples_list =? 0) in
  ret (JDict [("title", JStr (str_found R minor_section_title));
              ("examples_list", JList examples_list);
              ("valid", JBool valid)]).

(** The body of [for major_section in all_major_sections]. *)
Definition major_section_dict {W} (R : Remote W) (P : Soup)
    (base_url version path : string) (major_section : MajorSection) : M W json :=
  let major_section_title := major_h2 major_section in
  let all_minor_sections := minor_sections major_section in
  if length all_minor_sections =? 0 then
    let* examples_list :=
      examples_of_ul R P base_url version path (major_ul major_section) in
    let valid := negb (length examples_list =? 0) in
    ret (JDict [("title", JStr (str_found R major_section_title));
                ("minor_sections", JList []);
                ("examples_list", JList examples_list);
                ("valid", JBool valid)])
  else
    let* minor_section_dicts :=
      for_each_acc all_minor_sections [] (fun minor_section seen =>
        let* minor_section_dict :=
          minor_section_dict R P base_url version path minor_section in
        ret (seen ++ [minor_section_dict])) in
    ret (JDict [("title", JStr (str_found R major_section_title));
                ("minor_sections", JList minor_section_dicts);
                ("examples_list", JList []);
                ("valid", JBool true)]).

(** [get_doc_examples], from [path = 'examples_index'] on: what the field
    [scrape_examples] of a [Remote] stands for. *)
Definition scrape_doc_examples {W} (cfg : DocConfig) (R : Remote W) (P : Soup)
    (version : string) : M W json :=
  let path := "examples_index" in
  let base_url := base_url cfg in
  let* page := get_fjson R base_url version path in
  match page with
  | None => ret (JList [])
  | Some (url, response) =>
      let* response_json := lift_result (json_ response) in
      let* body := lift_result (json_getitem response_json "body") in
      let* body := lift_result (json_str body) in
      let body := str_replace pilcrow "" body in
      let* all_major_sections := lift_result (not_None (soup_find_sections P body)) in
      let* doc_examples :=
        for_each_acc all_major_sections [] (fun major_section doc_examples =>
          let* major_section_dict :=
            major_section_dict R P base_url version path major_section in
          ret (doc_examples ++ [major_section_dict])) in
      ret (JList doc_examples)
  end.

(** [get_doc_examples_images], from [path = 'examples_index'] on: what the
    field [scrape_gallery] of a [Remote] stands for. *)
Definition scrape_doc_examples_images {W} (cfg : DocConfig) (R : Remote W)
    (P : Soup) (version : string) : M W json :=
  let path := "examples_index" in
  let base_url := base_url cfg in
  let* page := get_fjson R base_url version path in
  match page with
  | None => ret (JList [])
  | Some (url, response) =>
      let url_dir := if ends_with_slash url then url else url +:+ "/" in
      let* response_json := lift_result (json_ response) in
      let* body := lift_result (json_getitem response_json "body") in
      let* body :=
        lift_result (match body with JStr b => Return b | _ => Raise TypeError end) in
      let all_links := soup_find_all_a P body in
      let* examples_list :=
        for_each_acc all_links [] (fun link examples_list =>
          let* href := lift_result (not_None (tag_get link "href")) in
          if startswith href "../examples_built" then
            let rel_url := rel_url href in
            let example_url :=
              base_url +:+ version +:+ "/" +:+ rel_url +:+ ".fjson" in
            let* example_response := requests_get R example_url [] in
            let* example_json := lift_result (json_ example_response) in
            let* title := lift_result (json_getitem example_json "title") in
            let example_title := strip_tags P title in
            let* body := lift_result (json_getitem example_json "body") in
            let* body := lift_result (json_str body) in
            let body :=
              str_replace ("src=" +:+ dquote +:+ "../")
                          ("src=" +:+ dquote +:+ url_dir) body in
            let example_bs_doc := soup_example P "html.parser" body in
            let* link_href := lift_result (first_item (str_split "#" href)) in
            let* description := lift_result (not_None (p_text example_bs_doc)) in
            let example_dict :=
              JDict [("title", JStr example_title);
                     ("link", JStr ("/documentation/" +:+ version +:+ "/" +:+ path
                                    +:+ "/" +:+ link_href));
                     ("description", JStr description);
                     ("images",
                      JList (map (fun tag => JStr (str_tag R tag))
                                 (find_all_img example_bs_doc)))] in
            ret (examples_list ++ [example_dict])
          else ret examples_list) in
      ret (JList examples_list)
  end.

(** A remote whose two scrapers are the ones above: with it,
    [get_doc_examples] and [get_doc_examples_images] are the functions of
    tools.py from their first line to their last. *)
Definition scraping {W} (cfg : DocConfig) (R : Remote W) (P : Soup) : Remote W :=
  mkRemote (requests_get R) (requests_post R) (soup_find_intro R) (str_tag R)
           (str_container R)
           (scrape_doc_examples cfg R P) (scrape_doc_examples_images cfg R P)
           (b64encode R).

(** [get_dipy_publications(count)] for a count that is not negative. *)
Definition get_dipy_publications {W} (cfg : DocConfig) (R : Remote W) (P : Soup)
    (count : nat) : SiteM W json :=
  resolve_version None (JList []) (fun version =>
    let path := "cite" in
    let base_url := base_url cfg in
    let* page := outbound (get_fjson R base_url version path) in
    match page with
    | None => ret (JList [])
    | Some (url, response) =>
        lift_result (
          let? response_json := json_ response in
          let? body := json_getitem response_json "body" in
          let? body := match body with JStr b => Return b | _ => Raise TypeError end in
          let? publication_div := not_None (soup_find_publications P body) in
          let? _ := not_None (pub_h1 publication_div) in
          let publication := pub_p publication_div in
          let publication :=
            if is_nil publication then publication else take count publication in
          Return (JStr (String.concat "" (map (str_tag R) publication))))
    end).

(** The anchors of the index that lead to an example, in order: the
    [href]s that start with [../examples_built]. *)
Fixpoint example_hrefs (li_tags : list Li) : list string :=
  match li_tags with
  | [] => []
  | li :: rest =>
      match find_a li with
      | Some link =>
          match tag_get link "href" with
          | Some href =>
              if startswith href "../examples_built"
              then href :: example_hrefs rest
              else example_hrefs rest
          | None => example_hrefs rest
          end
      | None => example_hrefs rest
      end
  end.

(** *** A sample documentation site

    A remote, over the log of the URLs asked for, that serves the index
    and every example page as the same JSON object, and parsers that read
    the index as one section of two links (one to an example, one to
    another page) and each example page as a paragraph and an image. *)
Definition index_lis : list Li :=
  [mkLi (Some (anchor "../examples_built/quick_start/#quick-start"));
   mkLi (Some (anchor "../installation"));
   mkLi None].

(** A section whose only sub-section has no example. *)
Definition hollow_section : MajorSection :=
  mkMajorSection None
    [mkMinorSection (Some (mkTag "h3" ∅)) (Some [mkLi None])] None.

Definition sample_soup : Soup :=
  mkSoup
    (fun _ => Some [mkMajorSection (Some (mkTag "h2" ∅)) [] (Some index_lis);
                    hollow_section])
    (fun _ => [anchor "../examples_built/quick_start/#quick-start";
               anchor "../installation"])
    (fun _ _ => mkExamplePage (Some "Quick start.") [mkTag "img" ∅])
    (fun _ => Some (mkPublicationsDiv (Some (mkTag "h1" ∅))
                      [mkTag "p" ∅; mkTag "p" ∅]))
    (fun title => match title with JStr s => s | _ => "" end).

Definition page_json : json :=
  JDict [("title", JStr "Quick start"); ("body", JStr "<p>Quick start.</p>")].

Definition docs_remote : Remote (list string) :=
  mkRemote
    (fun url _ w => (Return (mkResponse 200 (Return page_json)), w ++ [url]))
    (fun url _ _ w => (Raise ConnectionError, w ++ [url]))
    (fun _ => None)
    (fun tag => "<" +:+ tag_name tag +:+ ">")
    (fun _ => "")
    (fun _ w => (Raise ConnectionError, w))
    (fun _ w => (Raise ConnectionError, w))
    (fun s => s).

(** *** More sample citations *)

(** An entry that names both a journal and a book title. *)
Definition entry_in_proceedings : dict :=
  {[ "ENTRYTYPE" := "inproceedings";
     "title" := "Dipy - a novel software library for diffusion MR and tractography";
     "author" := "Garyfallidis, E. and Brett, M.";
     "link" := "https://dipy.org";
     "journal" := "Proceedings";
     "booktitle" := "ISMRM";
     "year" := "2011" ]}.

(** What the bibtex path stores for it: the book title is the venue. *)
Definition stored_proceedings : Publication.t :=
  Publication.mk
    "Dipy - a novel software library for diffusion MR and tractography"
    "Garyfallidis, E. and Brett, M." "https://dipy.org"
    (Some "inproceedings") None (Some "ISMRM") None (Some "2011") None
    (Some "@inproceedings{dipy, ...}") false.

(* ====================================================================== *)
(** * Part II: properties                                                  *)
(* ====================================================================== *)

(** ** Computations *)

Lemma bind_Return {S A B} (m : M S A) (k : A -> M S B) s a s1 :
  m s = (Return a, s1) -> bind m k s = k a s1.
Proof. intros Hm. unfold bind. by rewrite Hm. Qed.

(** ** Tables *)

Section TableFacts.
Context {R : Type}.
Implicit Types (t : Table R) (l : list (nat * R)).

Lemma update_off_key l i (x : R) :
  i ∉ map fst l ->
  map (fun r => if fst r =? i then (i, x) else r) l = l.
Proof.
  induction l as [|[j y] l IH]; simpl; intros Hni; [done|].
  apply not_elem_of_cons in Hni as [Hne Hni].
  destruct (Nat.eqb_spec j i) as [->|_]; [done|].
  by rewrite IH.
Qed.

Lemma update_at_key l1 l2 i (y x : R) :
  NoDup (map fst (l1 ++ (i, y) :: l2)) ->
  map (fun r => if fst r =? i then (i, x) else r) (l1 ++ (i, y) :: l2)
  = l1 ++ (i, x) :: l2.
Proof.
  rewrite map_app. simpl. intros Hnd.
  apply NoDup_app in Hnd as (_ & Hl1 & Hnd).
  apply NoDup_cons in Hnd as [Hl2 _].
  rewrite List.map_app. simpl. rewrite Nat.eqb_refl.
  rewrite !update_off_key; [done|done|].
  intros Hin. apply (Hl1 i Hin). left.
Qed.

Lemma has_row_elem l1 l2 i (y : R) n :
  has_row i (mkTable (l1 ++ (i, y) :: l2) n) = true.
Proof.
  unfold has_row. simpl. rewrite existsb_app. simpl.
  rewrite Nat.eqb_refl. by rewrite orb_true_r.
Qed.

Lemma save_existing l1 l2 i (y x : R) n :
  NoDup (map fst (l1 ++ (i, y) :: l2)) ->
  save (mkObj (Some i) x) (mkTable (l1 ++ (i, y) :: l2) n)
  = (mkObj (Some i) x, mkTable (l1 ++ (i, x) :: l2) n).
Proof.
  intros Hnd. unfold save. cbn [pk fields].
  rewrite has_row_elem. unfold sql_update. cbn [rows next_id].
  by rewrite (update_at_key _ _ _ _ _ Hnd).
Qed.

(** A loop over a snapshot of the rows whose body rewrites the row it is
    given, in place, rewrites the table row by row. *)
Lemma for_each_rows (body : Obj R -> M (Table R) unit) (f : nat -> R -> R) n :
  (forall seen i y rest,
      NoDup (map fst (seen ++ (i, y) :: rest)) ->
      body (obj_of_row (i, y)) (mkTable (seen ++ (i, y) :: rest) n)
      = (Return tt, mkTable (seen ++ (i, f i y) :: rest) n)) ->
  forall todo seen,
    NoDup (map fst (seen ++ todo)) ->
    for_each (map obj_of_row todo) body (mkTable (seen ++ todo) n)
    = (Return tt,
       mkTable (seen ++ map (fun r => (fst r, f (fst r) (snd r))) todo) n).
Proof.
  intros Hbody todo.
  induction todo as [|[i y] todo IH]; intros seen Hnd; [done|].
  cbn [map for_each]. unfold bind. rewrite (Hbody _ _ _ _ Hnd).
  assert (seen ++ (i, f i y) :: todo = (seen ++ [(i, f i y)]) ++ todo) as ->.
  { by rewrite <- app_assoc. }
  rewrite IH.
  - by rewrite <- app_assoc.
  - rewrite <- app_assoc. cbn [app].
    rewrite !map_app in *. exact Hnd.
Qed.
Lemma filter_off_key l i :
  i ∉ map fst l ->
  List.filter (fun r : nat * R => negb (fst r =? i)) l = l.
Proof.
  induction l as [|[j y] l IH]; simpl; intros Hni; [done|].
  apply not_elem_of_cons in Hni as [Hne Hni].
  destruct (Nat.eqb_spec j i) as [->|_]; [done|].
  simpl. by rewrite IH.
Qed.

Lemma delete_at_key l1 l2 i (y : R) :
  NoDup (map fst (l1 ++ (i, y) :: l2)) ->
  List.filter (fun r : nat * R => negb (fst r =? i)) (l1 ++ (i, y) :: l2)
  = l1 ++ l2.
Proof.
  rewrite map_app. simpl. intros Hnd.
  apply NoDup_app in Hnd as (_ & Hl1 & Hnd).
  apply NoDup_cons in Hnd as [Hl2 _].
  rewrite List.filter_app. simpl. rewrite Nat.eqb_refl. simpl.
  rewrite !filter_off_key; [done|done|].
  intros Hin. apply (Hl1 i Hin). left.
Qed.

Lemma has_row_absent l i n :
  i ∉ map fst l -> has_row i (mkTable l n) = false.
Proof.
  unfold has_row. simpl. induction l as [|[j y] l IH]; simpl; intros Hni; [done|].
  apply not_elem_of_cons in Hni as [Hne Hni].
  destruct (Nat.eqb_spec j i) as [->|_]; [done|]. by apply IH.
Qed.

Lemma table_wf_fresh t : table_wf t -> next_id t ∉ keys t.
Proof.
  intros [_ Hlt] Hin. rewrite Forall_forall in Hlt.
  specialize (Hlt _ Hin). lia.
Qed.

Lemma table_wf_insert t i (x : R) :
  table_wf t -> i ∉ keys t -> table_wf (sql_insert i x t).
Proof.
  intros [Hnd Hlt] Hni. unfold table_wf, keys, sql_insert in *. simpl.
  rewrite map_app. simpl. split.
  - apply NoDup_app. split; [done|]. split.
    + intros j Hj Hj'. apply list_elem_of_singleton in Hj'. by subst.
    + apply NoDup_singleton.
  - apply Forall_app. split.
    + eapply Forall_impl; [exact Hlt|]. simpl. lia.
    + apply Forall_singleton. lia.
Qed.

Lemma table_wf_split l1 l2 i (y : R) n :
  table_wf (mkTable (l1 ++ (i, y) :: l2) n) ->
  table_wf (mkTable (l1 ++ l2) n) /\ (i ∉ map fst (l1 ++ l2)) /\ i < n.
Proof.
  unfold table_wf, keys. simpl. rewrite !map_app. simpl.
  intros [Hnd Hlt].
  apply NoDup_app in Hnd as (Hnd1 & Hl1 & Hnd).
  apply NoDup_cons in Hnd as [Hl2 Hnd2].
  apply Forall_app in Hlt as [Hlt1 Hlt].
  apply Forall_cons in Hlt as [Hi Hlt2].
  split; [split|split]; [| |intros [?|?]%elem_of_app|done].
  - apply NoDup_app. split; [done|]. split; [|done].
    intros j Hj Hj'. apply (Hl1 j Hj). by right.
  - apply Forall_app. done.
  - apply (Hl1 i); [done|left].
  - done.
Qed.

Lemma table_wf_update l1 l2 i (y x : R) n :
  table_wf (mkTable (l1 ++ (i, y) :: l2) n) ->
  table_wf (mkTable (l1 ++ (i, x) :: l2) n).
Proof.
  unfold table_wf, keys. simpl. by rewrite !map_app.
Qed.
Lemma has_row_iff t i : has_row i t = true <-> i ∈ keys t.
Proof.
  unfold has_row, keys. induction (rows t) as [|[j y] l IH]; simpl.
  - split; [done|]. intros H. by apply elem_of_nil in H.
  - rewrite orb_true_iff, IH, elem_of_cons, Nat.eqb_eq.
    split; (intros [?|?]; [by left|by right]).
Qed.

Lemma keys_sql_update t i (x : R) : keys (sql_update i x t) = keys t.
Proof.
  unfold keys, sql_update. cbn [rows].
  induction (rows t) as [|[j y] l IH]; simpl; [done|].
  rewrite IH. by destruct (Nat.eqb_spec j i) as [->|_].
Qed.

Lemma sql_update_twice t i (x y : R) :
  sql_update i y (sql_update i x t) = sql_update i y t.
Proof.
  unfold sql_update. cbn [rows next_id]. f_equal.
  induction (rows t) as [|[j z] l IH]; simpl; [done|].
  rewrite IH. destruct (Nat.eqb_spec j i) as [->|Hne]; simpl.
  - by rewrite Nat.eqb_refl.
  - by destruct (Nat.eqb_spec j i).
Qed.

Lemma sql_update_same t i (x : R) :
  NoDup (keys t) -> (i, x) ∈ rows t -> sql_update i x t = t.
Proof.
  destruct t as [l n]. unfold keys, sql_update. cbn [rows next_id].
  intros Hnd Hin. f_equal.
  apply list_elem_of_split in Hin as (l1 & l2 & ->).
  by apply update_at_key.
Qed.

Lemma elem_of_sql_update t i (x : R) r :
  r ∈ rows (sql_update i x t)
  <-> (r ∈ rows t /\ fst r <> i) \/ (r = (i, x) /\ i ∈ keys t).
Proof.
  unfold sql_update, keys. cbn [rows].
  induction (rows t) as [|[j y] l IH]; simpl.
  - rewrite !elem_of_nil. split; [done|]. by intros [[[] _]|[_ []]].
  - rewrite !elem_of_cons, IH. clear IH.
    destruct (Nat.eqb_spec j i) as [->|Hne]; simpl; split.
    + intros [->|[[? ?]|[-> ?]]]; [right|left|right]; auto.
    + intros [[[->|?] ?]|[-> _]]; [done|right; left|left]; auto.
    + intros [->|[[? ?]|[-> ?]]]; [left|left|right]; auto.
    + intros [[[->|?] ?]|[-> [?|?]]]; [left|right; left|done|right; right];
        auto.
Qed.

Lemma NoDup_filter_keys (p : nat * R -> bool) l :
  NoDup (map fst l) -> NoDup (map fst (List.filter p l)).
Proof.
  induction l as [|[j y] l IH]; simpl; intros Hnd; [done|].
  apply NoDup_cons in Hnd as [Hj Hnd].
  destruct (p (j, y)); simpl; [|by apply IH].
  apply NoDup_cons. split; [|by apply IH].
  intros Hin. apply Hj.
  apply list_elem_of_fmap in Hin as (r & -> & Hr).
  apply list_elem_of_In, List.filter_In in Hr as [Hr _].
  apply (list_elem_of_fmap_2 fst). by apply list_elem_of_In.
Qed.
End TableFacts.

Lemma objects_filter_rows {R} (p : nat -> R -> bool) (t : Table R) :
  objects_filter p t
  = map obj_of_row (List.filter (fun r => p (fst r) (snd r)) (rows t)).
Proof.
  unfold objects_filter, objects_all.
  induction (rows t) as [|[j y] l IH]; simpl; [done|].
  destruct (p j y); simpl; by rewrite IH.
Qed.

Lemma objects_get_none {R} (p : nat -> R -> bool) (t : Table R) :
  (forall r, r ∈ rows t -> p (fst r) (snd r) = false) ->
  objects_get p t = Raise ObjectDoesNotExist.
Proof.
  intros Hnone. unfold objects_get. rewrite objects_filter_rows.
  assert (List.filter (fun r => p (fst r) (snd r)) (rows t) = []) as ->; [|done].
  induction (rows t) as [|r l IH]; [done|]. simpl.
  rewrite (Hnone r) by left. apply IH. intros r' Hr'. apply Hnone. by right.
Qed.

(** ** Publications *)

(** C3.  A POST to the highlight handler leaves every existing publication
    with [is_highlighted] equal to "the decimal form of its id is among the
    submitted values of [highlights[]]": true for exactly the submitted
    records, false for all others, whatever else was submitted.  No other
    field, no key and no row changes, and the handler redirects to the
    dashboard. *)
Theorem highlight_publications_sets_exactly_submitted
    (request : HttpRequest) (t : Table Publication.t) :
  method request = "POST" ->
  NoDup (keys t) ->
  highlight_publications request t
  = (Return (redirect "/dashboard/publications/"),
     mkTable
       (map (fun r =>
               (fst r,
                Publication.set_is_highlighted
                  (bool_decide
                     (str_of_nat (fst r) ∈ getlist (POST request) "highlights[]"))
                  (snd r)))
            (rows t))
       (next_id t)).
Proof.
  intros Hpost Hnd. unfold highlight_publications.
  rewrite Hpost. cbn [String.eqb Ascii.eqb Bool.eqb].
  destruct t as [l n]. unfold keys in Hnd. cbn [rows next_id] in *.
  unfold bind at 1. unfold gets at 1. unfold objects_all. cbn [rows].
  unfold bind at 1.
  rewrite (for_each_rows _
             (fun i p =>
                Publication.set_is_highlighted
                  (bool_decide (str_of_nat i ∈ getlist (POST request) "highlights[]")) p)
             n) with (seen := []); [done| |done].
  intros seen i y rest Hnd'. unfold obj_of_row, str_of_id, with_fields.
  cbn [fst snd pk fields]. unfold bind, save_object, ret.
  destruct (bool_decide (str_of_nat i ∈ getlist (POST request) "highlights[]"));
    by rewrite (save_existing _ _ _ _ _ _ Hnd').
Qed.

Lemma highlight_publications_sets_exactly_submitted_witness :
  highlight_publications
    (mkRequest "POST" [("highlights[]", "2"); ("highlights[]", "7")])
    (mkTable
       [(1, Publication.mk "A" "a" "u" None None None None None None None true);
        (2, Publication.mk "B" "b" "v" None None None None None None None false)]
       3)
  = (Return (redirect "/dashboard/publications/"),
     mkTable
       [(1, Publication.mk "A" "a" "u" None None None None None None None false);
        (2, Publication.mk "B" "b" "v" None None None None None None None true)]
       3).
Proof.
  apply (highlight_publications_sets_exactly_submitted
           (mkRequest "POST" [("highlights[]", "2"); ("highlights[]", "7")])
           (mkTable
              [(1, Publication.mk "A" "a" "u" None None None None None None None true);
               (2, Publication.mk "B" "b" "v" None None None None None None None false)]
              3)).
  - reflexivity.
  - unfold keys. simpl. apply (bool_decide_unpack _). vm_compute. exact I.
Defined.

(** Case analysis on the next dictionary lookup the goal is stuck on. *)
Ltac split_lookup d :=
  match goal with
  | |- context [ d !! ?k ] => destruct (d !! k) eqn:?; cbv beta iota
  end.

(** C5.  On the bibtex path, a POST whose citation does not parse (the
    parser raises, or yields no entry), or whose first entry lacks the
    title, or lacks the author under both [author] and [authors], or lacks
    all of [url], [link] and [doi], creates no publication: the table is
    left as it was and the handler returns the entry form again, without
    raising. *)
Theorem add_publication_bibtex_rejects_incomplete
    (env : PublicationEnv) (request : HttpRequest) (t : Table Publication.t) :
  method request = "POST" ->
  (let parsed := bibtexparser_loads env (QueryDict_get (POST request) "bibtex") in
   (exists e, parsed = Raise e) \/
   parsed = Return [] \/
   (exists (bibInfo : dict) rest,
       parsed = Return (bibInfo :: rest) /\
       (bibInfo !! "title" = None \/
        (bibInfo !! "author" = None /\ bibInfo !! "authors" = None) \/
        (bibInfo !! "url" = None /\ bibInfo !! "link" = None /\
         bibInfo !! "doi" = None)))) ->
  add_publication env request "bibtex" t
  = (Return (render "website/addpublicationbibtex.html" []), t).
Proof.
  intros Hpost Hbad. unfold add_publication.
  rewrite Hpost. cbn [String.eqb Ascii.eqb Bool.eqb].
  unfold try_except, bind at 1, lift_result at 1.
  destruct Hbad as [[e ->]|[->|(bibInfo & rest & -> & Hmissing)]]; [done|done|].
  unfold bind, lift_result, first_item, has_key, getitem, ret.
  destruct Hmissing as [Ht|[[Ha Has]|(Hu & Hl & Hd)]].
  - rewrite Ht. cbv beta iota. repeat split_lookup bibInfo; reflexivity.
  - rewrite Ha, Has. cbv beta iota. repeat split_lookup bibInfo; reflexivity.
  - rewrite Hu, Hl, Hd. cbv beta iota. repeat split_lookup bibInfo; reflexivity.
Qed.

Lemma add_publication_bibtex_rejects_incomplete_witness :
  add_publication (env_yielding entry_without_title)
    (bibtex_post "@article{dipy, author={...}, doi={...}}") "bibtex"
    (mkTable [] 1)
  = (Return (render "website/addpublicationbibtex.html" []), mkTable [] 1).
Proof.
  apply (add_publication_bibtex_rejects_incomplete
           (env_yielding entry_without_title)
           (bibtex_post "@article{dipy, author={...}, doi={...}}")
           (mkTable [] 1)).
  - reflexivity.
  - right. right. exists entry_without_title, []. split; [reflexivity|].
    left. vm_compute. reflexivity.
Defined.

(** C4 (the code departs from the claim).  A citation that parses and
    gives its author under the key [authors] only creates no publication,
    whatever else it gives: the handler finds [authors], then reads the
    key [aithors], the lookup raises [KeyError], and the blanket handler
    returns the entry form.  The table is left as it was. *)
Theorem add_publication_bibtex_authors_key_creates_nothing
    (env : PublicationEnv) (request : HttpRequest) (t : Table Publication.t)
    (bibInfo : dict) (rest : list dict) (value : string) :
  method request = "POST" ->
  bibtexparser_loads env (QueryDict_get (POST request) "bibtex")
  = Return (bibInfo :: rest) ->
  bibInfo !! "author" = None ->
  bibInfo !! "authors" = Some value ->
  bibInfo !! "aithors" = None ->
  add_publication env request "bibtex" t
  = (Return (render "website/addpublicationbibtex.html" []), t).
Proof.
  intros Hpost Hparsed Hauthor Hauthors Hslip. unfold add_publication.
  rewrite Hpost. cbn [String.eqb Ascii.eqb Bool.eqb].
  unfold try_except, bind at 1, lift_result at 1. rewrite Hparsed.
  unfold bind, lift_result, first_item, has_key, getitem, ret.
  rewrite Hauthor, Hauthors, Hslip. cbv beta iota.
  destruct (bibInfo !! "title"); reflexivity.
Qed.

Lemma add_publication_bibtex_authors_key_creates_nothing_witness :
  add_publication (env_yielding entry_with_authors)
    (bibtex_post "@article{dipy, title={...}, authors={...}, url={...}}")
    "bibtex" (mkTable [] 1)
  = (Return (render "website/addpublicationbibtex.html" []), mkTable [] 1).
Proof.
  apply (add_publication_bibtex_authors_key_creates_nothing
           (env_yielding entry_with_authors)
           (bibtex_post "@article{dipy, title={...}, authors={...}, url={...}}")
           (mkTable [] 1) entry_with_authors []
           "Garyfallidis, E. and Brett, M.");
    vm_compute; reflexivity.
Defined.

Lemma assign_if_present_keeps {A} (f : Publication.t -> A) d k set p :
  (forall v q, f (set v q) = f q) ->
  f (assign_if_present d k set p) = f p.
Proof. intros Hset. unfold assign_if_present. by destruct (d !! k). Qed.

(** The field [f] survives the chain of optional assignments. *)
Ltac keep_field f :=
  repeat (rewrite (assign_if_present_keeps f); [|intros; reflexivity]);
  reflexivity.

(** Under the key [author] the citation is stored: a citation that parses
    and gives a non-empty title, a non-empty author under [author] and a
    non-empty URL (from [url], else [link], else [doi]) adds exactly one
    publication, under a fresh key, carrying that title, author and URL
    and the text submitted, and the handler redirects to the dashboard. *)
Theorem add_publication_bibtex_author_key_creates_record
    (env : PublicationEnv) (request : HttpRequest) (t : Table Publication.t)
    (bibInfo : dict) (rest : list dict) (title author url : string) :
  method request = "POST" ->
  bibtexparser_loads env (QueryDict_get (POST request) "bibtex")
  = Return (bibInfo :: rest) ->
  bibInfo !! "title" = Some title ->
  bibInfo !! "author" = Some author ->
  url_of_entry bibInfo = Some url ->
  str_truthy title = true -> str_truthy author = true -> str_truthy url = true ->
  exists p,
    add_publication env request "bibtex" t
    = (Return (redirect "/dashboard/publications/"),
       mkTable (rows t ++ [(next_id t, p)]) (S (next_id t))) /\
    Publication.title p = title /\
    Publication.author p = author /\
    Publication.url p = url /\
    Publication.bibtex p = QueryDict_get (POST request) "bibtex".
Proof.
  intros Hpost Hparsed Htitle Hauthor Hurl Ht Ha Hu. unfold add_publication.
  rewrite Hpost. cbn [String.eqb Ascii.eqb Bool.eqb].
  unfold try_except, bind at 1, lift_result at 1. rewrite Hparsed.
  unfold bind, lift_result, first_item, has_key, getitem, ret.
  rewrite Htitle, Hauthor. cbv beta iota.
  assert (Nat.max (next_id t) (S (next_id t)) = S (next_id t)) as Hmax by lia.
  unfold url_of_entry in Hurl.
  destruct (bibInfo !! "url") as [u|] eqn:Eu; cbv beta iota;
    [|destruct (bibInfo !! "link") as [u|] eqn:El; cbv beta iota;
      [|destruct (bibInfo !! "doi") as [d|] eqn:Ed; cbv beta iota; [|done]]];
    simplify_eq; rewrite Ht, Ha, Hu; cbn [andb]; cbv beta iota zeta;
    unfold save_object, save, sql_insert; cbn [pk fields rows next_id];
    rewrite Hmax; eexists; (split; [reflexivity|]);
    unfold Publication.set_bibtex;
    cbn [Publication.title Publication.author Publication.url Publication.bibtex];
    repeat split;
    first [ keep_field Publication.title | keep_field Publication.author
          | keep_field Publication.url | reflexivity ].
Qed.

Lemma add_publication_bibtex_author_key_creates_record_witness :
  exists p,
    add_publication (env_yielding entry_with_author)
      (bibtex_post "@article{dipy, title={...}, author={...}, url={...}}")
      "bibtex" (mkTable [] 1)
    = (Return (redirect "/dashboard/publications/"),
       mkTable ([] ++ [(1, p)]) 2) /\
    Publication.title p
    = "Dipy, a library for the analysis of diffusion MRI data" /\
    Publication.author p = "Garyfallidis, E. and Brett, M." /\
    Publication.url p = "https://doi.org/10.3389/fninf.2014.00008" /\
    Publication.bibtex p
    = Some "@article{dipy, title={...}, author={...}, url={...}}".
Proof.
  apply (add_publication_bibtex_author_key_creates_record
           (env_yielding entry_with_author)
           (bibtex_post "@article{dipy, title={...}, author={...}, url={...}}")
           (mkTable [] 1) entry_with_author []);
    vm_compute; reflexivity.
Defined.

(** ** Documentation sync *)

Section SyncFacts.
Variable cfg : DocConfig.
Implicit Types (t : Table Doc) (G : list string).

Local Abbreviation flag_cleared r :=
  (DocumentationLink.is_updated (snd r) = false).

(** One turn of the second loop, on a row of the table: it returns, keeps
    the table well formed and the tracked versions the same up to order,
    leaves the row (or its re-inserted copy) with the flag cleared,
    and touches no other row. *)
Lemma remove_deleted_doc_step G t i d :
  table_wf t -> (i, d) ∈ rows t ->
  exists t',
    remove_deleted_doc cfg G (obj_of_row (i, d)) t = (Return tt, t') /\
    table_wf t' /\
    tracked_versions t' ≡ₚ tracked_versions t /\
    (forall r, r ∈ rows t' -> flag_cleared r \/ (r ∈ rows t /\ fst r <> i)) /\
    (forall r, r ∈ rows t -> fst r <> i -> r ∈ rows t').
Proof.
  intros Hwf Hin. destruct t as [l n]. cbn [rows] in Hin.
  apply list_elem_of_split in Hin as (l1 & l2 & ->).
  pose proof Hwf as [Hnd _]. unfold keys in Hnd. cbn [rows] in Hnd.
  destruct (table_wf_split _ _ _ _ _ Hwf) as (Hwf' & Hni & Hlt).
  set (d' := DocumentationLink.set_is_updated false d).
  unfold remove_deleted_doc, obj_of_row. cbn [fst snd fields].
  destruct (bool_decide (DocumentationLink.version d ∈ G)); cbn [negb].
  - (* still upstream: the row is updated in place *)
    exists (mkTable (l1 ++ (i, d') :: l2) n).
    split; [|split; [|split; [|split]]].
    + unfold bind, ret, save_object, with_fields. cbn [pk fields].
      by rewrite (save_existing _ _ _ _ _ _ Hnd).
    + by apply (table_wf_update _ _ _ d).
    + unfold tracked_versions. cbn [rows]. by rewrite !map_app.
    + cbn [rows]. intros r [Hr|[->|Hr]%elem_of_cons]%elem_of_app.
      * right. split; [set_solver|].
        intros <-. apply Hni. rewrite map_app. apply elem_of_app. left.
        by apply (list_elem_of_fmap_2 fst).
      * by left.
      * right. split; [set_solver|].
        intros <-. apply Hni. rewrite map_app. apply elem_of_app. right.
        by apply (list_elem_of_fmap_2 fst).
    + cbn [rows]. intros r [Hr|[->|Hr]%elem_of_cons]%elem_of_app Hne;
        [set_solver|done|set_solver].
  - (* gone upstream: the row is deleted, and saved again *)
    set (k := if delete_clears_pk cfg then n else i).
    exists (mkTable ((l1 ++ l2) ++ [(k, d')]) (Nat.max n (S k))).
    assert (k ∉ map fst (l1 ++ l2)) as Hk.
    { subst k. destruct (delete_clears_pk cfg); [|done].
      apply (table_wf_fresh (mkTable (l1 ++ l2) n) Hwf'). }
    split; [|split; [|split; [|split]]].
    + unfold bind, ret, save_object, doc_delete, delete, with_fields.
      cbn [pk fields]. unfold sql_delete. cbn [rows next_id].
      rewrite (delete_at_key _ _ _ _ Hnd). subst k.
      unfold save. destruct (delete_clears_pk cfg); cbn [pk fields]; [done|].
      by rewrite (has_row_absent _ _ _ Hni).
    + apply (table_wf_insert (mkTable (l1 ++ l2) n) k d' Hwf' Hk).
    + unfold tracked_versions. cbn [rows]. rewrite !map_app. simpl.
      rewrite <- app_assoc. apply Permutation_app_head.
      symmetry. apply Permutation_cons_append.
    + cbn [rows]. intros r [[Hr|Hr]%elem_of_app|Hr%list_elem_of_singleton]%elem_of_app.
      * right. split; [set_solver|].
        intros <-. apply Hni. rewrite map_app. apply elem_of_app. left.
        by apply (list_elem_of_fmap_2 fst).
      * right. split; [set_solver|].
        intros <-. apply Hni. rewrite map_app. apply elem_of_app. right.
        by apply (list_elem_of_fmap_2 fst).
      * left. by subst r.
    + cbn [rows]. intros r [Hr|[->|Hr]%elem_of_cons]%elem_of_app Hne;
        [set_solver|done|set_solver].
Qed.
Lemma remove_deleted_docs_spec G todo :
  forall t,
    table_wf t -> NoDup (map fst todo) -> (forall r, r ∈ todo -> r ∈ rows t) ->
    exists t',
      remove_deleted_docs cfg G (map obj_of_row todo) t = (Return tt, t') /\
      table_wf t' /\
      tracked_versions t' ≡ₚ tracked_versions t /\
      (forall r, r ∈ rows t' ->
                 flag_cleared r \/ (r ∈ rows t /\ fst r ∉ map fst todo)).
Proof.
  unfold remove_deleted_docs.
  induction todo as [|[i d] todo IH]; intros t Hwf Hnd Hsub.
  - exists t. split; [done|]. split; [done|]. split; [done|].
    intros r Hr. right. split; [done|]. simpl. apply not_elem_of_nil.
  - cbn [map fst] in Hnd. apply NoDup_cons in Hnd as [Hi Hnd].
    destruct (remove_deleted_doc_step G t i d Hwf) as (t1 & Hrun & Hwf1 & Hp1 & Hfl1 & Hkeep);
      [apply Hsub; left|].
    destruct (IH t1 Hwf1 Hnd) as (t' & Hrun' & Hwf' & Hp' & Hfl').
    { intros r Hr. apply Hkeep; [apply Hsub; by right|].
      intros Heq. apply Hi. rewrite <- Heq.
      by apply (list_elem_of_fmap_2 fst). }
    exists t'. split; [|split; [done|split]].
    + cbn [map for_each]. unfold bind at 1. by rewrite Hrun.
    + by rewrite Hp'.
    + intros r Hr. destruct (Hfl' r Hr) as [?|[Hr1 Hni]]; [by left|].
      destruct (Hfl1 r Hr1) as [?|[Hr0 Hne]]; [by left|].
      right. split; [done|]. cbn [map fst]. by apply not_elem_of_cons.
Qed.

(** *** The first loop *)

Lemma doc_get_by_version v t :
  objects_get (fun _ d => String.eqb (DocumentationLink.version d) v) t
  = match List.filter (fun r => String.eqb (DocumentationLink.version (snd r)) v)
                      (rows t) with
    | [] => Raise ObjectDoesNotExist
    | [r] => Return (obj_of_row r)
    | _ :: _ :: _ => Raise MultipleObjectsReturned
    end.
Proof.
  unfold objects_get. rewrite objects_filter_rows. cbn [fst snd].
  by destruct (List.filter _ (rows t)) as [|? [|? ?]].
Qed.

(** What one turn of the first loop does, by the number of records that
    track the entry's name. *)
Lemma add_new_doc_cases content acc t :
  add_new_doc cfg content acc t
  = if String.eqb (type_ content) "dir" then
      match version_count (name content) t with
      | 0 => (Return (acc ++ [name content]),
              sql_insert (next_id t)
                (new_DocumentationLink cfg (name content)
                   (base_url cfg +:+ name content)) t)
      | 1 => (Return (acc ++ [name content]), t)
      | _ => (Raise MultipleObjectsReturned, t)
      end
    else (Return acc, t).
Proof.
  unfold add_new_doc, version_count.
  destruct (String.eqb (type_ content) "dir"); [|done].
  unfold bind, try_except, get_object, ret. cbv beta.
  rewrite doc_get_by_version.
  by destruct (List.filter _ (rows t)) as [|? [|? ?]].
Qed.
Lemma version_count_insert v k d t :
  version_count v (sql_insert k d t)
  = version_count v t
    + (if String.eqb (DocumentationLink.version d) v then 1 else 0).
Proof.
  unfold version_count, sql_insert. cbn [rows].
  rewrite List.filter_app, length_app. cbn [List.filter snd].
  by destruct (String.eqb (DocumentationLink.version d) v).
Qed.

Lemma version_count_tracked v t :
  version_count v t
  = length (List.filter (fun x => String.eqb x v) (tracked_versions t)).
Proof.
  unfold version_count, tracked_versions.
  induction (rows t) as [|[j y] l IH]; simpl; [done|].
  destruct (String.eqb (DocumentationLink.version y) v); simpl; by rewrite IH.
Qed.

Lemma filter_length_perm (p : string -> bool) (l1 l2 : list string) :
  l1 ≡ₚ l2 -> length (List.filter p l1) = length (List.filter p l2).
Proof.
  induction 1 as [|x l1 l2 _ IH|x y l|l1 l2 l3 _ IH1 _ IH2]; simpl.
  - done.
  - destruct (p x); simpl; by rewrite IH.
  - by destruct (p x), (p y).
  - by rewrite IH1.
Qed.

Lemma version_count_perm v t u :
  tracked_versions t ≡ₚ tracked_versions u ->
  version_count v t = version_count v u.
Proof.
  intros Hp. rewrite !version_count_tracked. by apply filter_length_perm.
Qed.

(** The first loop keeps the table well formed, and never changes how
    many records track a version that is tracked already. *)
Lemma add_new_docs_wf l :
  forall acc t r t',
    for_each_acc l acc (add_new_doc cfg) t = (r, t') ->
    table_wf t -> table_wf t'.
Proof.
  induction l as [|c l IH]; intros acc t r t' Hrun Hwf.
  - unfold for_each_acc, ret in Hrun. by simplify_eq.
  - cbn [for_each_acc] in Hrun. unfold bind in Hrun.
    rewrite add_new_doc_cases in Hrun.
    destruct (String.eqb (type_ c) "dir"); [|by eapply IH].
    destruct (version_count (name c) t) as [|[|?]].
    + eapply IH; [exact Hrun|].
      apply table_wf_insert; [done|by apply table_wf_fresh].
    + by eapply IH.
    + by simplify_eq.
Qed.

Lemma add_new_docs_count l v :
  forall acc t r t',
    for_each_acc l acc (add_new_doc cfg) t = (r, t') ->
    1 <= version_count v t ->
    version_count v t' = version_count v t.
Proof.
  induction l as [|c l IH]; intros acc t r t' Hrun Hv.
  - unfold for_each_acc, ret in Hrun. by simplify_eq.
  - cbn [for_each_acc] in Hrun. unfold bind in Hrun.
    rewrite add_new_doc_cases in Hrun.
    destruct (String.eqb (type_ c) "dir"); [|by eapply IH].
    destruct (version_count (name c) t) as [|[|?]] eqn:Hc.
    + assert (String.eqb (name c) v = false) as Hne.
      { apply String.eqb_neq. intros Heq. rewrite Heq in Hc. lia. }
      erewrite IH; [|exact Hrun|].
      * rewrite version_count_insert. cbn [DocumentationLink.version new_DocumentationLink].
        rewrite Hne. lia.
      * rewrite version_count_insert. lia.
    + by eapply IH.
    + by simplify_eq.
Qed.

(** Run again on any table that tracks each version as often as the
    table the first run left, the first loop does the same and changes
    nothing. *)
Lemma add_new_docs_settled l :
  forall acc t r t' u,
    for_each_acc l acc (add_new_doc cfg) t = (r, t') ->
    (forall v, version_count v u = version_count v t') ->
    for_each_acc l acc (add_new_doc cfg) u = (r, u).
Proof.
  induction l as [|c l IH]; intros acc t r t' u Hrun Hu.
  - unfold for_each_acc, ret in *. by simplify_eq.
  - cbn [for_each_acc] in *. unfold bind in *.
    rewrite add_new_doc_cases in *.
    destruct (String.eqb (type_ c) "dir"); [|by eapply IH].
    destruct (version_count (name c) t) as [|[|?]] eqn:Hc.
    + assert (version_count (name c) u = 1) as ->.
      { rewrite Hu. erewrite add_new_docs_count; [|exact Hrun|].
        - rewrite version_count_insert, Hc.
          cbn [DocumentationLink.version new_DocumentationLink].
          by rewrite String.eqb_refl.
        - rewrite version_count_insert. cbn [DocumentationLink.version new_DocumentationLink].
          rewrite String.eqb_refl. lia. }
      by eapply IH.
    + assert (version_count (name c) u = 1) as ->.
      { rewrite Hu. erewrite add_new_docs_count; [|exact Hrun|]; [done|lia]. }
      by eapply IH.
    + simplify_eq. by rewrite Hu, Hc.
Qed.
(** *** The whole pass *)

Lemma update_documentations_unfold listing t r ta :
  add_new_docs cfg listing t = (r, ta) ->
  update_documentations cfg listing t
  = match r with
    | Return G =>
        let '(r', t1) :=
          remove_deleted_docs cfg G (map obj_of_row (rows ta)) ta in
        match r' with
        | Return _ =>
            (Return (omap pk (objects_filter
                                (fun _ d => DocumentationLink.displayed d) t1)),
             t1)
        | Raise e => (Raise e, t1)
        end
    | Raise e => (Raise e, ta)
    end.
Proof.
  intros Hadd. unfold update_documentations, bind, gets, ret.
  rewrite Hadd. by destruct r.
Qed.

(** A pass either stops in the first loop, with the exception and the
    table of that moment, or runs both loops and returns. *)
Lemma update_documentations_outcome listing t :
  table_wf t ->
  (exists e ta,
      add_new_docs cfg listing t = (Raise e, ta) /\
      update_documentations cfg listing t = (Raise e, ta)) \/
  (exists G ta t1,
      add_new_docs cfg listing t = (Return G, ta) /\
      update_documentations cfg listing t
      = (Return (omap pk (objects_filter
                            (fun _ d => DocumentationLink.displayed d) t1)), t1) /\
      table_wf t1 /\
      tracked_versions t1 ≡ₚ tracked_versions ta /\
      (forall r, r ∈ rows t1 -> flag_cleared r)).
Proof.
  intros Hwf.
  destruct (add_new_docs cfg listing t) as [[G|e] ta] eqn:Hadd;
    rewrite (update_documentations_unfold _ _ _ _ Hadd).
  - right. unfold add_new_docs in Hadd.
    pose proof (add_new_docs_wf _ _ _ _ _ Hadd Hwf) as Hwfa.
    destruct (remove_deleted_docs_spec G (rows ta) ta Hwfa) as (t1 & Hrun & Hwf1 & Hp & Hfl);
      [apply Hwfa|done|].
    exists G, ta, t1. split; [done|]. split; [|split; [done|split; [done|]]].
    + by rewrite Hrun.
    + intros r Hr. destruct (Hfl r Hr) as [?|[Hr' Hni]]; [done|].
      exfalso. apply Hni. by apply (list_elem_of_fmap_2 fst).
  - left. by exists e, ta.
Qed.
End SyncFacts.

(** C8.  For every directory listing and every well-formed store, a second
    pass over the same listing leaves the tracked versions as the first
    pass left them: the same versions, each tracked as often (the lists are
    permutations of each other), hence the same set.  The second pass also
    ends as the first did, returning when it returned and raising when it
    raised. *)
Theorem update_documentations_idempotent
    (cfg : DocConfig) (listing : list Content) (t : Table Doc) :
  table_wf t ->
  let once := update_documentations cfg listing t in
  let twice := update_documentations cfg listing (snd once) in
  tracked_versions (snd twice) ≡ₚ tracked_versions (snd once) /\
  (forall v, v ∈ tracked_versions (snd twice) <-> v ∈ tracked_versions (snd once)) /\
  is_Return (fst twice) = is_Return (fst once).
Proof.
  intros Hwf once twice.
  assert (tracked_versions (snd twice) ≡ₚ tracked_versions (snd once)
          /\ is_Return (fst twice) = is_Return (fst once)) as [Hp Hr].
  { subst once twice.
    destruct (update_documentations_outcome cfg listing t Hwf)
      as [(e & ta & Hadd & ->)|(G & ta & t1 & Hadd & -> & Hwf1 & Hp1 & _)];
      cbn [fst snd].
    - (* the first pass stopped in the first loop: so does the second,
         on the table it finds *)
      unfold add_new_docs in Hadd.
      pose proof (add_new_docs_settled cfg _ _ _ _ _ ta Hadd (fun v => eq_refl)) as Hagain.
      by rewrite (update_documentations_unfold cfg _ _ _ _ Hagain).
    - unfold add_new_docs in Hadd.
      assert (for_each_acc listing [] (add_new_doc cfg) t1 = (Return G, t1)) as Hagain.
      { eapply add_new_docs_settled; [exact Hadd|].
        intros v. by apply version_count_perm. }
      destruct (update_documentations_outcome cfg listing t1 Hwf1)
        as [(e & ta' & Hadd' & _)|(G' & ta' & t2 & Hadd' & -> & _ & Hp2 & _)].
      + unfold add_new_docs in Hadd'. rewrite Hagain in Hadd'. done.
      + unfold add_new_docs in Hadd'. rewrite Hagain in Hadd'.
        simplify_eq. done. }
  split; [done|]. split; [|done].
  intros v. by rewrite Hp.
Qed.

Lemma store_1_0_dev_wf : table_wf store_1_0_dev.
Proof.
  split.
  - apply (bool_decide_unpack _). vm_compute. exact I.
  - unfold keys. simpl. repeat constructor; lia.
Defined.

Lemma update_documentations_idempotent_witness :
  let once := update_documentations (sample_config true) listing_1_0_1_1 store_1_0_dev in
  let twice := update_documentations (sample_config true) listing_1_0_1_1 (snd once) in
  tracked_versions (snd twice) ≡ₚ tracked_versions (snd once) /\
  (forall v, v ∈ tracked_versions (snd twice) <-> v ∈ tracked_versions (snd once)) /\
  is_Return (fst twice) = is_Return (fst once).
Proof.
  apply (update_documentations_idempotent
           (sample_config true) listing_1_0_1_1 store_1_0_dev).
  exact store_1_0_dev_wf.
Defined.

Lemma add_new_docs_tracks_once cfg l :
  forall acc t G t',
    for_each_acc l acc (add_new_doc cfg) t = (Return G, t') ->
    forall c, c ∈ l -> type_ c = "dir" -> version_count (name c) t' = 1.
Proof.
  induction l as [|c0 l IH]; intros acc t G t' Hrun c Hc Hdir.
  - by apply elem_of_nil in Hc.
  - cbn [for_each_acc] in Hrun. unfold bind in Hrun.
    rewrite add_new_doc_cases in Hrun.
    apply elem_of_cons in Hc as [->|Hc].
    + rewrite Hdir in Hrun. cbn [String.eqb Ascii.eqb Bool.eqb] in Hrun.
      destruct (version_count (name c0) t) as [|[|?]] eqn:Hcount.
      * erewrite add_new_docs_count; [|exact Hrun|];
          rewrite version_count_insert, Hcount;
          cbn [DocumentationLink.version new_DocumentationLink];
          rewrite String.eqb_refl; lia.
      * erewrite add_new_docs_count; [|exact Hrun|]; lia.
      * by simplify_eq.
    + destruct (String.eqb (type_ c0) "dir"); [|by eapply IH].
      destruct (version_count (name c0) t) as [|[|?]];
        [by eapply IH|by eapply IH|by simplify_eq].
Qed.

(** After a pass that returns, every directory of the listing is tracked
    by exactly one record. *)
Theorem update_documentations_tracks_listing
    (cfg : DocConfig) (listing : list Content) (t : Table Doc)
    (ids : list nat) (t1 : Table Doc) :
  table_wf t ->
  update_documentations cfg listing t = (Return ids, t1) ->
  forall c, c ∈ listing -> type_ c = "dir" -> version_count (name c) t1 = 1.
Proof.
  intros Hwf Hsync c Hc Hdir.
  destruct (update_documentations_outcome cfg listing t Hwf)
    as [(e & ta & _ & Hraise)|(G & ta & t1' & Hadd & Hret & _ & Hperm & _)];
    [congruence|].
  rewrite Hret in Hsync. simplify_eq.
  rewrite (version_count_perm _ _ _ Hperm).
  by apply (add_new_docs_tracks_once cfg listing [] t G ta Hadd).
Qed.

Lemma update_documentations_tracks_listing_witness :
  version_count (name (mkContent "dir" "1.1")) store_after_sync = 1.
Proof.
  apply (update_documentations_tracks_listing (sample_config true)
           listing_1_0_1_1 store_1_0_dev [1; 3; 4] store_after_sync).
  - split.
    + apply (bool_decide_unpack _). vm_compute. exact I.
    + unfold keys. simpl. repeat constructor; lia.
  - vm_compute. reflexivity.
  - unfold listing_1_0_1_1. do 2 right. left.
  - reflexivity.
Defined.

(** C1 (the code departs from the claim).  On the spec's example, a store
    tracking [1.0] and [dev] against a listing of the directories [1.0]
    and [1.1], one pass leaves three records, not two: [1.0], the new
    [1.1], and [dev], which the second loop deletes and then saves again.
    All three have the freshness flag false.  Under either behaviour of
    [delete] the [dev] row is back: under a fresh key when [delete] resets
    the instance's key, under its old key otherwise. *)
Theorem update_documentations_example_keeps_dev (clears_pk : bool) :
  let t' := snd (update_documentations (sample_config clears_pk)
                   listing_1_0_1_1 store_1_0_dev) in
  tracked_versions t' = ["1.0"; "1.1"; "dev"] /\
  keys t' = [1; 3; if clears_pk then 4 else 2] /\
  map (fun r => DocumentationLink.is_updated (snd r)) (rows t')
  = [false; false; false].
Proof. destruct clears_pk; vm_compute; done. Qed.

(** ** Background refresh *)

Section RefreshFacts.
Context {W : Type}.
Variable cfg : DocConfig.
Variable R : Remote W.
Implicit Types (s : Site W).

Lemma keeps_docs_ret {A} (a : A) : keeps_docs (W:=W) (ret a).
Proof. intros s r s' H. unfold ret in H. by simplify_eq. Qed.

Lemma keeps_docs_lift {A} (x : result A) : keeps_docs (W:=W) (lift_result x).
Proof. intros s r s' H. unfold lift_result in H. by simplify_eq. Qed.

Lemma keeps_docs_gets {A} (f : Site W -> A) : keeps_docs (gets f).
Proof. intros s r s' H. unfold gets in H. by simplify_eq. Qed.

Lemma keeps_docs_outbound {A} (call : W -> result A * W) :
  keeps_docs (outbound call).
Proof.
  intros s r s' H. unfold outbound in H.
  destruct (call (world s)). by simplify_eq.
Qed.

Lemma keeps_docs_bind {A B} (m : SiteM W A) (k : A -> SiteM W B) :
  keeps_docs m -> (forall a, keeps_docs (k a)) -> keeps_docs (bind m k).
Proof.
  intros Hm Hk s r s' H. unfold bind in H.
  destruct (m s) as [[a|e] s1] eqn:Hms.
  - rewrite (Hk a _ _ _ H). by apply (Hm _ _ _ Hms).
  - simplify_eq. by apply (Hm _ _ _ Hms).
Qed.

Lemma keeps_docs_resolve version if_empty (k : string -> SiteM W json) :
  (forall v, keeps_docs (k v)) ->
  keeps_docs (resolve_version version if_empty k).
Proof.
  intros Hk. unfold resolve_version.
  apply keeps_docs_bind; [apply keeps_docs_gets|]. intros all.
  destruct (is_nil all); [apply keeps_docs_ret|].
  apply keeps_docs_bind; [apply keeps_docs_gets|]. intros doc.
  apply keeps_docs_bind; [apply keeps_docs_lift|]. intros doc0. apply Hk.
Qed.

Lemma get_doc_examples_keeps_docs version :
  keeps_docs (get_doc_examples R version).
Proof. apply keeps_docs_resolve. intros v. apply keeps_docs_outbound. Qed.

Lemma get_doc_examples_images_keeps_docs version :
  keeps_docs (get_doc_examples_images R version).
Proof. apply keeps_docs_resolve. intros v. apply keeps_docs_outbound. Qed.

Lemma get_dipy_intro_keeps_docs version :
  keeps_docs (get_dipy_intro cfg R version).
Proof.
  apply keeps_docs_resolve. intros v. cbv zeta.
  apply keeps_docs_bind; [apply keeps_docs_outbound|]. intros response.
  destruct (status_code response =? 404); [|apply keeps_docs_lift].
  apply keeps_docs_bind; [apply keeps_docs_outbound|]. intros response'.
  destruct (status_code response' =? 404);
    [apply keeps_docs_ret|apply keeps_docs_lift].
Qed.
Lemma save_on_site i (x : Doc) s :
  i ∈ keys (docs s) ->
  on_docs (save_object (mkObj (Some i) x)) s
  = (Return (mkObj (Some i) x), put_doc i x s).
Proof.
  intros Hin. apply has_row_iff in Hin.
  unfold on_docs, save_object, save, put_doc. cbn [pk fields]. by rewrite Hin.
Qed.

(** One turn of the refresh loop on a row of the table: where it ends
    and what it leaves in the row are related by [refreshed], and the
    row is the only one it writes. *)
Lemma update_doc_information_step i d s :
  NoDup (keys (docs s)) -> (i, d) ∈ rows (docs s) ->
  exists res x s',
    update_doc_information cfg R (obj_of_row (i, d)) s = (res, s') /\
    refreshed cfg R i d s res x /\
    docs s' = sql_update i x (docs s).
Proof.
  intros Hnd Hin.
  assert (i ∈ keys (docs s)) as Hkey by (by apply (list_elem_of_fmap_2 fst) in Hin).
  unfold update_doc_information, obj_of_row. cbn [fst snd fields].
  unfold bind at 1.
  destruct (get_doc_examples R (Some (DocumentationLink.version d)) s)
    as [[tutorials|e] s1] eqn:H1.
  2:{ exists (Raise e), d, s1. split; [done|].
      split; [exact (stops_at_tutorials _ _ _ _ _ _ _ H1)|].
      rewrite (get_doc_examples_keeps_docs _ _ _ _ H1).
      symmetry. by apply sql_update_same. }
  pose proof (get_doc_examples_keeps_docs _ _ _ _ H1) as Hd1.
  unfold with_fields at 1. cbn [pk fields]. unfold bind at 1.
  rewrite save_on_site by (by rewrite Hd1).
  cbn [fields DocumentationLink.version DocumentationLink.set_tutorials].
  set (d1 := DocumentationLink.set_tutorials tutorials d).
  unfold bind at 1.
  destruct (get_doc_examples_images R (Some (DocumentationLink.version d))
              (put_doc i d1 s1)) as [[gallery|e] s2] eqn:H2.
  2:{ exists (Raise e), d1, s2. split; [done|].
      split; [exact (stops_at_gallery _ _ _ _ _ _ _ _ _ H1 H2)|].
      rewrite (get_doc_examples_images_keeps_docs _ _ _ _ H2).
      unfold put_doc. cbn [docs]. by rewrite Hd1. }
  pose proof (get_doc_examples_images_keeps_docs _ _ _ _ H2) as Hd2.
  unfold put_doc in Hd2. cbn [docs] in Hd2. rewrite Hd1 in Hd2.
  unfold with_fields at 1. cbn [pk fields]. unfold bind at 1.
  rewrite save_on_site by (by rewrite Hd2, keys_sql_update).
  cbn [fields DocumentationLink.version DocumentationLink.set_gallery].
  set (d2 := DocumentationLink.set_gallery gallery d1).
  change (DocumentationLink.version d1) with (DocumentationLink.version d).
  unfold bind at 1.
  destruct (get_dipy_intro cfg R (Some (DocumentationLink.version d))
              (put_doc i d2 s2)) as [[intro|e] s3] eqn:H3.
  2:{ exists (Raise e), d2, s3. split; [done|].
      split; [exact (stops_at_intro _ _ _ _ _ _ _ _ _ _ _ H1 H2 H3)|].
      rewrite (get_dipy_intro_keeps_docs _ _ _ _ H3).
      unfold put_doc. cbn [docs]. by rewrite Hd2, sql_update_twice. }
  pose proof (get_dipy_intro_keeps_docs _ _ _ _ H3) as Hd3.
  unfold put_doc in Hd3. cbn [docs] in Hd3.
  rewrite Hd2, sql_update_twice in Hd3.
  unfold with_fields. cbn [pk fields]. unfold bind at 1.
  rewrite save_on_site by (by rewrite Hd3, keys_sql_update).
  set (d3 := DocumentationLink.set_is_updated true
               (DocumentationLink.set_intro intro d2)).
  exists (Return tt), d3, (put_doc i d3 s3).
  split; [done|]. split; [exact (all_three_fetched _ _ _ _ _ _ _ _ _ _ _ H1 H2 H3)|].
  unfold put_doc. cbn [docs]. by rewrite Hd3, sql_update_twice.
Qed.

(** The refresh loop over rows [todo] of the table, with distinct keys:
    keys stay; a row of the final table is either a row of the initial
    one or what the refresh of a row of [todo] left; if the loop raised,
    it raised in the refresh of one row of [todo], and the rows after
    that one are in the final table as they were. *)
Lemma refresh_loop todo :
  forall s res s',
    NoDup (keys (docs s)) -> NoDup (map fst todo) ->
    (forall r, r ∈ todo -> r ∈ rows (docs s)) ->
    for_each (map obj_of_row todo) (update_doc_information cfg R) s = (res, s') ->
    keys (docs s') = keys (docs s) /\
    (forall r, r ∈ rows (docs s') ->
               r ∈ rows (docs s) \/
               exists d sj res', (fst r, d) ∈ todo /\
                                 refreshed cfg R (fst r) d sj res' (snd r)) /\
    (forall e, res = Raise e ->
               exists before j d after sj x,
                 todo = before ++ (j, d) :: after /\
                 refreshed cfg R j d sj (Raise e) x /\
                 (j, x) ∈ rows (docs s') /\
                 (forall r, r ∈ after -> r ∈ rows (docs s'))).
Proof.
  induction todo as [|[i d] todo IH]; intros s res s' Hnd Hnt Hsub Hrun.
  - cbn [map for_each] in Hrun. unfold ret in Hrun. simplify_eq.
    split; [done|]. split; [by left|done].
  - cbn [map fst] in Hnt. apply NoDup_cons in Hnt as [Hi Hnt].
    destruct (update_doc_information_step i d s Hnd) as (r1 & x & s1 & Hbody & Hrf & Hdocs);
      [apply Hsub; left|].
    assert (i ∈ keys (docs s)) as Hkey.
    { apply (list_elem_of_fmap_2 fst (rows (docs s)) (i, d)). apply Hsub. left. }
    cbn [map for_each] in Hrun. unfold bind in Hrun. rewrite Hbody in Hrun.
    destruct r1 as [[]|e1].
    + (* this record went through; the rest of the loop runs on *)
      destruct (IH s1 res s') as (Hk & Hrows & Hraise); [| |  |done|].
      { by rewrite Hdocs, keys_sql_update. }
      { done. }
      { intros r Hr. rewrite Hdocs. apply elem_of_sql_update. left.
        split; [apply Hsub; by right|].
        intros Heq. apply Hi. rewrite <- Heq. by apply (list_elem_of_fmap_2 fst). }
      split; [by rewrite Hk, Hdocs, keys_sql_update|]. split.
      * intros r Hr. destruct (Hrows r Hr) as [Hr1|(d' & sj & res' & Hin & Hrf')].
        -- rewrite Hdocs in Hr1. apply elem_of_sql_update in Hr1 as [[? _]|[-> _]];
             [by left|].
           right. exists d, s, (Return tt). split; [left|done].
        -- right. exists d', sj, res'. split; [by right|done].
      * intros e He. destruct (Hraise e He)
          as (before & j & d' & after & sj & x' & -> & Hrf' & Hjx & Hafter).
        exists ((i, d) :: before), j, d', after, sj, x'. done.
    + (* this record's refresh raised: the loop ends here *)
      simplify_eq. split; [by rewrite Hdocs, keys_sql_update|]. split.
      * intros r Hr. rewrite Hdocs in Hr.
        apply elem_of_sql_update in Hr as [[? _]|[-> _]]; [by left|].
        right. exists d, s, (Raise e1). split; [left|done].
      * intros e He. simplify_eq.
        exists [], i, d, todo, s, x. split; [done|]. split; [done|]. split.
        -- rewrite Hdocs. apply elem_of_sql_update. by right.
        -- intros r Hr. rewrite Hdocs. apply elem_of_sql_update. left.
           split; [apply Hsub; by right|].
           intros Heq. apply Hi. rewrite <- Heq.
           by apply (list_elem_of_fmap_2 fst).
Qed.
End RefreshFacts.

Lemma refreshed_raise_keeps_flag {W} cfg (R : Remote W) i d s e x :
  refreshed cfg R i d s (Raise e) x ->
  DocumentationLink.is_updated x = DocumentationLink.is_updated d.
Proof. by inversion 1. Qed.

Lemma refreshed_flag_set {W} cfg (R : Remote W) i d s res x :
  DocumentationLink.is_updated d = false ->
  refreshed cfg R i d s res x ->
  DocumentationLink.is_updated x = true ->
  res = Return tt.
Proof. intros Hd Hrf Hx. inversion Hrf; subst; simpl in Hx; congruence. Qed.

Lemma snapshot_rows {W} (ids : list nat) (s : Site W) :
  objects_filter (fun i _ => bool_decide (i ∈ ids)) (docs s)
  = map obj_of_row
      (List.filter (fun r => bool_decide (fst r ∈ ids)) (rows (docs s))).
Proof. by rewrite objects_filter_rows. Qed.

Lemma update_doc_informations_unfold {W} cfg (R : Remote W) ids s :
  update_doc_informations cfg R ids s
  = for_each
      (map obj_of_row
         (List.filter (fun r => bool_decide (fst r ∈ ids)) (rows (docs s))))
      (update_doc_information cfg R) s.
Proof.
  unfold update_doc_informations, bind, gets. by rewrite snapshot_rows.
Qed.

(** ** The refresh, record by record *)

(** The three fetches for a record, begun on a given site, end in one way
    only. *)
Lemma refreshed_functional {W} cfg (R : Remote W) i d s res x res' x' :
  refreshed cfg R i d s res x -> refreshed cfg R i d s res' x' ->
  res = res' /\ x = x'.
Proof.
  intros H1 H2.
  inversion H1; subst; inversion H2; subst;
    repeat match goal with
           | Ha : ?m = (_, _), Hb : ?m = (_, _) |- _ =>
               rewrite Ha in Hb; simplify_eq
           end; done.
Qed.

(** What the fetches give is what the loop body does: it ends as they
    ended and leaves in the row what they left. *)
Lemma refreshed_step {W} cfg (R : Remote W) i d (s : Site W) res x :
  NoDup (keys (docs s)) -> (i, d) ∈ rows (docs s) ->
  refreshed cfg R i d s res x ->
  exists s',
    update_doc_information cfg R (obj_of_row (i, d)) s = (res, s') /\
    docs s' = sql_update i x (docs s).
Proof.
  intros Hnd Hin Hrf.
  destruct (update_doc_information_step cfg R i d s Hnd Hin)
    as (res' & x' & s' & Hbody & Hrf' & Hdocs).
  destruct (refreshed_functional _ _ _ _ _ _ _ _ _ Hrf Hrf') as [-> ->].
  by exists s'.
Qed.

Lemma for_each_app {S A} (l1 l2 : list A) (body : A -> M S unit) s :
  for_each (l1 ++ l2) body s
  = match for_each l1 body s with
    | (Return _, s1) => for_each l2 body s1
    | (Raise e, s1) => (Raise e, s1)
    end.
Proof.
  revert s. induction l1 as [|x l1 IH]; intros s; [done|].
  cbn [app for_each]. unfold bind.
  destruct (body x s) as [[[]|e] s1]; [apply IH|done].
Qed.

(** The rows whose key is among the keys of a prefix of a snapshot are
    that prefix. *)
Lemma snapshot_prefix {R} (l : list (nat * R)) (ids : list nat) pre post :
  NoDup (map fst l) ->
  List.filter (fun r => bool_decide (fst r ∈ ids)) l = pre ++ post ->
  List.filter (fun r => bool_decide (fst r ∈ map fst pre)) l = pre.
Proof.
  revert pre. induction l as [|[k y] l IH]; intros pre Hnd Hsnap.
  - simpl in Hsnap. symmetry in Hsnap. apply app_eq_nil in Hsnap as [-> _]. done.
  - cbn [map fst] in Hnd. apply NoDup_cons in Hnd as [Hk Hnd].
    assert (forall q, List.filter (fun r => bool_decide (fst r ∈ ids)) l = q ++ post ->
                      k ∉ map fst q) as Hfresh.
    { intros q Hq Hin. apply Hk.
      apply list_elem_of_fmap in Hin as (r & -> & Hr).
      assert (r ∈ List.filter (fun r => bool_decide (fst r ∈ ids)) l) as Hr'.
      { rewrite Hq. apply elem_of_app. by left. }
      apply list_elem_of_In, List.filter_In in Hr' as [Hr' _].
      apply (list_elem_of_fmap_2 fst). by apply list_elem_of_In. }
    cbn [List.filter fst] in *.
    destruct (bool_decide (k ∈ ids)) eqn:Hkid.
    + destruct pre as [|r pre].
      * cbn [map]. rewrite bool_decide_eq_false_2 by apply not_elem_of_nil.
        clear. induction l as [|r l IH]; [done|]. cbn [List.filter].
        by rewrite bool_decide_eq_false_2 by apply not_elem_of_nil.
      * cbn [app] in Hsnap. injection Hsnap as <- Hsnap.
        cbn [map fst]. rewrite bool_decide_eq_true_2 by left. f_equal.
        transitivity (List.filter (fun r => bool_decide (fst r ∈ map fst pre)) l);
          [|by apply IH].
        apply List.filter_ext_in. intros r Hr.
        apply bool_decide_ext. rewrite elem_of_cons. split; [|by right].
        intros [Heq|?]; [|done]. exfalso. apply Hk. rewrite <- Heq.
        apply (list_elem_of_fmap_2 fst). by apply list_elem_of_In.
    + rewrite bool_decide_eq_false_2 by by apply Hfresh.
      by apply IH.
Qed.

(** A refresh leaves alone every row whose key is not among those it
    goes through, however it ends. *)
Lemma refresh_loop_frame {W} cfg (R : Remote W) todo :
  forall (s : Site W) res s',
    NoDup (keys (docs s)) -> NoDup (map fst todo) ->
    (forall r, r ∈ todo -> r ∈ rows (docs s)) ->
    for_each (map obj_of_row todo) (update_doc_information cfg R) s = (res, s') ->
    forall r, r ∈ rows (docs s) -> fst r ∉ map fst todo -> r ∈ rows (docs s').
Proof.
  induction todo as [|[i d] todo IH]; intros s res s' Hnd Hnt Hsub Hrun r Hr Hfresh.
  - cbn [map for_each] in Hrun. unfold ret in Hrun. by simplify_eq.
  - cbn [map fst] in Hnt, Hfresh. apply NoDup_cons in Hnt as [Hi Hnt].
    apply not_elem_of_cons in Hfresh as [Hne Hfresh].
    destruct (update_doc_information_step cfg R i d s Hnd)
      as (r1 & x & s1 & Hbody & Hrf & Hdocs); [apply Hsub; left|].
    cbn [map for_each] in Hrun. unfold bind in Hrun. rewrite Hbody in Hrun.
    assert (r ∈ rows (docs s1)) as Hr1.
    { rewrite Hdocs. apply elem_of_sql_update. by left. }
    destruct r1 as [[]|e1]; [|by simplify_eq].
    eapply (IH s1 res s'); try done.
    + by rewrite Hdocs, keys_sql_update.
    + intros r' Hr'. rewrite Hdocs. apply elem_of_sql_update. left.
      split; [apply Hsub; by right|].
      intros Heq. apply Hi. rewrite <- Heq. by apply (list_elem_of_fmap_2 fst).
Qed.

(** The refresh up to a record and through it.  When the rows the refresh
    goes through are [before], then [(j, d)], then [after]; the refresh of
    the rows [before] alone returns and leaves the site [sj]; and the
    fetches for [(j, d)], begun on [sj], end with [res] and leave [x]:
    then the loop body on [(j, d)] ends with [res], the row of [j] holds
    [x], and the whole refresh either goes on with [after] or stops
    there. *)
Lemma refresh_run_through {W} cfg (R : Remote W) ids (s : Site W)
    before j d after sj res x :
  NoDup (keys (docs s)) ->
  List.filter (fun r => bool_decide (fst r ∈ ids)) (rows (docs s))
  = before ++ (j, d) :: after ->
  update_doc_informations cfg R (map fst before) s = (Return tt, sj) ->
  refreshed cfg R j d sj res x ->
  exists s1,
    update_doc_information cfg R (obj_of_row (j, d)) sj = (res, s1) /\
    docs s1 = sql_update j x (docs sj) /\
    j ∈ keys (docs sj) /\
    keys (docs s1) = keys (docs s) /\
    update_doc_informations cfg R (map fst before ++ [j]) s = (res, s1) /\
    update_doc_informations cfg R ids s
    = match res with
      | Return _ =>
          for_each (map obj_of_row after) (update_doc_information cfg R) s1
      | Raise e => (Raise e, s1)
      end /\
    NoDup (map fst after) /\ (j ∉ map fst after) /\
    (forall r, r ∈ after -> r ∈ rows (docs s1)).
Proof.
  intros Hnd Hsnap Hbefore Hrf.
  assert (NoDup (map fst (before ++ (j, d) :: after))) as Hnt.
  { rewrite <- Hsnap. by apply NoDup_filter_keys. }
  assert (forall r, r ∈ before ++ (j, d) :: after -> r ∈ rows (docs s)) as Hsub.
  { intros r Hr. rewrite <- Hsnap in Hr.
    apply list_elem_of_In, List.filter_In in Hr as [Hr _].
    by apply list_elem_of_In. }
  rewrite map_app in Hnt. cbn [map fst] in Hnt.
  apply NoDup_app in Hnt as (Hnb & Hdisj & Hnt).
  apply NoDup_cons in Hnt as [Hja Hna].
  assert (j ∉ map fst before) as Hjb.
  { intros Hin. apply (Hdisj j Hin). left. }
  (* the refresh of the rows before *)
  rewrite update_doc_informations_unfold in Hbefore.
  rewrite (snapshot_prefix _ ids before ((j, d) :: after) Hnd Hsnap) in Hbefore.
  assert (forall r, r ∈ before -> r ∈ rows (docs s)) as Hsubb.
  { intros r Hr. apply Hsub. apply elem_of_app. by left. }
  destruct (refresh_loop cfg R before s (Return tt) sj Hnd Hnb Hsubb Hbefore)
    as (Hkeys & _ & _).
  pose proof (refresh_loop_frame cfg R before s (Return tt) sj Hnd Hnb Hsubb Hbefore)
    as Hframe.
  assert (NoDup (keys (docs sj))) as Hndj by by rewrite Hkeys.
  assert ((j, d) ∈ rows (docs sj)) as Hjd.
  { apply Hframe; [|done]. apply Hsub. apply elem_of_app. right. left. }
  destruct (refreshed_step cfg R j d sj res x Hndj Hjd Hrf) as (s1 & Hbody & Hdocs).
  exists s1. split; [done|]. split; [done|].
  assert (j ∈ keys (docs sj)) as Hkey by by apply (list_elem_of_fmap_2 fst) in Hjd.
  split; [done|]. split; [by rewrite Hdocs, keys_sql_update|].
  split; [|split; [|split; [done|split; [done|]]]].
  - rewrite update_doc_informations_unfold.
    assert (map fst before ++ [j] = map fst (before ++ [(j, d)])) as ->.
    { by rewrite map_app. }
    rewrite (snapshot_prefix _ ids (before ++ [(j, d)]) after Hnd).
    2:{ by rewrite <- app_assoc. }
    rewrite map_app, for_each_app, Hbefore. cbn [map for_each].
    unfold bind. rewrite Hbody. by destruct res as [[]|e].
  - rewrite update_doc_informations_unfold, Hsnap.
    rewrite map_app, for_each_app, Hbefore. cbn [map for_each].
    unfold bind. rewrite Hbody. by destruct res as [[]|e].
  - intros r Hr. rewrite Hdocs. apply elem_of_sql_update. left. split.
    + apply Hframe.
      * apply Hsub. apply elem_of_app. right. by right.
      * intros Hin. apply (Hdisj _ Hin). right.
        by apply (list_elem_of_fmap_2 fst).
    + intros Heq. apply Hja. rewrite <- Heq. by apply (list_elem_of_fmap_2 fst).
Qed.

(** C2.  After a pass of [update_documentations] that returns, every
    record of the table has its freshness flag false.  In the refresh
    that follows, over the list the pass hands to the thread as over any
    other, the flag of a record follows its three fetches (tutorials,
    gallery, intro, in that order):

    - Forward.  Let the refresh go through the rows [before], then
      [(j, d)], then [after], let the refresh of the rows [before] alone
      return and leave the site [sj], and let the fetches for [(j, d)],
      begun on [sj], end with [res] and leave the record [x] (all three
      returned and [x] holds their results and a true flag; or one of
      them raised and [x] holds what the earlier ones returned, with the
      flag as it was).  Then the refresh up to and including [j] ends
      with [res], the row of [j] holds [x], the flag of [x] is true
      exactly when [res] is a return, and in the table the whole refresh
      leaves the row of [j] still holds [x]: nothing is taken back.  If
      [res] is an exception, the whole refresh raises it and stops in
      that very state.

    - Backward.  A record whose flag is true in the end is one whose
      three fetches all returned and which holds their results; and when
      the refresh raises, it raised in one of the fetches for some
      record, whose row then has the flag false and holds the fragments
      fetched before the failure. *)
Theorem freshness_flag_lifecycle {W} (cfg : DocConfig) (R : Remote W)
    (listing : list Content) (t : Table Doc) (ids : list nat) (t1 : Table Doc) :
  table_wf t ->
  update_documentations cfg listing t = (Return ids, t1) ->
  (forall r, r ∈ rows t1 -> DocumentationLink.is_updated (snd r) = false) /\
  (forall ids' (s : Site W) before j d after sj res x,
      docs s = t1 ->
      List.filter (fun r => bool_decide (fst r ∈ ids')) (rows (docs s))
      = before ++ (j, d) :: after ->
      update_doc_informations cfg R (map fst before) s = (Return tt, sj) ->
      refreshed cfg R j d sj res x ->
      exists s1,
        update_doc_informations cfg R (map fst before ++ [j]) s = (res, s1) /\
        (j, x) ∈ rows (docs s1) /\
        (DocumentationLink.is_updated x = true <-> res = Return tt) /\
        (forall res' s',
            update_doc_informations cfg R ids' s = (res', s') ->
            (j, x) ∈ rows (docs s') /\
            (forall e, res = Raise e -> res' = Raise e /\ s' = s1))) /\
  (forall ids' (s : Site W) res s',
      docs s = t1 ->
      update_doc_informations cfg R ids' s = (res, s') ->
      (forall r, r ∈ rows (docs s') ->
                 DocumentationLink.is_updated (snd r) = true ->
                 exists d sj, (fst r, d) ∈ rows t1 /\
                              refreshed cfg R (fst r) d sj (Return tt) (snd r)) /\
      (forall e, res = Raise e ->
                 exists j d sj x,
                   (j, d) ∈ rows t1 /\ (j, x) ∈ rows (docs s') /\
                   refreshed cfg R j d sj (Raise e) x /\
                   DocumentationLink.is_updated x = false)).
Proof.
  intros Hwf Hsync.
  destruct (update_documentations_outcome cfg listing t Hwf)
    as [(e & ta & _ & Hraise)|(G & ta & t1' & _ & Hret & Hwf1 & _ & Hflags)];
    [congruence|].
  rewrite Hret in Hsync. simplify_eq.
  destruct Hwf1 as [Hnd _].
  split; [done|]. split.
  - (* forward *)
    intros ids' s before j d after sj res x <- Hsnap Hbefore Hrf.
    assert ((j, d) ∈ rows (docs s)) as Hjd.
    { assert ((j, d) ∈ List.filter (fun r => bool_decide (fst r ∈ ids'))
                                   (rows (docs s))) as Hin.
      { rewrite Hsnap. apply elem_of_app. right. left. }
      apply list_elem_of_In, List.filter_In in Hin as [Hin _].
      by apply list_elem_of_In. }
    destruct (refresh_run_through cfg R ids' s before j d after sj res x
                Hnd Hsnap Hbefore Hrf)
      as (s1 & Hbody & Hdocs & Hkey & Hkeys & Hupto & Hwhole & Hna & Hja & Hafter).
    assert ((j, x) ∈ rows (docs s1)) as Hjx.
    { rewrite Hdocs. apply elem_of_sql_update. by right. }
    exists s1. split; [done|]. split; [done|]. split.
    + pose proof (Hflags _ Hjd) as Hd. cbn [snd] in Hd. split.
      * intros Hx. by apply (refreshed_flag_set _ _ _ _ _ _ _ Hd Hrf).
      * intros ->. by inversion Hrf.
    + intros res' s' Hrun. rewrite Hwhole in Hrun.
      destruct res as [[]|e].
      * split; [|done].
        apply (refresh_loop_frame cfg R after s1 res' s'); try done.
        by rewrite Hkeys.
      * simplify_eq. split; [done|]. by intros e' [= ->].
  - (* backward *)
    intros ids' s res s' <- Hrun. rewrite update_doc_informations_unfold in Hrun.
    set (todo := List.filter (fun r => bool_decide (fst r ∈ ids')) (rows (docs s))) in *.
    assert (forall r, r ∈ todo -> r ∈ rows (docs s)) as Hsub.
    { intros r Hr. apply list_elem_of_In, List.filter_In in Hr as [Hr _].
      by apply list_elem_of_In. }
    destruct (refresh_loop cfg R todo s res s' Hnd) as (_ & Hrows & Hfail);
      [by apply NoDup_filter_keys|done|done|].
    split.
    + intros r Hr Hset.
      destruct (Hrows r Hr) as [Hold|(d & sj & res' & Hin & Hrf)].
      * rewrite (Hflags r Hold) in Hset. done.
      * exists d, sj. split; [by apply Hsub|].
        rewrite <- (refreshed_flag_set _ _ _ _ _ _ _ (Hflags _ (Hsub _ Hin)) Hrf Hset).
        done.
    + intros e He.
      destruct (Hfail e He) as (before & j & d & after & sj & x & Htodo & Hrf & Hjx & _).
      assert ((j, d) ∈ rows (docs s)) as Hjd.
      { apply Hsub. rewrite Htodo. apply elem_of_app. right. left. }
      exists j, d, sj, x. split; [done|]. split; [done|]. split; [done|].
      rewrite (refreshed_raise_keeps_flag _ _ _ _ _ _ _ Hrf).
      apply (Hflags _ Hjd).
Qed.

Lemma freshness_flag_lifecycle_witness :
  (forall r, r ∈ rows store_after_sync ->
             DocumentationLink.is_updated (snd r) = false) /\
  (forall ids' (s : Site nat) before j d after sj res x,
      docs s = store_after_sync ->
      List.filter (fun r => bool_decide (fst r ∈ ids')) (rows (docs s))
      = before ++ (j, d) :: after ->
      update_doc_informations (sample_config true) (sample_remote "1.1")
        (map fst before) s = (Return tt, sj) ->
      refreshed (sample_config true) (sample_remote "1.1") j d sj res x ->
      exists s1,
        update_doc_informations (sample_config true) (sample_remote "1.1")
          (map fst before ++ [j]) s = (res, s1) /\
        (j, x) ∈ rows (docs s1) /\
        (DocumentationLink.is_updated x = true <-> res = Return tt) /\
        (forall res' s',
            update_doc_informations (sample_config true) (sample_remote "1.1")
              ids' s = (res', s') ->
            (j, x) ∈ rows (docs s') /\
            (forall e, res = Raise e -> res' = Raise e /\ s' = s1))) /\
  (forall ids' (s : Site nat) res s',
      docs s = store_after_sync ->
      update_doc_informations (sample_config true) (sample_remote "1.1") ids' s
      = (res, s') ->
      (forall r, r ∈ rows (docs s') ->
                 DocumentationLink.is_updated (snd r) = true ->
                 exists d sj,
                   (fst r, d) ∈ rows store_after_sync /\
                   refreshed (sample_config true) (sample_remote "1.1")
                     (fst r) d sj (Return tt) (snd r)) /\
      (forall e, res = Raise e ->
                 exists j d sj x,
                   (j, d) ∈ rows store_after_sync /\ (j, x) ∈ rows (docs s') /\
                   refreshed (sample_config true) (sample_remote "1.1")
                     j d sj (Raise e) x /\
                   DocumentationLink.is_updated x = false)).
Proof.
  apply (freshness_flag_lifecycle (sample_config true) (sample_remote "1.1")
           listing_1_0_1_1 store_1_0_dev [1; 3; 4] store_after_sync).
  - exact store_1_0_dev_wf.
  - vm_compute. reflexivity.
Defined.




(** ** Link rewriting in the intro fragment *)

Lemma lower_ascii_hash c : Ascii.eqb (lower_ascii c) "#" = Ascii.eqb c "#".
Proof. destruct c as [[] [] [] [] [] [] [] []]; reflexivity. Qed.

Lemma prefix_empty l : String.prefix "" l = true.
Proof. by destruct l. Qed.

Lemma startswith_lower_hash l : startswith (lower l) "#" = startswith l "#".
Proof.
  unfold startswith. destruct l as [|c l]; [done|]. cbn [lower String.prefix].
  pose proof (lower_ascii_hash c) as Hc.
  destruct (ascii_dec "#" (lower_ascii c)) as [Heq|Hne];
    destruct (ascii_dec "#" c) as [Heq'|Hne'].
  - by rewrite !prefix_empty.
  - rewrite <- Heq, Ascii.eqb_refl in Hc. symmetry in Hc.
    apply Ascii.eqb_eq in Hc. by subst.
  - subst c. exfalso. by apply Hne.
  - done.
Qed.

Lemma prefix_lower p l :
  String.prefix p l = true -> String.prefix (lower p) (lower l) = true.
Proof.
  revert l. induction p as [|a p IH]; intros [|b l]; cbn [lower String.prefix];
    try done.
  destruct (ascii_dec a b) as [->|]; [|done]. intros Hp.
  destruct (ascii_dec (lower_ascii b) (lower_ascii b)); [by apply IH|done].
Qed.

Lemma str_in_lower sub l :
  lower sub = sub -> str_in sub l = true -> str_in sub (lower l) = true.
Proof.
  intros Hsub. induction l as [|c l IH]; cbn [str_in lower].
  - rewrite orb_false_r. intros Hp. apply prefix_lower in Hp.
    rewrite Hsub in Hp. cbn [lower] in Hp. by rewrite Hp.
  - intros [Hp|Hin]%orb_true_iff; apply orb_true_iff.
    + left. apply prefix_lower in Hp. by rewrite Hsub in Hp.
    + right. by apply IH.
Qed.

Lemma str_in_lower_false sub l :
  lower sub = sub -> str_in sub (lower l) = false -> str_in sub l = false.
Proof.
  intros Hsub Hl. destruct (str_in sub l) eqn:Hin; [|done].
  by rewrite (str_in_lower _ _ Hsub Hin) in Hl.
Qed.

Lemma rewrite_highlight_link_spec link l :
  tag_get link "href" = Some l ->
  exists link', rewrite_highlight_link link = Return link' /\
                link_rewritten link link'.
Proof.
  intros Hl. unfold rewrite_highlight_link. rewrite Hl.
  rewrite startswith_lower_hash.
  destruct (startswith l "#" || str_in "http:/" l || str_in "https:/" l) eqn:Hc.
  - exists link. split; [done|]. intros l' Hl'. simplify_eq. split; [done|].
    intros (Hh & Hp & Hs).
    apply (str_in_lower_false "http:/") in Hp; [|done].
    apply (str_in_lower_false "https:/") in Hs; [|done].
    by rewrite Hh, Hp, Hs in Hc.
  - eexists. split; [done|]. intros l' Hl'. simplify_eq. split; [|done].
    apply orb_false_iff in Hc as [[Hh Hp]%orb_false_iff Hs].
    intros [?|[?|?]]; congruence.
Qed.

Lemma rewrite_announcement_link_spec link l :
  tag_get link "href" = Some l ->
  exists link', rewrite_announcement_link link = Return link' /\
                link_rewritten link link'.
Proof.
  intros Hl. unfold rewrite_announcement_link. rewrite Hl.
  rewrite startswith_lower_hash.
  destruct (startswith l "#" || str_in "http:/" (lower l)
            || str_in "https:/" (lower l)) eqn:Hc.
  - exists link. split; [done|]. intros l' Hl'. simplify_eq. split; [done|].
    intros (Hh & Hp & Hs). by rewrite Hh, Hp, Hs in Hc.
  - eexists. split; [done|]. intros l' Hl'. simplify_eq. split; [|done].
    apply orb_false_iff in Hc as [[Hh Hp]%orb_false_iff Hs].
    intros [?|[Hin|Hin]]; [congruence| |].
    + apply (str_in_lower "http:/") in Hin; [congruence|done].
    + apply (str_in_lower "https:/") in Hin; [congruence|done].
Qed.

Lemma for_each_tag_spec (body : Tag -> result Tag) (P : Tag -> Tag -> Prop) links :
  (forall link, link ∈ links ->
                exists link', body link = Return link' /\ P link link') ->
  exists links', for_each_tag links body = Return links' /\ Forall2 P links links'.
Proof.
  induction links as [|link links IH]; intros Hbody.
  - exists []. split; [done|constructor].
  - destruct (Hbody link) as (link' & Hl & HP); [left|].
    destruct IH as (links' & Hls & HPs); [intros ? ?; apply Hbody; by right|].
    exists (link' :: links'). split; [|by constructor].
    cbn [for_each_tag]. rewrite Hl. cbn [rbind]. by rewrite Hls.
Qed.

(** C6, as amended.  Over anchors that all carry an [href], both anchor
    loops of [get_dipy_intro] (highlights and announcements) return, and
    each anchor comes out as [link_rewritten] says: unchanged when its
    [href] starts with [#] or has [http:/] or [https:/] anywhere in it;
    with [documentation/latest/] put before the [href] when the [href]
    does not start with [#] and has neither [http:/] nor [https:/] in it
    in any letter case. *)
Theorem intro_links_rewritten (links : list Tag) :
  (forall link, link ∈ links -> is_Some (tag_get link "href")) ->
  exists highlight_links annoucement_links,
    for_each_tag links rewrite_highlight_link = Return highlight_links /\
    for_each_tag links rewrite_announcement_link = Return annoucement_links /\
    Forall2 link_rewritten links highlight_links /\
    Forall2 link_rewritten links annoucement_links.
Proof.
  intros Hhref.
  destruct (for_each_tag_spec rewrite_highlight_link link_rewritten links)
    as (hl & Hhl & HPh).
  { intros link [l Hl]%Hhref. by apply (rewrite_highlight_link_spec link l). }
  destruct (for_each_tag_spec rewrite_announcement_link link_rewritten links)
    as (al & Hal & HPa).
  { intros link [l Hl]%Hhref. by apply (rewrite_announcement_link_spec link l). }
  by exists hl, al.
Qed.

Lemma intro_links_rewritten_witness :
  exists highlight_links annoucement_links,
    for_each_tag [anchor "#highlights"; anchor "https://dipy.org"; anchor "cite.html"]
      rewrite_highlight_link = Return highlight_links /\
    for_each_tag [anchor "#highlights"; anchor "https://dipy.org"; anchor "cite.html"]
      rewrite_announcement_link = Return annoucement_links /\
    Forall2 link_rewritten
      [anchor "#highlights"; anchor "https://dipy.org"; anchor "cite.html"]
      highlight_links /\
    Forall2 link_rewritten
      [anchor "#highlights"; anchor "https://dipy.org"; anchor "cite.html"]
      annoucement_links.
Proof.
  apply (intro_links_rewritten
           [anchor "#highlights"; anchor "https://dipy.org"; anchor "cite.html"]).
  intros link Hin. repeat (apply elem_of_cons in Hin as [->|Hin]);
    [vm_compute; eauto ..|]. by apply elem_of_nil in Hin.
Defined.

(** C6 as stated fails: this [href] starts with none of [#], [http:/]
    and [https:/], and yet both loops leave the anchor as it is, because
    their test is whether [http:/] occurs anywhere in the [href]. *)
Lemma intro_link_with_inner_scheme_is_kept :
  startswith "redirect?to=http://dipy.org" "#" = false /\
  startswith "redirect?to=http://dipy.org" "http:/" = false /\
  startswith "redirect?to=http://dipy.org" "https:/" = false /\
  rewrite_highlight_link (anchor "redirect?to=http://dipy.org")
  = Return (anchor "redirect?to=http://dipy.org") /\
  rewrite_announcement_link (anchor "redirect?to=http://dipy.org")
  = Return (anchor "redirect?to=http://dipy.org") /\
  tag_get (anchor "redirect?to=http://dipy.org") "href"
  <> Some ("documentation/latest/" +:+ "redirect?to=http://dipy.org").
Proof. repeat split; try reflexivity. vm_compute. discriminate. Qed.

(** ** Integrations and connection failures *)

(** C7 (the code departs from the claim for the GitHub check).  With a
    non-empty access token, when the one outbound call of
    [has_commit_permission] fails to connect, the function raises
    [ConnectionError] to its caller: the call is not inside any [try].  It
    returns [False] without raising only for the empty token, which makes
    no call. *)
Theorem has_commit_permission_propagates_connection_error {W} (R : Remote W)
    (access_token repository_name : string) (s : Site W) (w' : W) :
  access_token <> "" ->
  requests_get R "https://api.github.com/orgs/dipy/repos"
    [("Authorization", "token " +:+ access_token)] (world s)
  = (Raise ConnectionError, w') ->
  has_commit_permission R access_token repository_name s
  = (Raise ConnectionError, mkSite (docs s) (environ s) w').
Proof.
  intros Htoken Hdown. unfold has_commit_permission.
  apply String.eqb_neq in Htoken. rewrite Htoken.
  unfold bind at 1, outbound. by rewrite Hdown.
Qed.

Lemma has_commit_permission_propagates_connection_error_witness :
  has_commit_permission network_down "gho_token" "dipy_web" idle_site
  = (Raise ConnectionError, mkSite (docs idle_site) (environ idle_site) 1).
Proof.
  apply (has_commit_permission_propagates_connection_error
           network_down "gho_token" "dipy_web" idle_site 1).
  - discriminate.
  - reflexivity.
Defined.

(** The three feeds do absorb a connection failure: each returns an empty
    mapping, whatever the settings and arguments. *)
Lemma get_or_connection_error_down {W} (R : Remote W) url headers s w' :
  requests_get R url headers (world s) = (Raise ConnectionError, w') ->
  get_or_connection_error R url headers s
  = (Return None, mkSite (docs s) (environ s) w').
Proof.
  intros Hdown. unfold get_or_connection_error, try_except, bind, outbound.
  by rewrite Hdown.
Qed.

Lemma get_twitter_bearer_token_down {W} (settings : Settings) (R : Remote W) s :
  (forall url headers data w, exists w',
      requests_post R url headers data w = (Raise ConnectionError, w')) ->
  exists s1, get_twitter_bearer_token settings R s = (Return "", s1).
Proof.
  intros Hpost. unfold get_twitter_bearer_token. cbv zeta.
  edestruct Hpost as [w' Hw]. eexists.
  erewrite bind_Return.
  2:{ unfold try_except, bind, outbound. rewrite Hw. reflexivity. }
  erewrite bind_Return; [|reflexivity].
  erewrite bind_Return; [|reflexivity]. cbv beta iota.
  erewrite bind_Return; [|reflexivity].
  reflexivity.
Qed.

Theorem feeds_absorb_connection_error {W} (settings : Settings) (R : Remote W)
    (name : string) (count : nat) (s : Site W) :
  (forall url headers w, exists w',
      requests_get R url headers w = (Raise ConnectionError, w')) ->
  (forall url headers data w, exists w',
      requests_post R url headers data w = (Raise ConnectionError, w')) ->
  fst (get_facebook_page_feed settings R name count s) = Return (JDict []) /\
  fst (get_twitter_feed settings R name count s) = Return (JDict []) /\
  fst (get_youtube_videos settings R name count s) = Return (JDict []).
Proof.
  intros Hget Hpost. split; [|split].
  - unfold get_facebook_page_feed. cbv zeta.
    edestruct Hget as [w' Hw].
    erewrite bind_Return; [|by apply get_or_connection_error_down].
    done.
  - unfold get_twitter_feed.
    assert (exists token s1,
               try_except
                 (let* env := gets environ in
                  lift_result (getitem env "TWITER_TOKEN"))
                 (fun e => match e with
                           | KeyError _ => get_twitter_bearer_token settings R
                           | _ => raise e
                           end) s
               = (Return token, s1)) as (token & s1 & Htoken).
    { unfold try_except, bind, gets, lift_result, getitem.
      destruct (environ s !! "TWITER_TOKEN") as [token|]; [by eexists _, _|].
      destruct (get_twitter_bearer_token_down settings R s Hpost) as [s1 ->].
      by eexists _, _. }
    erewrite bind_Return; [|exact Htoken]. cbv zeta.
    edestruct Hget as [w' Hw].
    erewrite bind_Return; [|by apply get_or_connection_error_down].
    done.
  - unfold get_youtube_videos.
    destruct (negb (str_truthy (GOOGLE_API_KEY settings))); [done|].
    cbv zeta. edestruct Hget as [w' Hw].
    erewrite bind_Return.
    2:{ unfold try_except, bind, outbound. rewrite Hw. reflexivity. }
    done.
Qed.

Lemma feeds_absorb_connection_error_witness :
  fst (get_facebook_page_feed sample_settings network_down "dipy" 5 idle_site)
  = Return (JDict []) /\
  fst (get_twitter_feed sample_settings network_down "dipy" 5 idle_site)
  = Return (JDict []) /\
  fst (get_youtube_videos sample_settings network_down "dipy" 5 idle_site)
  = Return (JDict []).
Proof.
  apply (feeds_absorb_connection_error sample_settings network_down "dipy" 5
           idle_site).
  - intros url headers w. by exists (S w).
  - intros url headers data w. by exists (S w).
Defined.

(** ** Lookups of records that do not exist *)

(** C9 (the code departs from the claim for the workshop page).  When no
    workshop has a slug that contains the requested one, [index] does not
    raise [Http404]: the lookup itself raises ([ObjectDoesNotExist], or
    [FieldError] where the model has no field [slug]), nothing catches
    it, and the test [if not workshop] that was to raise [Http404] is
    never reached. *)
Theorem index_missing_workshop_is_not_404
    (env : WorkshopEnv) (request : HttpRequest) (workshop_slug : string)
    (t : Table Workshop.t) :
  (forall r, r ∈ rows t -> str_in workshop_slug (Workshop.slug (snd r)) = false) ->
  index env request workshop_slug t
  = (Raise (if slug_is_a_field env then ObjectDoesNotExist else FieldError), t).
Proof.
  intros Hnone. unfold index, bind, get_slug_contains, get_object.
  destruct (slug_is_a_field env); [|done].
  by rewrite (objects_get_none _ t Hnone).
Qed.

Lemma index_missing_workshop_is_not_404_witness :
  index (mkWorkshopEnv true 40 "pk_test") get_request
    "dipy-workshop-2019" workshops
  = (Raise ObjectDoesNotExist, workshops).
Proof.
  apply (index_missing_workshop_is_not_404
           (mkWorkshopEnv true 40 "pk_test") get_request
           "dipy-workshop-2019" workshops).
  intros r Hr. apply list_elem_of_singleton in Hr as ->. reflexivity.
Defined.

(** The publication handlers do turn a missing record into [Http404]:
    [edit_publication] and [delete_publication] wrap the lookup in
    [try ... except Exception: raise Http404]. *)
Theorem publication_handlers_missing_record_is_404
    (env : PublicationEnv) (clears_pk : bool) (request : HttpRequest)
    (publication_id : nat) (t : Table Publication.t) :
  publication_id ∉ keys t ->
  edit_publication env request publication_id t
  = (Raise (Http404 "Publication does not exist"), t) /\
  delete_publication clears_pk request publication_id t
  = (Raise (Http404 "Publication does not exist"), t).
Proof.
  intros Hmissing.
  assert (objects_get (fun i (_ : Publication.t) => i =? publication_id) t
          = Raise ObjectDoesNotExist) as Hget.
  { apply objects_get_none. intros r Hr. apply Nat.eqb_neq. intros Heq.
    apply Hmissing. rewrite <- Heq. by apply (list_elem_of_fmap_2 fst). }
  split.
  - unfold edit_publication, bind, try_except, get_object, raise.
    by rewrite Hget.
  - unfold delete_publication, bind, try_except, get_object, raise.
    by rewrite Hget.
Qed.

Lemma publication_handlers_missing_record_is_404_witness :
  edit_publication (env_yielding entry_with_author) get_request 7 (mkTable [] 1)
  = (Raise (Http404 "Publication does not exist"), mkTable [] 1) /\
  delete_publication true get_request 7 (mkTable [] 1)
  = (Raise (Http404 "Publication does not exist"), mkTable [] 1).
Proof.
  apply (publication_handlers_missing_record_is_404
           (env_yielding entry_with_author) true get_request 7 (mkTable [] 1)).
  apply not_elem_of_nil.
Defined.

(* ====================================================================== *)
(** * Part III: further properties                                         *)
(* ====================================================================== *)

(** ** Publications: deleting, editing, adding *)

Lemma filter_key_absent {R} (l : list (nat * R)) i :
  i ∉ map fst l -> List.filter (fun r : nat * R => fst r =? i) l = [].
Proof.
  induction l as [|[j y] l IH]; simpl; intros Hni; [done|].
  apply not_elem_of_cons in Hni as [Hne Hni].
  destruct (Nat.eqb_spec j i) as [->|_]; [done|]. by apply IH.
Qed.

(** A lookup by primary key finds the row of that key. *)
Lemma objects_get_by_key {R} (t : Table R) i (y : R) :
  NoDup (keys t) -> (i, y) ∈ rows t ->
  objects_get (fun j _ => j =? i) t = Return (mkObj (Some i) y).
Proof.
  destruct t as [l n]. unfold keys. cbn [rows]. intros Hnd Hin.
  apply list_elem_of_split in Hin as (l1 & l2 & ->).
  unfold objects_get. rewrite objects_filter_rows. cbn [rows].
  rewrite map_app in Hnd. simpl in Hnd.
  apply NoDup_app in Hnd as (_ & Hl1 & Hnd).
  apply NoDup_cons in Hnd as [Hl2 _].
  rewrite List.filter_app. simpl. rewrite Nat.eqb_refl.
  rewrite !filter_key_absent; [done|done|].
  intros Hin. apply (Hl1 i Hin). left.
Qed.

Lemma elem_of_sql_delete {R} (t : Table R) i r :
  r ∈ rows (sql_delete i t) <-> r ∈ rows t /\ fst r <> i.
Proof.
  unfold sql_delete. cbn [rows].
  rewrite list_elem_of_In, List.filter_In, <- list_elem_of_In.
  by rewrite negb_true_iff, Nat.eqb_neq.
Qed.

(** Deleting removes the record asked for and nothing else, whatever the
    request's method: on a table that holds a publication under
    [publication_id], the handler redirects to the dashboard and leaves a
    table without that key in which every other row is as it was. *)
Theorem delete_publication_removes_that_record
    (clears_pk : bool) (request : HttpRequest) (publication_id : nat)
    (p : Publication.t) (t : Table Publication.t) :
  NoDup (keys t) ->
  (publication_id, p) ∈ rows t ->
  exists t',
    delete_publication clears_pk request publication_id t
    = (Return (redirect "/dashboard/publications/"), t') /\
    (publication_id ∉ keys t') /\
    (forall r, fst r <> publication_id -> (r ∈ rows t' <-> r ∈ rows t)) /\
    next_id t' = next_id t.
Proof.
  intros Hnd Hin. exists (sql_delete publication_id t).
  split; [|split; [|split]].
  - unfold delete_publication, bind, try_except, get_object.
    rewrite (objects_get_by_key t publication_id p Hnd Hin).
    unfold delete. by cbn [pk fields].
  - unfold keys. intros Hk.
    apply list_elem_of_fmap in Hk as (r & Hr & Hk).
    apply elem_of_sql_delete in Hk as [_ Hne]. by apply Hne.
  - intros r Hne. rewrite elem_of_sql_delete. tauto.
  - reflexivity.
Qed.

Lemma delete_publication_removes_that_record_witness :
  exists t',
    delete_publication true (mkRequest "GET" []) 1
      (mkTable
         [(1, Publication.mk "A" "a" "u" None None None None None None None true);
          (2, Publication.mk "B" "b" "v" None None None None None None None false)]
         3)
    = (Return (redirect "/dashboard/publications/"), t') /\
    (1 ∉ keys t') /\
    (forall r, fst r <> 1 ->
       (r ∈ rows t' <->
        r ∈ rows (mkTable
          [(1, Publication.mk "A" "a" "u" None None None None None None None true);
           (2, Publication.mk "B" "b" "v" None None None None None None None false)]
          3))) /\
    next_id t' = 3.
Proof.
  apply (delete_publication_removes_that_record true (mkRequest "GET" []) 1
           (Publication.mk "A" "a" "u" None None None None None None None true)).
  - unfold keys. simpl. apply (bool_decide_unpack _). vm_compute. exact I.
  - simpl. left.
Defined.

(** A request that is not a POST changes nothing in the table, through any
    of the dashboard, add, edit and highlight handlers. *)
Theorem publication_handlers_read_only_unless_post
    (env : PublicationEnv) (request : HttpRequest) (method_ : string)
    (publication_id : nat) (t : Table Publication.t) :
  method request <> "POST" ->
  snd (dashboard_publications request t) = t /\
  snd (add_publication env request method_ t) = t /\
  snd (edit_publication env request publication_id t) = t /\
  snd (highlight_publications request t) = t.
Proof.
  intros Hget. apply String.eqb_neq in Hget.
  split; [done|]. split; [|split].
  - unfold add_publication. rewrite Hget.
    by destruct (String.eqb method_ "manual"), (String.eqb method_ "bibtex").
  - unfold edit_publication, bind, try_except, get_object. rewrite Hget.
    by destruct (objects_get _ t).
  - unfold highlight_publications. by rewrite Hget.
Qed.

Lemma publication_handlers_read_only_unless_post_witness :
  snd (dashboard_publications get_request (mkTable [] 1)) = mkTable [] 1 /\
  snd (add_publication (env_yielding entry_with_author) get_request "bibtex"
         (mkTable [] 1)) = mkTable [] 1 /\
  snd (edit_publication (env_yielding entry_with_author) get_request 1
         (mkTable [] 1)) = mkTable [] 1 /\
  snd (highlight_publications get_request (mkTable [] 1)) = mkTable [] 1.
Proof.
  apply (publication_handlers_read_only_unless_post
           (env_yielding entry_with_author) get_request "bibtex" 1 (mkTable [] 1)).
  discriminate.
Defined.

(** Adding never touches an existing record: whatever the method, the
    request and the outcome, the rows either are what they were or have
    gained one row at the end, under the key the counter held. *)
Theorem add_publication_adds_at_most_one
    (env : PublicationEnv) (request : HttpRequest) (method_ : string)
    (t : Table Publication.t) :
  let t' := snd (add_publication env request method_ t) in
  t' = t \/ exists p, rows t' = rows t ++ [(next_id t, p)].
Proof.
  cbv zeta. unfold add_publication.
  destruct (String.eqb method_ "manual").
  { destruct (String.eqb (method request) "POST"); [|by left].
    destruct (form_clean env _) as [cleaned|]; [|by left].
    right. exists cleaned. reflexivity. }
  destruct (String.eqb method_ "bibtex"); [|by left].
  destruct (String.eqb (method request) "POST"); [|by left].
  unfold try_except, bind at 1, lift_result at 1.
  destruct (bibtexparser_loads env _) as [[|bibInfo rest]|e]; [by left| |by left].
  unfold bind, lift_result, first_item, has_key, getitem, ret.
  repeat split_lookup bibInfo; try (by left);
    match goal with
    | |- context [ if ?b then _ else _ ] => destruct b; [|by left]
    end;
    right; eexists; reflexivity.
Qed.

(** Editing rewrites one row in place: a POST for an existing publication
    whose form validates stores the cleaned fields under the same key and
    redirects; no key is added or dropped and every other row is as it
    was. *)
Theorem edit_publication_updates_in_place
    (env : PublicationEnv) (request : HttpRequest) (publication_id : nat)
    (p cleaned : Publication.t) (t : Table Publication.t) :
  NoDup (keys t) ->
  (publication_id, p) ∈ rows t ->
  method request = "POST" ->
  form_clean env (AddEditPublicationForm (Some (POST request))
                    (Some (mkObj (Some publication_id) p))) = Some cleaned ->
  exists t',
    edit_publication env request publication_id t
    = (Return (redirect "/dashboard/publications/"), t') /\
    keys t' = keys t /\
    (publication_id, cleaned) ∈ rows t' /\
    (forall r, fst r <> publication_id -> (r ∈ rows t' <-> r ∈ rows t)) /\
    next_id t' = next_id t.
Proof.
  intros Hnd Hin Hpost Hclean. exists (sql_update publication_id cleaned t).
  assert (publication_id ∈ keys t) as Hkey.
  { unfold keys. by apply (list_elem_of_fmap_2 fst) in Hin. }
  split; [|split; [|split; [|split]]].
  - unfold edit_publication, bind at 1, try_except, get_object.
    rewrite (objects_get_by_key t publication_id p Hnd Hin).
    rewrite Hpost. cbn [String.eqb Ascii.eqb Bool.eqb]. rewrite Hclean.
    unfold form_save, bind, save_object, save, ret. cbn [form_instance pk fields].
    by rewrite (proj2 (has_row_iff t publication_id) Hkey).
  - apply keys_sql_update.
  - apply elem_of_sql_update. by right.
  - intros r Hne. rewrite elem_of_sql_update. split.
    + intros [[Hr _]|[-> _]]; [done|]. by destruct Hne.
    + intros Hr. by left.
  - reflexivity.
Qed.

Lemma edit_publication_updates_in_place_witness :
  exists t',
    edit_publication
      (mkPublicationEnv (fun _ => Return [])
         (fun f => Some (Publication.mk "A2" "a" "u" None None None None None
                           None None true))
         false)
      (mkRequest "POST" [("title", "A2")]) 1
      (mkTable
         [(1, Publication.mk "A" "a" "u" None None None None None None None true);
          (2, Publication.mk "B" "b" "v" None None None None None None None false)]
         3)
    = (Return (redirect "/dashboard/publications/"), t') /\
    keys t' = [1; 2] /\
    (1, Publication.mk "A2" "a" "u" None None None None None None None true)
      ∈ rows t' /\
    (forall r, fst r <> 1 ->
       (r ∈ rows t' <->
        r ∈ [(1, Publication.mk "A" "a" "u" None None None None None None None true);
             (2, Publication.mk "B" "b" "v" None None None None None None None false)])) /\
    next_id t' = 3.
Proof.
  apply (edit_publication_updates_in_place
           (mkPublicationEnv (fun _ => Return [])
              (fun f => Some (Publication.mk "A2" "a" "u" None None None None None
                                None None true))
              false)
           (mkRequest "POST" [("title", "A2")]) 1
           (Publication.mk "A" "a" "u" None None None None None None None true)
           (Publication.mk "A2" "a" "u" None None None None None None None true)
           (mkTable
              [(1, Publication.mk "A" "a" "u" None None None None None None None true);
               (2, Publication.mk "B" "b" "v" None None None None None None None false)]
              3)).
  - unfold keys. simpl. apply (bool_decide_unpack _). vm_compute. exact I.
  - simpl. left.
  - reflexivity.
  - reflexivity.
Defined.

Lemma assign_if_present_sets (f : Publication.t -> option string) d k set p :
  (forall v q, f (set v q) = Some v) ->
  f (assign_if_present d k set p)
  = match d !! k with Some v => Some v | None => f p end.
Proof. intros Hset. unfold assign_if_present. by destruct (d !! k). Qed.

(** Skip the optional assignments that leave field [f] alone, then read
    the one that sets it. *)
Ltac read_field f :=
  repeat first
    [ rewrite (assign_if_present_keeps f); [|intros; reflexivity]
    | rewrite (assign_if_present_sets f); [|intros; reflexivity] ];
  repeat match goal with
         | H : ?d !! ?k = _ |- context [ ?d !! ?k ] => rewrite H
         end;
  repeat match goal with
         | |- context [ ?d !! ?k ] => destruct (d !! k)
         end;
  reflexivity.

(** Case analysis, in hypothesis [H], on the next dictionary lookup. *)
Ltac split_lookup_in d H :=
  match type of H with
  | context [ d !! ?k ] => destruct (d !! k) eqn:?; cbv beta iota in H
  end.

(** What a stored citation carries besides title, author and URL: when the
    bibtex path redirects, the one row it added holds, for each optional
    field, the entry's value under the matching key, or nothing when the
    entry lacks the key; the venue is the entry's [booktitle] when it has
    one, whether or not it has a [journal], and its [journal] otherwise;
    the highlight flag is the model's default. *)
Theorem add_publication_bibtex_optional_fields
    (env : PublicationEnv) (request : HttpRequest) (t t' : Table Publication.t)
    (bibInfo : dict) (rest : list dict) :
  method request = "POST" ->
  bibtexparser_loads env (QueryDict_get (POST request) "bibtex")
  = Return (bibInfo :: rest) ->
  add_publication env request "bibtex" t
  = (Return (redirect "/dashboard/publications/"), t') ->
  exists p,
    rows t' = rows t ++ [(next_id t, p)] /\
    Publication.entry_type p = bibInfo !! "ENTRYTYPE" /\
    Publication.doi p = bibInfo !! "doi" /\
    Publication.published_in p
    = match bibInfo !! "booktitle" with
      | Some booktitle => Some booktitle
      | None => bibInfo !! "journal"
      end /\
    Publication.publisher p = bibInfo !! "publisher" /\
    Publication.year_of_publication p = bibInfo !! "year" /\
    Publication.month_of_publication p = bibInfo !! "month" /\
    Publication.is_highlighted p = default_is_highlighted env.
Proof.
  intros Hpost Hparsed Hrun. unfold add_publication in Hrun.
  rewrite Hpost in Hrun. cbn [String.eqb Ascii.eqb Bool.eqb] in Hrun.
  unfold try_except, bind at 1, lift_result at 1 in Hrun. rewrite Hparsed in Hrun.
  unfold bind, lift_result, first_item, has_key, getitem, ret in Hrun.
  repeat split_lookup_in bibInfo Hrun; try discriminate.
  all: match type of Hrun with
       | context [ if ?b then _ else _ ] => destruct b; [|discriminate]
       end.
  all: unfold save_object, save, sql_insert in Hrun; cbn [pk fields] in Hrun.
  all: injection Hrun as <-; eexists; (split; [reflexivity|]);
    unfold Publication.set_bibtex;
    cbn [Publication.entry_type Publication.doi Publication.published_in
         Publication.publisher Publication.year_of_publication
         Publication.month_of_publication Publication.is_highlighted].
  all: split; [read_field Publication.entry_type|].
  all: split; [read_field Publication.doi|].
  all: split; [read_field Publication.published_in|].
  all: split; [read_field Publication.publisher|].
  all: split; [read_field Publication.year_of_publication|].
  all: split; [read_field Publication.month_of_publication|].
  all: keep_field Publication.is_highlighted.
Qed.

Lemma add_publication_bibtex_optional_fields_witness :
  exists p,
    rows (mkTable [(1, stored_proceedings)] 2)
    = rows (mkTable [] 1) ++ [(1, p)] /\
    Publication.entry_type p = entry_in_proceedings !! "ENTRYTYPE" /\
    Publication.doi p = entry_in_proceedings !! "doi" /\
    Publication.published_in p
    = match entry_in_proceedings !! "booktitle" with
      | Some booktitle => Some booktitle
      | None => entry_in_proceedings !! "journal"
      end /\
    Publication.publisher p = entry_in_proceedings !! "publisher" /\
    Publication.year_of_publication p = entry_in_proceedings !! "year" /\
    Publication.month_of_publication p = entry_in_proceedings !! "month" /\
    Publication.is_highlighted p
    = default_is_highlighted (env_yielding entry_in_proceedings).
Proof.
  apply (add_publication_bibtex_optional_fields
           (env_yielding entry_in_proceedings)
           (bibtex_post "@inproceedings{dipy, ...}")
           (mkTable [] 1) (mkTable [(1, stored_proceedings)] 2)
           entry_in_proceedings []).
  - reflexivity.
  - reflexivity.
  - vm_compute. reflexivity.
Defined.

(** What a POST to the highlight handler leaves in the table. *)
Lemma highlight_publications_post (request : HttpRequest) (t : Table Publication.t) :
  method request = "POST" ->
  NoDup (keys t) ->
  highlight_publications request t
  = (Return (redirect "/dashboard/publications/"),
     mkTable
       (map (fun r =>
               (fst r,
                Publication.set_is_highlighted
                  (bool_decide
                     (str_of_nat (fst r) ∈ getlist (POST request) "highlights[]"))
                  (snd r)))
            (rows t))
       (next_id t)).
Proof.
  intros Hpost Hnd. unfold highlight_publications.
  rewrite Hpost. cbn [String.eqb Ascii.eqb Bool.eqb].
  destruct t as [l n]. unfold keys in Hnd. cbn [rows next_id] in *.
  unfold bind at 1. unfold gets at 1. unfold objects_all. cbn [rows].
  unfold bind at 1.
  rewrite (for_each_rows _
             (fun i p =>
                Publication.set_is_highlighted
                  (bool_decide (str_of_nat i ∈ getlist (POST request) "highlights[]")) p)
             n) with (seen := []); [done| |done].
  intros seen i y rest Hnd'. unfold obj_of_row, str_of_id, with_fields.
  cbn [fst snd pk fields]. unfold bind, save_object, ret.
  destruct (bool_decide (str_of_nat i ∈ getlist (POST request) "highlights[]"));
    by rewrite (save_existing _ _ _ _ _ _ Hnd').
Qed.

(** The highlights are replaced, not merged: after two POSTs to the
    highlight handler the table is what the second alone would have left,
    whatever the first one selected. *)
Theorem highlight_publications_last_post_wins
    (first second : HttpRequest) (t : Table Publication.t) :
  method first = "POST" ->
  method second = "POST" ->
  NoDup (keys t) ->
  highlight_publications second (snd (highlight_publications first t))
  = highlight_publications second t.
Proof.
  intros Hfirst Hsecond Hnd.
  rewrite (highlight_publications_post first t Hfirst Hnd). cbn [snd].
  rewrite !highlight_publications_post; try done.
  - cbn [rows next_id]. do 2 f_equal. rewrite List.map_map.
    apply List.map_ext. by intros [i p].
  - unfold keys. cbn [rows]. rewrite List.map_map. cbn [fst].
    by rewrite (List.map_ext _ fst) by done.
Qed.

Lemma highlight_publications_last_post_wins_witness :
  highlight_publications (mkRequest "POST" [("highlights[]", "2")])
    (snd (highlight_publications (mkRequest "POST" [("highlights[]", "1")])
            (mkTable
               [(1, Publication.mk "A" "a" "u" None None None None None None None false);
                (2, Publication.mk "B" "b" "v" None None None None None None None false)]
               3)))
  = highlight_publications (mkRequest "POST" [("highlights[]", "2")])
      (mkTable
         [(1, Publication.mk "A" "a" "u" None None None None None None None false);
          (2, Publication.mk "B" "b" "v" None None None None None None None false)]
         3).
Proof.
  apply (highlight_publications_last_post_wins
           (mkRequest "POST" [("highlights[]", "1")])
           (mkRequest "POST" [("highlights[]", "2")])).
  - reflexivity.
  - reflexivity.
  - unfold keys. simpl. apply (bool_decide_unpack _). vm_compute. exact I.
Defined.

(** Adding a publication by hand and deleting it again restores the rows:
    a valid manual POST stores the cleaned fields under the key the
    counter held, and deleting that key leaves the rows the table had
    before; only the counter has moved on. *)
Theorem add_then_delete_restores_rows
    (env : PublicationEnv) (clears_pk : bool) (request request' : HttpRequest)
    (cleaned : Publication.t) (t : Table Publication.t) :
  table_wf t ->
  method request = "POST" ->
  form_clean env (AddEditPublicationForm (Some (POST request)) None)
  = Some cleaned ->
  exists t1 t2,
    add_publication env request "manual" t
    = (Return (redirect "/dashboard/publications/"), t1) /\
    (next_id t, cleaned) ∈ rows t1 /\
    delete_publication clears_pk request' (next_id t) t1
    = (Return (redirect "/dashboard/publications/"), t2) /\
    rows t2 = rows t /\
    next_id t2 = S (next_id t).
Proof.
  intros Hwf Hpost Hclean.
  exists (sql_insert (next_id t) cleaned t),
         (sql_delete (next_id t) (sql_insert (next_id t) cleaned t)).
  pose proof (table_wf_fresh t Hwf) as Hfresh.
  pose proof (table_wf_insert t (next_id t) cleaned Hwf Hfresh) as [Hnd _].
  assert ((next_id t, cleaned) ∈ rows (sql_insert (next_id t) cleaned t)) as Hin.
  { unfold sql_insert. cbn [rows]. apply elem_of_app. right. left. }
  split; [|split; [done|split; [|split]]].
  - unfold add_publication. cbn [String.eqb Ascii.eqb Bool.eqb].
    rewrite Hpost. cbn [String.eqb Ascii.eqb Bool.eqb]. rewrite Hclean.
    reflexivity.
  - unfold delete_publication, bind, try_except, get_object.
    rewrite (objects_get_by_key _ _ _ Hnd Hin).
    unfold delete. by cbn [pk fields].
  - unfold sql_delete, sql_insert. cbn [rows].
    rewrite List.filter_app. cbn [List.filter fst]. rewrite Nat.eqb_refl.
    cbn [negb]. rewrite app_nil_r. by apply filter_off_key.
  - unfold sql_delete, sql_insert. cbn [next_id]. lia.
Qed.

Lemma add_then_delete_restores_rows_witness :
  exists t1 t2,
    add_publication
      (mkPublicationEnv (fun _ => Return [])
         (fun f => Some (Publication.mk "C" "c" "w" None None None None None
                           None None false))
         false)
      (mkRequest "POST" [("title", "C")]) "manual"
      (mkTable
         [(1, Publication.mk "A" "a" "u" None None None None None None None true)]
         2)
    = (Return (redirect "/dashboard/publications/"), t1) /\
    (2, Publication.mk "C" "c" "w" None None None None None None None false)
      ∈ rows t1 /\
    delete_publication true get_request 2 t1
    = (Return (redirect "/dashboard/publications/"), t2) /\
    rows t2
    = [(1, Publication.mk "A" "a" "u" None None None None None None None true)] /\
    next_id t2 = 3.
Proof.
  apply (add_then_delete_restores_rows
           (mkPublicationEnv (fun _ => Return [])
              (fun f => Some (Publication.mk "C" "c" "w" None None None None None
                                None None false))
              false)
           true (mkRequest "POST" [("title", "C")]) get_request
           (Publication.mk "C" "c" "w" None None None None None None None false)
           (mkTable
              [(1, Publication.mk "A" "a" "u" None None None None None None None true)]
              2)).
  - split.
    + apply (bool_decide_unpack _). vm_compute. exact I.
    + unfold keys. simpl. repeat constructor; lia.
  - reflexivity.
  - reflexivity.
Defined.

(** ** The sync never forgets a version *)

Lemma version_count_pos v t :
  v ∈ tracked_versions t <-> 1 <= version_count v t.
Proof.
  rewrite version_count_tracked.
  induction (tracked_versions t) as [|x l IH]; simpl.
  - rewrite elem_of_nil. lia.
  - rewrite elem_of_cons, IH. destruct (String.eqb_spec x v) as [->|Hne]; simpl.
    + split; [lia|by left].
    + split; [by intros [?|?]|by right].
Qed.

(** A pass of the sync removes no version: a version the table tracked
    before the pass is tracked after it, by as many records as before,
    whether or not the listing still has it and whether the pass returned
    or raised. *)
Theorem update_documentations_never_drops_a_version
    (cfg : DocConfig) (listing : list Content) (t : Table Doc) (v : string) :
  table_wf t ->
  v ∈ tracked_versions t ->
  let t' := snd (update_documentations cfg listing t) in
  v ∈ tracked_versions t' /\ version_count v t' = version_count v t.
Proof.
  intros Hwf Hv. cbv zeta. apply version_count_pos in Hv.
  assert (version_count v (snd (update_documentations cfg listing t))
          = version_count v t) as Hcount.
  { destruct (update_documentations_outcome cfg listing t Hwf)
      as [(e & ta & Hadd & ->)|(G & ta & t1 & Hadd & -> & _ & Hperm & _)];
      cbn [snd]; unfold add_new_docs in Hadd.
    - by apply (add_new_docs_count cfg _ _ _ _ _ _ Hadd).
    - rewrite (version_count_perm _ _ _ Hperm).
      by apply (add_new_docs_count cfg _ _ _ _ _ _ Hadd). }
  split; [|done]. apply version_count_pos. by rewrite Hcount.
Qed.

Lemma update_documentations_never_drops_a_version_witness :
  let t' := snd (update_documentations (sample_config true) listing_1_0_1_1
                   store_1_0_dev) in
  "dev" ∈ tracked_versions t' /\
  version_count "dev" t' = version_count "dev" store_1_0_dev.
Proof.
  apply (update_documentations_never_drops_a_version (sample_config true)
           listing_1_0_1_1 store_1_0_dev "dev").
  - exact store_1_0_dev_wf.
  - simpl. right. left.
Defined.

(** ** A refresh that goes through *)

Lemma refresh_loop_returns {W} cfg (R : Remote W) todo :
  forall s s',
    NoDup (keys (docs s)) -> NoDup (map fst todo) ->
    (forall r, r ∈ todo -> r ∈ rows (docs s)) ->
    for_each (map obj_of_row todo) (update_doc_information cfg R) s
    = (Return tt, s') ->
    (forall i d, (i, d) ∈ todo ->
       exists sj x, refreshed cfg R i d sj (Return tt) x /\
                    (i, x) ∈ rows (docs s')) /\
    (forall r, r ∈ rows (docs s) -> fst r ∉ map fst todo -> r ∈ rows (docs s')).
Proof.
  induction todo as [|[i d] todo IH]; intros s s' Hnd Hnt Hsub Hrun.
  - cbn [map for_each] in Hrun. unfold ret in Hrun. simplify_eq.
    split; [|done]. intros i d Hin. by apply elem_of_nil in Hin.
  - cbn [map fst] in Hnt. apply NoDup_cons in Hnt as [Hi Hnt].
    destruct (update_doc_information_step cfg R i d s Hnd)
      as (r1 & x & s1 & Hbody & Hrf & Hdocs); [apply Hsub; left|].
    assert (i ∈ keys (docs s)) as Hkey.
    { apply (list_elem_of_fmap_2 fst (rows (docs s)) (i, d)). apply Hsub. left. }
    cbn [map for_each] in Hrun. unfold bind in Hrun. rewrite Hbody in Hrun.
    destruct r1 as [[]|e1]; [|done].
    destruct (IH s1 s') as (Hdone & Hkept); [| | |done|].
    { by rewrite Hdocs, keys_sql_update. }
    { done. }
    { intros r Hr. rewrite Hdocs. apply elem_of_sql_update. left.
      split; [apply Hsub; by right|].
      intros Heq. apply Hi. rewrite <- Heq. by apply (list_elem_of_fmap_2 fst). }
    split.
    + intros j d' [[= -> ->]|Hin]%elem_of_cons; [|by apply Hdone].
      exists s, x. split; [done|]. apply Hkept; [|done].
      rewrite Hdocs. apply elem_of_sql_update. by right.
    + intros r Hr Hfresh. cbn [map fst] in Hfresh.
      apply not_elem_of_cons in Hfresh as [Hne Hfresh].
      apply Hkept; [|done]. rewrite Hdocs. apply elem_of_sql_update. by left.
Qed.

(** When the refresh returns, every record whose key was listed has been
    through the three fetches, holds their results and has its freshness
    flag true; every other record is as it was, and the table has the
    keys it had. *)
Theorem refresh_success_marks_every_listed_record {W}
    (cfg : DocConfig) (R : Remote W) (ids : list nat) (s s' : Site W) :
  NoDup (keys (docs s)) ->
  update_doc_informations cfg R ids s = (Return tt, s') ->
  (forall i d, (i, d) ∈ rows (docs s) -> i ∈ ids ->
     exists sj x,
       refreshed cfg R i d sj (Return tt) x /\
       (i, x) ∈ rows (docs s') /\
       DocumentationLink.is_updated x = true) /\
  (forall r, r ∈ rows (docs s) -> fst r ∉ ids -> r ∈ rows (docs s')) /\
  keys (docs s') = keys (docs s).
Proof.
  intros Hnd Hrun. rewrite update_doc_informations_unfold in Hrun.
  set (todo := List.filter (fun r => bool_decide (fst r ∈ ids)) (rows (docs s))) in *.
  assert (forall r, r ∈ todo <-> r ∈ rows (docs s) /\ fst r ∈ ids) as Htodo.
  { intros r. unfold todo.
    rewrite list_elem_of_In, List.filter_In, <- list_elem_of_In.
    by rewrite bool_decide_eq_true. }
  assert (NoDup (map fst todo)) as Hnt by by apply NoDup_filter_keys.
  assert (forall r, r ∈ todo -> r ∈ rows (docs s)) as Hsub.
  { intros r Hr. by apply Htodo in Hr as [Hr _]. }
  destruct (refresh_loop cfg R todo s (Return tt) s' Hnd Hnt Hsub Hrun)
    as (Hkeys & _ & _).
  destruct (refresh_loop_returns cfg R todo s s' Hnd Hnt Hsub Hrun)
    as (Hdone & Hkept).
  split; [|split; [|done]].
  - intros i d Hin Hid.
    destruct (Hdone i d) as (sj & x & Hrf & Hx); [by apply Htodo|].
    exists sj, x. split; [done|]. split; [done|]. by inversion Hrf.
  - intros r Hr Hid. apply Hkept; [done|].
    intros Hin. apply list_elem_of_fmap in Hin as (r' & Heq & Hr').
    apply Htodo in Hr' as [_ Hid']. apply Hid. by rewrite Heq.
Qed.

Lemma refresh_success_marks_every_listed_record_witness :
  (forall i d, (i, d) ∈ rows (docs site_after_sync) -> i ∈ [1; 3] ->
     exists sj x,
       refreshed (sample_config true) (sample_remote "") i d sj (Return tt) x /\
       (i, x) ∈ rows (docs (snd (update_doc_informations (sample_config true)
                                   (sample_remote "") [1; 3] site_after_sync))) /\
       DocumentationLink.is_updated x = true) /\
  (forall r, r ∈ rows (docs site_after_sync) -> fst r ∉ [1; 3] ->
     r ∈ rows (docs (snd (update_doc_informations (sample_config true)
                            (sample_remote "") [1; 3] site_after_sync)))) /\
  keys (docs (snd (update_doc_informations (sample_config true)
                     (sample_remote "") [1; 3] site_after_sync)))
  = keys (docs site_after_sync).
Proof.
  apply (refresh_success_marks_every_listed_record
           (sample_config true) (sample_remote "") [1; 3] site_after_sync
           (snd (update_doc_informations (sample_config true)
                   (sample_remote "") [1; 3] site_after_sync))).
  - apply (bool_decide_unpack _). vm_compute. exact I.
  - vm_compute. reflexivity.
Defined.

(** ** Versions in string order *)

Lemma leb_trans s1 s2 s3 :
  String.leb s1 s2 = true -> String.leb s2 s3 = true -> String.leb s1 s3 = true.
Proof.
  unfold String.leb. revert s2 s3.
  induction s1 as [|c1 s1 IH]; intros [|c2 s2] [|c3 s3]; simpl; try done.
  unfold Ascii.compare.
  destruct (N.compare_spec (N_of_ascii c1) (N_of_ascii c2)) as [E12|L12|G12];
    destruct (N.compare_spec (N_of_ascii c2) (N_of_ascii c3)) as [E23|L23|G23];
    destruct (N.compare_spec (N_of_ascii c1) (N_of_ascii c3)) as [E13|L13|G13];
    try done; try lia.
  apply IH.
Qed.

Lemma leb_refl s : String.leb s s = true.
Proof. by destruct (String.leb_total s s). Qed.

Lemma insert_by_version_elem x y l :
  y ∈ insert_by_version x l <-> y = x \/ y ∈ l.
Proof.
  induction l as [|h l IH]; simpl.
  - rewrite list_elem_of_singleton, elem_of_nil. tauto.
  - destruct (String.leb _ _).
    + by rewrite elem_of_cons.
    + rewrite !elem_of_cons, IH. tauto.
Qed.

Lemma order_by_version_desc_elem y l :
  y ∈ order_by_version_desc l <-> y ∈ l.
Proof.
  unfold order_by_version_desc. induction l as [|x l IH]; simpl; [done|].
  by rewrite insert_by_version_elem, elem_of_cons, IH.
Qed.

(** The first record of a list in descending version order is above all
    the others. *)
Lemma order_by_version_desc_head l x rest :
  order_by_version_desc l = x :: rest ->
  x ∈ l /\
  forall y, y ∈ l ->
    String.leb (DocumentationLink.version (fields y))
               (DocumentationLink.version (fields x)) = true.
Proof.
  intros Hord. split.
  { apply order_by_version_desc_elem. rewrite Hord. left. }
  intros y Hy. apply order_by_version_desc_elem in Hy. revert x rest Hord y Hy.
  unfold order_by_version_desc.
  induction l as [|a l IH]; simpl; intros x rest Hord y Hy; [done|].
  destruct (fold_right insert_by_version [] l) as [|h sorted] eqn:Hsorted.
  - simpl in Hord. simplify_eq. apply list_elem_of_singleton in Hy as ->.
    apply leb_refl.
  - specialize (IH h sorted eq_refl).
    apply insert_by_version_elem in Hy. simpl in Hord.
    destruct (String.leb (DocumentationLink.version (fields h))
                         (DocumentationLink.version (fields a))) eqn:Hle;
      simplify_eq; destruct Hy as [->|Hy].
    + apply leb_refl.
    + eapply leb_trans; [by apply IH|done].
    + destruct (String.leb_total (DocumentationLink.version (fields a))
                                 (DocumentationLink.version (fields x)));
        [done|congruence].
    + by apply IH.
Qed.

Lemma order_by_version_desc_nil l : order_by_version_desc l = [] -> l = [].
Proof.
  intros Hord. destruct l as [|x l]; [done|].
  assert (x ∈ order_by_version_desc (x :: l)) as Hx.
  { apply order_by_version_desc_elem. left. }
  rewrite Hord in Hx. by apply elem_of_nil in Hx.
Qed.

Lemma elem_of_objects_filter {R} (p : nat -> R -> bool) (t : Table R) o :
  o ∈ objects_filter p t
  <-> exists r, r ∈ rows t /\ o = obj_of_row r /\ p (fst r) (snd r) = true.
Proof.
  rewrite objects_filter_rows, list_elem_of_fmap. split.
  - intros (r & -> & Hr). apply list_elem_of_In, List.filter_In in Hr as [Hr Hp].
    exists r. by rewrite list_elem_of_In.
  - intros (r & Hr & -> & Hp). exists r. split; [done|].
    apply list_elem_of_In, List.filter_In. by rewrite <- list_elem_of_In.
Qed.

(** ** The latest release *)

(** On a table that is not empty, [get_last_release] answers with a
    version string: ["0.0.0"] when no record is a release (displayed, and
    without [dev] in its version in any letter case), and otherwise the
    version of a release that no other release exceeds in string order. *)
Theorem get_last_release_is_greatest_release (t : Table Doc) :
  rows t <> [] ->
  exists v,
    get_last_release t = JStr v /\
    ((v = "0.0.0" /\ forall r, r ∈ rows t -> is_release (snd r) = false) \/
     ((exists r, r ∈ rows t /\ is_release (snd r) = true /\
                 DocumentationLink.version (snd r) = v) /\
      forall r, r ∈ rows t -> is_release (snd r) = true ->
        String.leb (DocumentationLink.version (snd r)) v = true)).
Proof.
  intros Hrows. unfold get_last_release, objects_all.
  destruct (rows t) as [|r0 l] eqn:Hl; [done|]. cbn [map is_nil]. cbv zeta.
  destruct (order_by_version_desc _) as [|x rest] eqn:Hord.
  - exists "0.0.0". split; [done|]. left. split; [done|].
    intros r Hr. apply order_by_version_desc_nil in Hord.
    destruct (is_release (snd r)) eqn:Hrel; [|done].
    assert (obj_of_row r ∈ objects_filter
              (fun _ d => DocumentationLink.displayed d
                          && negb (sql_contains "dev" (DocumentationLink.version d))) t) as Hin.
    { apply elem_of_objects_filter. exists r. by rewrite Hl. }
    rewrite Hord in Hin. by apply elem_of_nil in Hin.
  - exists (DocumentationLink.version (fields x)). split; [done|]. right.
    apply order_by_version_desc_head in Hord as [Hx Hmax].
    apply elem_of_objects_filter in Hx as (r & Hr & -> & Hrel).
    rewrite Hl in Hr. split; [by exists r|].
    intros r' Hr' Hrel'.
    apply (Hmax (obj_of_row r')). apply elem_of_objects_filter.
    exists r'. by rewrite Hl.
Qed.

Lemma get_last_release_is_greatest_release_witness :
  exists v,
    get_last_release store_1_0_DEV = JStr v /\
    ((v = "0.0.0" /\ forall r, r ∈ rows store_1_0_DEV -> is_release (snd r) = false) \/
     ((exists r, r ∈ rows store_1_0_DEV /\ is_release (snd r) = true /\
                 DocumentationLink.version (snd r) = v) /\
      forall r, r ∈ rows store_1_0_DEV -> is_release (snd r) = true ->
        String.leb (DocumentationLink.version (snd r)) v = true)).
Proof.
  apply (get_last_release_is_greatest_release store_1_0_DEV). discriminate.
Defined.

(** On the sample store the release is [1.0]: [2.0.DEV] is greater but
    counts as a development version. *)
Example get_last_release_passes_over_DEV :
  get_last_release store_1_0_DEV = JStr "1.0".
Proof. reflexivity. Qed.

(** ** Which version the fragment getters fetch *)

Lemma resolve_version_head {W} version if_empty (k : string -> SiteM W json)
    (s : Site W) o rest :
  get_docs version (docs s) = o :: rest ->
  resolve_version version if_empty k s
  = k (DocumentationLink.version (fields o)) s.
Proof.
  intros Hdocs. unfold resolve_version, bind, gets.
  destruct (objects_all (docs s)) as [|o0 all] eqn:Hall.
  - exfalso. unfold get_docs, objects_filter in Hdocs. rewrite Hall in Hdocs.
    by destruct version.
  - cbn [is_nil]. by rewrite Hdocs.
Qed.

Lemma resolve_version_no_docs {W} version if_empty (k : string -> SiteM W json)
    (s : Site W) :
  rows (docs s) <> [] ->
  get_docs version (docs s) = [] ->
  resolve_version version if_empty k s = (Raise IndexError, s).
Proof.
  intros Hrows Hdocs. unfold resolve_version, bind, gets.
  unfold objects_all. destruct (rows (docs s)) as [|r l]; [done|].
  cbn [map is_nil]. by rewrite Hdocs.
Qed.

(** The records of a tracked version are what [get_docs] yields for it. *)
Lemma get_docs_tracked t i d :
  (i, d) ∈ rows t ->
  exists o rest,
    get_docs (Some (DocumentationLink.version d)) t = o :: rest /\
    DocumentationLink.version (fields o) = DocumentationLink.version d.
Proof.
  intros Hin. unfold get_docs.
  destruct (objects_filter _ t) as [|o rest] eqn:Hf.
  - exfalso.
    assert (obj_of_row (i, d) ∈ objects_filter
              (fun _ d' => String.eqb (DocumentationLink.version d')
                                      (DocumentationLink.version d)) t) as Ho.
    { apply elem_of_objects_filter. exists (i, d).
      split; [done|]. split; [done|]. apply String.eqb_refl. }
    rewrite Hf in Ho. by apply elem_of_nil in Ho.
  - exists o, rest. cbn [is_nil]. split; [done|].
    assert (o ∈ o :: rest) as Ho by left. rewrite <- Hf in Ho.
    apply elem_of_objects_filter in Ho as (r & _ & -> & Hv).
    by apply String.eqb_eq in Hv.
Qed.

(** With no record of the version asked for, [get_docs] yields the
    displayed records, and the first of them carries the greatest
    displayed version. *)
Lemma get_docs_untracked v t i d :
  (forall r, r ∈ rows t -> DocumentationLink.version (snd r) <> v) ->
  (i, d) ∈ rows t ->
  DocumentationLink.displayed d = true ->
  (forall r, r ∈ rows t -> DocumentationLink.displayed (snd r) = true ->
     String.leb (DocumentationLink.version (snd r))
                (DocumentationLink.version d) = true) ->
  exists o rest,
    get_docs (Some v) t = o :: rest /\
    DocumentationLink.version (fields o) = DocumentationLink.version d.
Proof.
  intros Hnone Hin Hdisp Hmax. unfold get_docs.
  destruct (objects_filter (fun _ d' => String.eqb (DocumentationLink.version d') v) t)
    as [|o' rest'] eqn:Hf.
  2:{ exfalso. assert (o' ∈ o' :: rest') as Ho by left. rewrite <- Hf in Ho.
      apply elem_of_objects_filter in Ho as (r & Hr & _ & Hv).
      apply String.eqb_eq in Hv. by apply (Hnone r). }
  cbn [is_nil].
  destruct (order_by_version_desc _) as [|o rest] eqn:Hord.
  - exfalso. apply order_by_version_desc_nil in Hord.
    assert (obj_of_row (i, d) ∈ objects_filter
              (fun _ d' => DocumentationLink.displayed d') t) as Ho.
    { apply elem_of_objects_filter. by exists (i, d). }
    rewrite Hord in Ho. by apply elem_of_nil in Ho.
  - exists o, rest. split; [done|].
    apply order_by_version_desc_head in Hord as [Ho Htop].
    apply String.leb_antisym.
    + apply elem_of_objects_filter in Ho as (r & Hr & -> & Hd).
      by apply Hmax.
    + apply (Htop (obj_of_row (i, d))).
      apply elem_of_objects_filter. by exists (i, d).
Qed.

(** Asked for a version the table does not track, the three fragment
    getters do not fail: they behave exactly as if asked for the greatest
    displayed version in string order, whether it is a release or not. *)
Theorem fragment_getters_fall_back_to_greatest_displayed {W}
    (cfg : DocConfig) (R : Remote W) (v : string) (i : nat) (d : Doc)
    (s : Site W) :
  (forall r, r ∈ rows (docs s) -> DocumentationLink.version (snd r) <> v) ->
  (i, d) ∈ rows (docs s) ->
  DocumentationLink.displayed d = true ->
  (forall r, r ∈ rows (docs s) -> DocumentationLink.displayed (snd r) = true ->
     String.leb (DocumentationLink.version (snd r))
                (DocumentationLink.version d) = true) ->
  get_doc_examples R (Some v) s
  = get_doc_examples R (Some (DocumentationLink.version d)) s /\
  get_doc_examples_images R (Some v) s
  = get_doc_examples_images R (Some (DocumentationLink.version d)) s /\
  get_dipy_intro cfg R (Some v) s
  = get_dipy_intro cfg R (Some (DocumentationLink.version d)) s.
Proof.
  intros Hnone Hin Hdisp Hmax.
  destruct (get_docs_untracked v (docs s) i d Hnone Hin Hdisp Hmax)
    as (o & rest & Hfall & Hv).
  destruct (get_docs_tracked (docs s) i d Hin) as (o' & rest' & Hown & Hv').
  unfold get_doc_examples, get_doc_examples_images, get_dipy_intro.
  rewrite !(resolve_version_head _ _ _ _ _ _ Hfall).
  rewrite !(resolve_version_head _ _ _ _ _ _ Hown).
  by rewrite Hv, Hv'.
Qed.

Lemma fragment_getters_fall_back_to_greatest_displayed_witness :
  get_doc_examples (sample_remote "") (Some "0.9") (mkSite store_1_0_dev ∅ 0)
  = get_doc_examples (sample_remote "") (Some "dev") (mkSite store_1_0_dev ∅ 0) /\
  get_doc_examples_images (sample_remote "") (Some "0.9") (mkSite store_1_0_dev ∅ 0)
  = get_doc_examples_images (sample_remote "") (Some "dev")
      (mkSite store_1_0_dev ∅ 0) /\
  get_dipy_intro (sample_config true) (sample_remote "") (Some "0.9")
    (mkSite store_1_0_dev ∅ 0)
  = get_dipy_intro (sample_config true) (sample_remote "") (Some "dev")
      (mkSite store_1_0_dev ∅ 0).
Proof.
  apply (fragment_getters_fall_back_to_greatest_displayed
           (sample_config true) (sample_remote "") "0.9" 2 (refreshed_doc "dev")
           (mkSite store_1_0_dev ∅ 0)).
  - intros r Hr. simpl in Hr.
    apply elem_of_cons in Hr as [->|Hr]; [discriminate|].
    apply list_elem_of_singleton in Hr as ->. discriminate.
  - simpl. right. left.
  - reflexivity.
  - intros r Hr _. simpl in Hr.
    apply elem_of_cons in Hr as [->|Hr]; [reflexivity|].
    apply list_elem_of_singleton in Hr as ->. reflexivity.
Defined.

(** Without a version, the getters fetch the greatest release when there
    is one: a displayed record with [dev] in its version, in any letter
    case, is passed over even if its version is greater. *)
Theorem fragment_getters_default_to_greatest_release {W}
    (cfg : DocConfig) (R : Remote W) (i : nat) (d : Doc) (s : Site W) :
  (i, d) ∈ rows (docs s) ->
  is_release d = true ->
  (forall r, r ∈ rows (docs s) -> is_release (snd r) = true ->
     String.leb (DocumentationLink.version (snd r))
                (DocumentationLink.version d) = true) ->
  get_doc_examples R None s
  = get_doc_examples R (Some (DocumentationLink.version d)) s /\
  get_doc_examples_images R None s
  = get_doc_examples_images R (Some (DocumentationLink.version d)) s /\
  get_dipy_intro cfg R None s
  = get_dipy_intro cfg R (Some (DocumentationLink.version d)) s.
Proof.
  intros Hin Hrel Hmax.
  destruct (get_docs_tracked (docs s) i d Hin) as (o' & rest' & Hown & Hv').
  assert (exists o rest,
             get_docs None (docs s) = o :: rest /\
             DocumentationLink.version (fields o) = DocumentationLink.version d)
    as (o & rest & Hdef & Hv).
  { unfold get_docs.
    destruct (order_by_version_desc _) as [|o rest] eqn:Hord.
    - exfalso. apply order_by_version_desc_nil in Hord.
      assert (obj_of_row (i, d) ∈ objects_filter
                (fun _ d' => DocumentationLink.displayed d'
                             && negb (sql_contains "dev" (DocumentationLink.version d')))
                (docs s)) as Ho.
      { apply elem_of_objects_filter. by exists (i, d). }
      rewrite Hord in Ho. by apply elem_of_nil in Ho.
    - exists o, rest. cbn [is_nil]. split; [done|].
      apply order_by_version_desc_head in Hord as [Ho Htop].
      apply String.leb_antisym.
      + apply elem_of_objects_filter in Ho as (r & Hr & -> & Hd).
        by apply Hmax.
      + apply (Htop (obj_of_row (i, d))).
        apply elem_of_objects_filter. by exists (i, d). }
  unfold get_doc_examples, get_doc_examples_images, get_dipy_intro.
  rewrite !(resolve_version_head _ _ _ _ _ _ Hdef).
  rewrite !(resolve_version_head _ _ _ _ _ _ Hown).
  by rewrite Hv, Hv'.
Qed.

Lemma fragment_getters_default_to_greatest_release_witness :
  get_doc_examples (sample_remote "") None (mkSite store_1_0_DEV ∅ 0)
  = get_doc_examples (sample_remote "") (Some "1.0") (mkSite store_1_0_DEV ∅ 0) /\
  get_doc_examples_images (sample_remote "") None (mkSite store_1_0_DEV ∅ 0)
  = get_doc_examples_images (sample_remote "") (Some "1.0")
      (mkSite store_1_0_DEV ∅ 0) /\
  get_dipy_intro (sample_config true) (sample_remote "") None
    (mkSite store_1_0_DEV ∅ 0)
  = get_dipy_intro (sample_config true) (sample_remote "") (Some "1.0")
      (mkSite store_1_0_DEV ∅ 0).
Proof.
  apply (fragment_getters_default_to_greatest_release
           (sample_config true) (sample_remote "") 1 (refreshed_doc "1.0")
           (mkSite store_1_0_DEV ∅ 0)).
  - simpl. left.
  - reflexivity.
  - intros r Hr. simpl in Hr.
    apply elem_of_cons in Hr as [->|Hr]; [reflexivity|].
    apply list_elem_of_singleton in Hr as ->. discriminate.
Defined.

(** A table that is not empty but has no displayed record makes the three
    getters raise [IndexError], before any outbound call, when they are
    asked for no version or for one the table does not track. *)
Theorem fragment_getters_raise_without_displayed {W}
    (cfg : DocConfig) (R : Remote W) (version : option string) (s : Site W) :
  rows (docs s) <> [] ->
  (forall r, r ∈ rows (docs s) -> DocumentationLink.displayed (snd r) = false) ->
  (forall r, r ∈ rows (docs s) -> version <> Some (DocumentationLink.version (snd r))) ->
  get_doc_examples R version s = (Raise IndexError, s) /\
  get_doc_examples_images R version s = (Raise IndexError, s) /\
  get_dipy_intro cfg R version s = (Raise IndexError, s).
Proof.
  intros Hrows Hhidden Huntracked.
  assert (forall p : nat -> Doc -> bool,
             (forall r, r ∈ rows (docs s) -> p (fst r) (snd r) = false) ->
             objects_filter p (docs s) = []) as Hempty.
  { intros p Hp. destruct (objects_filter p (docs s)) as [|o l] eqn:Hf; [done|].
    assert (o ∈ o :: l) as Ho by left. rewrite <- Hf in Ho.
    apply elem_of_objects_filter in Ho as (r & Hr & _ & Hpr).
    rewrite (Hp r Hr) in Hpr. discriminate. }
  assert (get_docs version (docs s) = []) as Hdocs.
  { unfold get_docs.
    rewrite (Hempty (fun _ d => DocumentationLink.displayed d)); [|done].
    destruct version as [v|].
    - rewrite Hempty; [done|]. intros r Hr.
      apply String.eqb_neq. intros Hv. apply (Huntracked r Hr). by rewrite Hv.
    - rewrite Hempty; [done|]. intros r Hr. cbn beta.
      by rewrite (Hhidden r Hr). }
  unfold get_doc_examples, get_doc_examples_images, get_dipy_intro.
  by rewrite !(resolve_version_no_docs _ _ _ _ Hrows Hdocs).
Qed.

Lemma fragment_getters_raise_without_displayed_witness :
  get_doc_examples (sample_remote "") None (mkSite hidden_store ∅ 0)
  = (Raise IndexError, mkSite hidden_store ∅ 0) /\
  get_doc_examples_images (sample_remote "") None (mkSite hidden_store ∅ 0)
  = (Raise IndexError, mkSite hidden_store ∅ 0) /\
  get_dipy_intro (sample_config true) (sample_remote "") None
    (mkSite hidden_store ∅ 0)
  = (Raise IndexError, mkSite hidden_store ∅ 0).
Proof.
  apply (fragment_getters_raise_without_displayed
           (sample_config true) (sample_remote "") None (mkSite hidden_store ∅ 0)).
  - discriminate.
  - intros r Hr. simpl in Hr. apply list_elem_of_singleton in Hr as ->. reflexivity.
  - intros r Hr. discriminate.
Defined.

(** ** Images of the announcements *)

Lemma base_url_has_scheme cfg rest :
  str_in "https:/" (lower (base_url cfg +:+ rest)) = true.
Proof. reflexivity. Qed.

Lemma rewrite_announcement_image_absolute cfg version link link' :
  rewrite_announcement_image (base_url cfg) version link = Return link' ->
  has_absolute_src link' /\
  rewrite_announcement_image (base_url cfg) version link' = Return link'.
Proof.
  unfold rewrite_announcement_image, has_absolute_src, tag_get.
  destruct (attrs link !! "src") as [l|] eqn:Hsrc; [|done].
  destruct (str_in "http:/" (lower l) || str_in "https:/" (lower l)) eqn:Habs;
    intros [= <-].
  - rewrite Hsrc, Habs. split; [|done]. by exists l.
  - unfold tag_set. cbn [attrs]. rewrite lookup_insert_eq.
    rewrite base_url_has_scheme, orb_true_r. split; [|done].
    eexists. split; [done|].
    by rewrite base_url_has_scheme, orb_true_r.
Qed.

(** After the loop over the images of the announcements, every image has
    a [src] that names a scheme, and the loop has nothing left to do:
    running it again on its own output changes no image. *)
Theorem announcement_images_become_absolute
    (cfg : DocConfig) (version : string) (imgs imgs' : list Tag) :
  for_each_tag imgs (rewrite_announcement_image (base_url cfg) version)
  = Return imgs' ->
  Forall has_absolute_src imgs' /\
  for_each_tag imgs' (rewrite_announcement_image (base_url cfg) version)
  = Return imgs'.
Proof.
  revert imgs'. induction imgs as [|img imgs IH]; intros imgs' Hloop.
  - simpl in Hloop. by simplify_eq.
  - cbn [for_each_tag] in Hloop.
    destruct (rewrite_announcement_image (base_url cfg) version img)
      as [img'|] eqn:Himg; [|done].
    cbn [rbind] in Hloop.
    destruct (for_each_tag imgs _) as [rest|] eqn:Hrest; [|done].
    cbn [rbind] in Hloop. simplify_eq.
    destruct (IH rest eq_refl) as [Habs Hagain].
    apply rewrite_announcement_image_absolute in Himg as [Himg Hfix].
    split; [by constructor|].
    cbn [for_each_tag]. by rewrite Hfix, Hagain.
Qed.

Lemma announcement_images_become_absolute_witness :
  Forall has_absolute_src
    [mkTag "img" {[ "src" := "HTTPS://dipy.org/logo.png" ]};
     mkTag "img" {[ "src" :=
       "https://raw.githubusercontent.com/dipy/dipy_web/gh-pages/1.0/_static/a.png" ]}]
  /\
  for_each_tag
    [mkTag "img" {[ "src" := "HTTPS://dipy.org/logo.png" ]};
     mkTag "img" {[ "src" :=
       "https://raw.githubusercontent.com/dipy/dipy_web/gh-pages/1.0/_static/a.png" ]}]
    (rewrite_announcement_image (base_url (sample_config true)) "1.0")
  = Return
      [mkTag "img" {[ "src" := "HTTPS://dipy.org/logo.png" ]};
       mkTag "img" {[ "src" :=
         "https://raw.githubusercontent.com/dipy/dipy_web/gh-pages/1.0/_static/a.png" ]}].
Proof.
  apply (announcement_images_become_absolute (sample_config true) "1.0"
           [mkTag "img" {[ "src" := "HTTPS://dipy.org/logo.png" ]};
            mkTag "img" {[ "src" := "_static/a.png" ]}]).
  vm_compute. reflexivity.
Defined.

(** ** The getters only read *)

Lemma only_outbound_ret {W A} (a : A) : only_outbound (W:=W) (ret a).
Proof. intros s r s' H. unfold ret in H. by simplify_eq. Qed.

Lemma only_outbound_raise {W A} e : only_outbound (W:=W) (A:=A) (raise e).
Proof. intros s r s' H. unfold raise in H. by simplify_eq. Qed.

Lemma only_outbound_lift {W A} (x : result A) : only_outbound (W:=W) (lift_result x).
Proof. intros s r s' H. unfold lift_result in H. by simplify_eq. Qed.

Lemma only_outbound_gets {W A} (f : Site W -> A) : only_outbound (gets f).
Proof. intros s r s' H. unfold gets in H. by simplify_eq. Qed.

Lemma only_outbound_call {W A} (call : W -> result A * W) :
  only_outbound (outbound call).
Proof.
  intros s r s' H. unfold outbound in H.
  destruct (call (world s)). by simplify_eq.
Qed.

Lemma only_outbound_bind {W A B} (m : SiteM W A) (k : A -> SiteM W B) :
  only_outbound m -> (forall a, only_outbound (k a)) -> only_outbound (bind m k).
Proof.
  intros Hm Hk s r s' H. unfold bind in H.
  destruct (m s) as [[a|e] s1] eqn:Hms.
  - destruct (Hk a _ _ _ H) as [-> ->]. by apply (Hm _ _ _ Hms).
  - simplify_eq. by apply (Hm _ _ _ Hms).
Qed.

Lemma only_outbound_resolve {W} version if_empty (k : string -> SiteM W json) :
  (forall v, only_outbound (k v)) ->
  only_outbound (resolve_version version if_empty k).
Proof.
  intros Hk. unfold resolve_version.
  apply only_outbound_bind; [apply only_outbound_gets|]. intros all.
  destruct (is_nil all); [apply only_outbound_ret|].
  apply only_outbound_bind; [apply only_outbound_gets|]. intros doc.
  apply only_outbound_bind; [apply only_outbound_lift|]. intros doc0. apply Hk.
Qed.

(** The three fragment getters write nothing: whatever they return or
    raise, the documentation table and the environment are as before. *)
Theorem fragment_getters_write_nothing {W} (cfg : DocConfig) (R : Remote W)
    (version : option string) :
  only_outbound (get_doc_examples R version) /\
  only_outbound (get_doc_examples_images R version) /\
  only_outbound (get_dipy_intro cfg R version).
Proof.
  split; [|split]; apply only_outbound_resolve; intros v;
    try apply only_outbound_call.
  cbv zeta.
  apply only_outbound_bind; [apply only_outbound_call|]. intros response.
  destruct (status_code response =? 404); [|apply only_outbound_lift].
  apply only_outbound_bind; [apply only_outbound_call|]. intros response'.
  destruct (status_code response' =? 404);
    [apply only_outbound_ret|apply only_outbound_lift].
Qed.

(** ** The GitHub permission check *)

Lemma scan_repos_complete repository_name repos :
  Forall repo_complete repos ->
  scan_repos repository_name repos
  = Return (existsb (repo_grants repository_name) repos).
Proof.
  induction 1 as [|repo repos Hrepo _ IH]; [done|].
  destruct Hrepo as ([n Hn] & [a Ha] & [p Hp] & [q Hq]).
  cbn [scan_repos existsb]. rewrite IH.
  generalize (existsb (repo_grants repository_name) repos). intros found.
  unfold repo_grants.
  rewrite Hn, Ha, Hp, Hq.
  unfold repo_name in Hn. unfold repo_permission in Ha, Hp, Hq.
  destruct (json_getitem repo "name") as [n'|]; [|done].
  destruct (json_getitem repo "permissions") as [perms|]; [|done].
  cbn [rbind].
  destruct (json_getitem perms "admin") as [a'|]; [|done].
  destruct (json_getitem perms "push") as [p'|]; [|done].
  destruct (json_getitem perms "pull") as [q'|]; [|done].
  simplify_eq. cbn [rbind].
  destruct (json_is_str n repository_name); [|done].
  destruct (json_truthy a); [|done].
  destruct (json_truthy p); [|done].
  by destruct (json_truthy q).
Qed.

(** With a token, and a listing in which every repository carries a name
    and the three permissions, the check answers true exactly when some
    repository of the listing bears the name asked for and grants admin,
    push and pull together; a repository of that name that lacks one of
    them does not end the search. *)
Theorem has_commit_permission_needs_all_three {W} (R : Remote W)
    (access_token repository_name : string) (s : Site W)
    (response : Response) (w' : W) (repos : list json) :
  access_token <> "" ->
  requests_get R "https://api.github.com/orgs/dipy/repos"
    [("Authorization", "token " +:+ access_token)] (world s)
  = (Return response, w') ->
  json_ response = Return (JList repos) ->
  Forall repo_complete repos ->
  has_commit_permission R access_token repository_name s
  = (Return (existsb (repo_grants repository_name) repos),
     mkSite (docs s) (environ s) w').
Proof.
  intros Htoken Hget Hjson Hrepos. unfold has_commit_permission.
  apply String.eqb_neq in Htoken. rewrite Htoken. cbv zeta.
  unfold bind, outbound, lift_result. rewrite Hget, Hjson.
  cbn [json_iter]. by rewrite (scan_repos_complete _ _ Hrepos).
Qed.

Lemma has_commit_permission_needs_all_three_witness :
  has_commit_permission (remote_answering (JList sample_repos))
    "token" "dipy_web" (quiet_site (mkTable [] 1))
  = (Return (existsb (repo_grants "dipy_web") sample_repos),
     mkSite (mkTable [] 1) ∅ ["https://api.github.com/orgs/dipy/repos"]).
Proof.
  apply (has_commit_permission_needs_all_three
           (remote_answering (JList sample_repos))
           "token" "dipy_web" (quiet_site (mkTable [] 1))
           (mkResponse 200 (Return (JList sample_repos)))
           ["https://api.github.com/orgs/dipy/repos"] sample_repos).
  - discriminate.
  - reflexivity.
  - reflexivity.
  - repeat constructor; vm_compute; eauto.
Defined.

(** ** YouTube *)

Lemma youtube_videos_filter items :
  Forall (fun x => is_Some (item_kind x)) items ->
  youtube_videos items = Return (List.filter is_video items).
Proof.
  induction 1 as [|x items [kind Hkind] _ IH]; [done|].
  cbn [youtube_videos List.filter]. unfold is_video. rewrite Hkind.
  unfold item_kind in Hkind.
  destruct (json_getitem x "id") as [id_|]; [|done]. cbn [rbind].
  destruct (json_getitem id_ "kind") as [kind'|]; [|done].
  simplify_eq. cbn [rbind]. rewrite IH. cbn [rbind].
  by destruct (json_is_str kind "youtube#video").
Qed.

(** With an API key, and an answer that is an object without an [error]
    key whose [items] each carry [id.kind], the function returns the items
    of kind [youtube#video], all of them and in the order of the answer,
    whatever [count] is: the request always asks for 25 results. *)
Theorem get_youtube_videos_keeps_videos {W} (settings : Settings) (R : Remote W)
    (channel_id : string) (count : nat) (s : Site W)
    (response : Response) (w' : W) (d : list (string * json)) (items : list json) :
  str_truthy (GOOGLE_API_KEY settings) = true ->
  requests_get R
    ("https://www.googleapis.com/youtube/v3/search?order=date&part=snippet&channelId="
     +:+ channel_id +:+ "&maxResults=25&key=" +:+ GOOGLE_API_KEY settings)
    [] (world s)
  = (Return response, w') ->
  json_ response = Return (JDict d) ->
  "error" ∉ map fst d ->
  assoc "items" d = Some (JList items) ->
  Forall (fun x => is_Some (item_kind x)) items ->
  get_youtube_videos settings R channel_id count s
  = (Return (JList (List.filter is_video items)),
     mkSite (docs s) (environ s) w').
Proof.
  intros Hkey Hget Hjson Herror Hitems Hkinds. unfold get_youtube_videos.
  rewrite Hkey. cbn [negb]. cbv zeta.
  unfold bind, try_except, outbound, lift_result, ret. rewrite Hget, Hjson.
  rewrite (bool_decide_eq_false_2 _ Herror).
  unfold json_getitem. rewrite Hitems. cbn [json_iter].
  by rewrite (youtube_videos_filter _ Hkinds).
Qed.

Lemma get_youtube_videos_keeps_videos_witness :
  get_youtube_videos sample_settings
    (remote_answering (JDict sample_search_answer))
    "channel" 3 (quiet_site (mkTable [] 1))
  = (Return (JList (List.filter is_video sample_search_items)),
     mkSite (mkTable [] 1) ∅
       ["https://www.googleapis.com/youtube/v3/search?order=date&part=snippet&channelId=channel&maxResults=25&key=api-key"]).
Proof.
  apply (get_youtube_videos_keeps_videos sample_settings
           (remote_answering (JDict sample_search_answer))
           "channel" 3 (quiet_site (mkTable [] 1))
           (mkResponse 200 (Return (JDict sample_search_answer)))
           ["https://www.googleapis.com/youtube/v3/search?order=date&part=snippet&channelId=channel&maxResults=25&key=api-key"]
           sample_search_answer sample_search_items).
  - reflexivity.
  - reflexivity.
  - reflexivity.
  - apply (bool_decide_unpack _). vm_compute. exact I.
  - reflexivity.
  - repeat constructor; vm_compute; eauto.
Defined.

(** ** The Twitter token *)

Lemma get_twitter_feed_cached {W} (settings : Settings) (R : Remote W)
    (token screen_name : string) (count : nat) (s : Site W) :
  environ s !! "TWITER_TOKEN" = Some token ->
  get_twitter_feed settings R screen_name count s
  = fetch_timeline R token screen_name count s.
Proof.
  intros Hcached. unfold get_twitter_feed, fetch_timeline, timeline_url.
  unfold bind at 1. unfold try_except, bind at 1, gets, lift_result, getitem.
  by rewrite Hcached.
Qed.

Lemma fetch_timeline_keeps_environ {W} (R : Remote W) token screen_name count
    (s : Site W) r s' :
  fetch_timeline R token screen_name count s = (r, s') ->
  environ s' = environ s /\ docs s' = docs s.
Proof.
  unfold fetch_timeline, get_or_connection_error, bind, try_except, outbound,
    ret, raise, lift_result.
  destruct (requests_get R _ _ (world s)) as [[response|e] w']; cbn.
  - by intros [= <- <-].
  - destruct e; by intros [= <- <-].
Qed.

Lemma get_twitter_feed_uncached {W} (settings : Settings) (R : Remote W)
    (token screen_name : string) (count : nat) (s s0 : Site W) :
  environ s !! "TWITER_TOKEN" = None ->
  get_twitter_bearer_token settings R s = (Return token, s0) ->
  get_twitter_feed settings R screen_name count s
  = fetch_timeline R token screen_name count s0.
Proof.
  intros Hnone Htoken. unfold get_twitter_feed, fetch_timeline, timeline_url.
  unfold bind at 1. unfold try_except, bind at 1, gets, lift_result, getitem.
  by rewrite Hnone, Htoken.
Qed.

(** The token is fetched once: when the environment holds no token and the
    token endpoint grants one, a feed request exchanges the credentials,
    stores the token under [TWITER_TOKEN] and asks for the timeline with
    it; every later feed request, from the state the first one left, asks
    for its timeline with the stored token and exchanges nothing. *)
Theorem twitter_token_is_exchanged_once {W} (settings : Settings) (R : Remote W)
    (screen_name : string) (count : nat) (s : Site W)
    (response : Response) (w1 : W) (answer : json) (token : string) :
  environ s !! "TWITER_TOKEN" = None ->
  token_request settings R (world s) = (Return response, w1) ->
  json_ response = Return answer ->
  json_contains "access_token" answer = Return true ->
  json_getitem answer "access_token" = Return (JStr token) ->
  get_twitter_feed settings R screen_name count s
  = fetch_timeline R token screen_name count
      (mkSite (docs s) (<["TWITER_TOKEN" := token]> (environ s)) w1) /\
  forall r s1,
    get_twitter_feed settings R screen_name count s = (r, s1) ->
    environ s1 !! "TWITER_TOKEN" = Some token /\
    forall screen_name' count',
      get_twitter_feed settings R screen_name' count' s1
      = fetch_timeline R token screen_name' count' s1.
Proof.
  intros Hnone Hpost Hjson Hhas Hget.
  assert (get_twitter_bearer_token settings R s
          = (Return token,
             mkSite (docs s) (<["TWITER_TOKEN" := token]> (environ s)) w1))
    as Htoken.
  { unfold get_twitter_bearer_token. cbv zeta. fold (token_request settings R).
    unfold bind, try_except, outbound, lift_result, setenv, modify, ret.
    by rewrite Hpost, Hjson, Hhas, Hget. }
  rewrite (get_twitter_feed_uncached _ _ _ _ _ _ _ Hnone Htoken).
  split; [done|]. intros r s1 Hfeed.
  apply fetch_timeline_keeps_environ in Hfeed as [Henv _]. cbn [environ] in Henv.
  assert (environ s1 !! "TWITER_TOKEN" = Some token) as Hcached.
  { rewrite Henv. apply lookup_insert_eq. }
  split; [done|]. intros. by apply get_twitter_feed_cached.
Qed.

Lemma twitter_token_is_exchanged_once_witness :
  get_twitter_feed sample_settings (remote_granting "t0k3n") "dipymri" 5
    (quiet_site (mkTable [] 1))
  = fetch_timeline (remote_granting "t0k3n") "t0k3n" "dipymri" 5
      (mkSite (mkTable [] 1) (<["TWITER_TOKEN" := "t0k3n"]> ∅)
              ["https://api.twitter.com/oauth2/token"]) /\
  forall r s1,
    get_twitter_feed sample_settings (remote_granting "t0k3n") "dipymri" 5
      (quiet_site (mkTable [] 1)) = (r, s1) ->
    environ s1 !! "TWITER_TOKEN" = Some "t0k3n" /\
    forall screen_name' count',
      get_twitter_feed sample_settings (remote_granting "t0k3n")
        screen_name' count' s1
      = fetch_timeline (remote_granting "t0k3n") "t0k3n" screen_name' count' s1.
Proof.
  apply (twitter_token_is_exchanged_once sample_settings (remote_granting "t0k3n")
           "dipymri" 5 (quiet_site (mkTable [] 1))
           (mkResponse 200
              (Return (JDict [("token_type", JStr "bearer");
                              ("access_token", JStr "t0k3n")])))
           ["https://api.twitter.com/oauth2/token"]
           (JDict [("token_type", JStr "bearer"); ("access_token", JStr "t0k3n")])
           "t0k3n"); reflexivity.
Defined.

(** A failed exchange is remembered as if it had succeeded: when the
    environment holds no token and the token endpoint cannot be reached,
    the feed request stores the empty string under [TWITER_TOKEN] and asks
    for the timeline with it; every later feed request asks with the empty
    token again and never retries the exchange. *)
Theorem twitter_failed_exchange_is_cached {W} (settings : Settings) (R : Remote W)
    (screen_name : string) (count : nat) (s : Site W) (w1 : W) :
  environ s !! "TWITER_TOKEN" = None ->
  token_request settings R (world s) = (Raise ConnectionError, w1) ->
  get_twitter_feed settings R screen_name count s
  = fetch_timeline R "" screen_name count
      (mkSite (docs s) (<["TWITER_TOKEN" := ""]> (environ s)) w1) /\
  forall r s1,
    get_twitter_feed settings R screen_name count s = (r, s1) ->
    environ s1 !! "TWITER_TOKEN" = Some "" /\
    forall screen_name' count',
      get_twitter_feed settings R screen_name' count' s1
      = fetch_timeline R "" screen_name' count' s1.
Proof.
  intros Hnone Hpost.
  assert (get_twitter_bearer_token settings R s
          = (Return "",
             mkSite (docs s) (<["TWITER_TOKEN" := ""]> (environ s)) w1))
    as Htoken.
  { unfold get_twitter_bearer_token. cbv zeta. fold (token_request settings R).
    unfold bind, try_except, outbound, lift_result, setenv, modify, ret.
    by rewrite Hpost. }
  rewrite (get_twitter_feed_uncached _ _ _ _ _ _ _ Hnone Htoken).
  split; [done|]. intros r s1 Hfeed.
  apply fetch_timeline_keeps_environ in Hfeed as [Henv _]. cbn [environ] in Henv.
  assert (environ s1 !! "TWITER_TOKEN" = Some "") as Hcached.
  { rewrite Henv. apply lookup_insert_eq. }
  split; [done|]. intros. by apply get_twitter_feed_cached.
Qed.

Lemma twitter_failed_exchange_is_cached_witness :
  get_twitter_feed sample_settings (remote_answering (JList [])) "dipymri" 5
    (quiet_site (mkTable [] 1))
  = fetch_timeline (remote_answering (JList [])) "" "dipymri" 5
      (mkSite (mkTable [] 1) (<["TWITER_TOKEN" := ""]> ∅)
              ["https://api.twitter.com/oauth2/token"]) /\
  forall r s1,
    get_twitter_feed sample_settings (remote_answering (JList [])) "dipymri" 5
      (quiet_site (mkTable [] 1)) = (r, s1) ->
    environ s1 !! "TWITER_TOKEN" = Some "" /\
    forall screen_name' count',
      get_twitter_feed sample_settings (remote_answering (JList []))
        screen_name' count' s1
      = fetch_timeline (remote_answering (JList [])) "" screen_name' count' s1.
Proof.
  apply (twitter_failed_exchange_is_cached sample_settings
           (remote_answering (JList [])) "dipymri" 5 (quiet_site (mkTable [] 1))
           ["https://api.twitter.com/oauth2/token"]); reflexivity.
Defined.

(** ** Splitting and joining *)

Lemma str_split_cons c s : exists w ws, str_split c s = w :: ws.
Proof.
  induction s as [|a s (w & ws & IH)]; simpl; [by eexists _, _|].
  destruct (Ascii.eqb a c); [by eexists _, _|]. rewrite IH. by eexists _, _.
Qed.

Lemma str_split_app c d l :
  str_split c (d +:+ String c l) = str_split c d ++ str_split c l.
Proof.
  induction d as [|a d IH]; simpl.
  - by rewrite Ascii.eqb_refl.
  - destruct (Ascii.eqb a c); [by rewrite IH|]. rewrite IH.
    by destruct (str_split_cons c d) as (w & ws & ->).
Qed.

Lemma str_split_none c l :
  str_in (String c EmptyString) l = false -> str_split c l = [l].
Proof.
  induction l as [|a l IH]; simpl; [done|]. intros Hin.
  apply orb_false_iff in Hin as [Hhead Hin].
  destruct (Ascii.eqb_spec a c) as [->|Hne].
  - exfalso. revert Hhead. destruct (ascii_dec c c); [|done].
    by destruct l.
  - by rewrite (IH Hin).
Qed.

Lemma concat_str_split c s :
  String.concat (String c EmptyString) (str_split c s) = s.
Proof.
  induction s as [|a s IH]; simpl; [done|].
  destruct (str_split_cons c s) as (w & ws & Hs). rewrite Hs in *.
  destruct (Ascii.eqb_spec a c) as [->|Hne].
  - change (String.concat (String c "") ("" :: w :: ws))
      with ("" +:+ String c "" +:+ String.concat (String c "") (w :: ws)).
    by rewrite IH.
  - destruct ws as [|w' ws].
    + simpl in *. by rewrite IH.
    + change (String.concat (String c "") (String a w :: w' :: ws))
        with (String a (w +:+ String c "" +:+ String.concat (String c "") (w' :: ws))).
      change (String.concat (String c "") (w :: w' :: ws))
        with (w +:+ String c "" +:+ String.concat (String c "") (w' :: ws)) in IH.
      by rewrite IH.
Qed.

(** The page fetched for an example is named after the directory of its
    link: from an [href] made of [../], a path, a slash and a last segment
    without a slash, [rel_url] keeps the path. *)
Theorem rel_url_drops_last_segment (dir last : string) :
  str_in "/" last = false ->
  rel_url ("../" +:+ dir +:+ "/" +:+ last) = dir.
Proof.
  intros Hlast. unfold rel_url.
  change (str_from 3 ("../" +:+ dir +:+ "/" +:+ last))
    with (dir +:+ String "/" last).
  rewrite str_split_app, (str_split_none _ _ Hlast), removelast_last.
  apply concat_str_split.
Qed.

Lemma rel_url_drops_last_segment_witness :
  rel_url ("../" +:+ "examples_built/quick_start" +:+ "/" +:+ "#quick-start")
  = "examples_built/quick_start".
Proof.
  apply (rel_url_drops_last_segment "examples_built/quick_start" "#quick-start").
  reflexivity.
Defined.

(** ** Loops that append *)

Lemma for_each_acc_appends {S A B} (Q : A -> list B -> Prop)
    (body : A -> list B -> M S (list B)) :
  (forall x acc s acc' s',
      body x acc s = (Return acc', s') -> exists new, acc' = acc ++ new /\ Q x new) ->
  forall l acc s out s',
    for_each_acc l acc body s = (Return out, s') ->
    exists news, out = acc ++ concat news /\ Forall2 Q l news.
Proof.
  intros Hbody l. induction l as [|x l IH]; intros acc s out s' Hrun.
  - unfold for_each_acc, ret in Hrun. simplify_eq.
    exists []. cbn [concat]. rewrite app_nil_r. by split; [|constructor].
  - cbn [for_each_acc] in Hrun. unfold bind in Hrun.
    destruct (body x acc s) as [[acc1|e] s1] eqn:Hx; [|done].
    apply Hbody in Hx as (new & -> & Hnew).
    apply IH in Hrun as (news & -> & Hnews).
    exists (new :: news). cbn [concat]. rewrite app_assoc.
    by split; [|constructor].
Qed.

(** ** The examples of a list of links *)

Lemma example_hrefs_cons li rest :
  example_hrefs (li :: rest) = example_hrefs [li] ++ example_hrefs rest.
Proof.
  cbn [example_hrefs]. destruct (find_a li) as [link|]; [|done].
  destruct (tag_get link "href") as [href|]; [|done].
  by destruct (startswith href "../examples_built").
Qed.

(** The list of examples has one entry for each link of the index whose
    [href] starts with [../examples_built], in the order of the index, and
    the entry's [link] is [/documentation/<version>/<path>/] followed by
    that [href]; an [li] without an anchor, or with an anchor that leads
    elsewhere, adds nothing. *)
Theorem examples_list_follows_example_links {W} (R : Remote W) (P : Soup)
    (base_url version path : string) (li_tags : list Li)
    (w w' : W) (examples_list : list json) :
  get_examples_list_from_li_tags R P base_url version path li_tags w
  = (Return examples_list, w') ->
  map (fun example => json_getitem example "link") examples_list
  = map (fun href => Return (JStr ("/documentation/" +:+ version +:+ "/" +:+ path
                                   +:+ "/" +:+ href)))
        (example_hrefs li_tags).
Proof.
  unfold get_examples_list_from_li_tags. cbv zeta. intros Hrun.
  apply (for_each_acc_appends
           (fun li new =>
              map (fun example => json_getitem example "link") new
              = map (fun href => Return (JStr ("/documentation/" +:+ version +:+ "/"
                                               +:+ path +:+ "/" +:+ href)))
                    (example_hrefs [li]))) in Hrun.
  - destruct Hrun as (news & -> & Hnews). cbn [app].
    clear w w'. induction Hnews as [|li new lis news Hnew _ IH]; [done|].
    rewrite example_hrefs_cons. cbn [concat]. by rewrite !map_app, Hnew, IH.
  - clear. intros li acc s acc' s'. cbn [example_hrefs].
    destruct (find_a li) as [link|].
    2:{ unfold ret. intros [= <- <-]. exists []. by rewrite app_nil_r. }
    unfold bind at 1. unfold lift_result at 1.
    destruct (tag_get link "href") as [href|]; [|done]. cbn [not_None].
    destruct (startswith href "../examples_built").
    2:{ unfold ret. intros [= <- <-]. exists []. by rewrite app_nil_r. }
    unfold bind, lift_result, ret.
    destruct (requests_get R _ _ s) as [[response|e] s1]; [|done].
    destruct (json_ response) as [example_json|e]; [|done].
    destruct (json_getitem example_json "title") as [title|e]; [|done].
    destruct (json_getitem example_json "body") as [body|e]; [|done].
    destruct (json_str body) as [body'|e]; [|done].
    destruct (not_None (p_text _)) as [description|e]; [|done].
    intros [= <- <-]. by eexists [_].
Qed.

Lemma examples_list_follows_example_links_witness :
  map (fun example => json_getitem example "link")
      [JDict [("title", JStr "Quick start");
              ("link", JStr "/documentation/1.0/examples_index/../examples_built/quick_start/#quick-start");
              ("description", JStr "Quick start.");
              ("images", JList [JStr "<img>"])]]
  = map (fun href => Return (JStr ("/documentation/" +:+ "1.0" +:+ "/"
                                   +:+ "examples_index" +:+ "/" +:+ href)))
        (example_hrefs index_lis).
Proof.
  apply (examples_list_follows_example_links docs_remote sample_soup
           "https://raw.githubusercontent.com/dipy/dipy_web/gh-pages/"
           "1.0" "examples_index" index_lis []
           ["https://raw.githubusercontent.com/dipy/dipy_web/gh-pages/1.0/examples_built/quick_start.fjson"]).
  vm_compute. reflexivity.
Defined.

(** ** Sections of the examples index *)

Lemma minor_section_dict_shape {W} (R : Remote W) (P : Soup)
    (base_url version path : string) (minor_section : MinorSection)
    (w w' : W) (entry : json) :
  minor_section_dict R P base_url version path minor_section w
  = (Return entry, w') ->
  exists examples,
    entry = JDict [("title", JStr (str_found R (minor_h3 minor_section)));
                   ("examples_list", JList examples);
                   ("valid", JBool (negb (is_nil examples)))].
Proof.
  unfold minor_section_dict. cbv zeta. unfold bind, ret.
  destruct (examples_of_ul _ _ _ _ _ _ w) as [[examples|e] w1]; [|done].
  intros [= <- <-]. exists examples. by destruct examples.
Qed.

(** How a section of the index is marked: the entry of a section without
    sub-sections lists the examples of the section and is valid exactly
    when there is at least one; the entry of a section with sub-sections
    lists no examples of its own, has one entry for each sub-section, each
    valid exactly when it has an example, and is itself valid whatever its
    sub-sections are. *)
Theorem major_section_valid_flag {W} (R : Remote W) (P : Soup)
    (base_url version path : string) (major_section : MajorSection)
    (w w' : W) (entry : json) :
  major_section_dict R P base_url version path major_section w
  = (Return entry, w') ->
  exists minors examples,
    entry = JDict [("title", JStr (str_found R (major_h2 major_section)));
                   ("minor_sections", JList minors);
                   ("examples_list", JList examples);
                   ("valid", JBool (negb (is_nil (minor_sections major_section))
                                    || negb (is_nil examples)))] /\
    length minors = length (minor_sections major_section) /\
    (minor_sections major_section <> [] -> examples = []) /\
    Forall (fun minor =>
              exists title minor_examples,
                minor = JDict [("title", JStr title);
                               ("examples_list", JList minor_examples);
                               ("valid", JBool (negb (is_nil minor_examples)))])
           minors.
Proof.
  unfold major_section_dict. cbv zeta.
  destruct (minor_sections major_section) as [|m ms] eqn:Hms.
  - cbn [length Nat.eqb]. unfold bind, ret.
    destruct (examples_of_ul _ _ _ _ _ _ w) as [[examples|e] w1]; [|done].
    intros [= <- <-]. exists [], examples. cbn [is_nil negb orb].
    split; [by destruct examples|]. by split; [|split].
  - cbn [length Nat.eqb]. unfold bind at 1.
    remember (m :: ms) as all eqn:Hall.
    destruct (for_each_acc all [] _ w) as [[minors|e] w1] eqn:Hloop; [|done].
    unfold ret. intros [= <- <-]. exists minors, [].
    split; [by rewrite Hall|].
    replace (S (length ms)) with (length all) by by rewrite Hall.
    apply (for_each_acc_appends
             (fun minor_section new =>
                exists entry examples,
                  new = [entry] /\
                  entry = JDict [("title",
                                  JStr (str_found R (minor_h3 minor_section)));
                                 ("examples_list", JList examples);
                                 ("valid", JBool (negb (is_nil examples)))]))
      in Hloop.
    + destruct Hloop as (news & -> & Hnews). cbn [app].
      split; [|split; [done|]].
      * clear - Hnews. induction Hnews as [|x new xs news (e & ex & -> & _) _ IH];
          [done|]. cbn [concat app length]. by rewrite IH.
      * clear - Hnews. induction Hnews as [|x new xs news (e & ex & -> & ->) _ IH];
          [done|]. cbn [concat app]. constructor; [|done]. by eexists _, _.
    + clear. intros minor_section acc s acc' s'. unfold bind, ret.
      destruct (minor_section_dict _ _ _ _ _ _ s) as [[entry|e] s1] eqn:Hm; [|done].
      intros [= <- <-]. apply minor_section_dict_shape in Hm as (examples & ->).
      eexists. split; [reflexivity|]. by eexists _, _.
Qed.

Lemma major_section_valid_flag_witness :
  exists minors examples,
    JDict [("title", JStr "None");
           ("minor_sections",
            JList [JDict [("title", JStr "<h3>"); ("examples_list", JList []);
                          ("valid", JBool false)]]);
           ("examples_list", JList []);
           ("valid", JBool true)]
    = JDict [("title", JStr (str_found docs_remote (major_h2 hollow_section)));
             ("minor_sections", JList minors);
             ("examples_list", JList examples);
             ("valid", JBool (negb (is_nil (minor_sections hollow_section))
                              || negb (is_nil examples)))] /\
    length minors = length (minor_sections hollow_section) /\
    (minor_sections hollow_section <> [] -> examples = []) /\
    Forall (fun minor =>
              exists title minor_examples,
                minor = JDict [("title", JStr title);
                               ("examples_list", JList minor_examples);
                               ("valid", JBool (negb (is_nil minor_examples)))])
           minors.
Proof.
  apply (major_section_valid_flag docs_remote sample_soup
           "https://raw.githubusercontent.com/dipy/dipy_web/gh-pages/"
           "1.0" "examples_index" hollow_section [] []).
  vm_compute. reflexivity.
Defined.

(** ** The gallery *)

Lemma str_split_head c s h rest :
  str_split c s = h :: rest -> str_in (String c EmptyString) h = false.
Proof.
  revert h rest. induction s as [|a s IH]; simpl; intros h rest Hs.
  - by simplify_eq.
  - destruct (Ascii.eqb_spec a c) as [->|Hne]; [by simplify_eq|].
    destruct (str_split_cons c s) as (w & ws & Hw). rewrite Hw in Hs.
    simplify_eq. simpl. rewrite (IH _ _ Hw).
    by destruct (ascii_dec c a) as [->|_].
Qed.

(** The links of the gallery carry no fragment: every entry's [link] is
    [/documentation/<version>/examples_index/] followed by a piece of text
    without [#] (the [href] up to its first [#]). *)
Theorem gallery_links_carry_no_fragment {W} (cfg : DocConfig) (R : Remote W)
    (P : Soup) (version : string) (w w' : W) (gallery : json) :
  scrape_doc_examples_images cfg R P version w = (Return gallery, w') ->
  exists examples_list,
    gallery = JList examples_list /\
    Forall (fun example =>
              exists link_href,
                json_getitem example "link"
                = Return (JStr ("/documentation/" +:+ version
                                +:+ "/examples_index/" +:+ link_href)) /\
                str_in "#" link_href = false)
           examples_list.
Proof.
  unfold scrape_doc_examples_images. cbv zeta. unfold bind at 1.
  destruct (get_fjson R _ _ _ w) as [[[[url response]|]|e] w1]; [| |done].
  2:{ unfold ret. intros [= <- <-]. by exists []. }
  unfold bind at 1. unfold lift_result at 1.
  destruct (json_ response) as [response_json|e]; [|done].
  unfold bind at 1. unfold lift_result at 1.
  destruct (json_getitem response_json "body") as [body|e]; [|done].
  unfold bind at 1. unfold lift_result at 1.
  destruct body as [| | |body| |]; try done.
  unfold bind at 1.
  destruct (for_each_acc _ _ _ w1) as [[examples_list|e] w2] eqn:Hloop; [|done].
  unfold ret. intros [= <- <-]. exists examples_list. split; [done|].
  apply (for_each_acc_appends
           (fun (link : Tag) new =>
              Forall (fun example =>
                        exists link_href,
                          json_getitem example "link"
                          = Return (JStr ("/documentation/" +:+ version
                                          +:+ "/examples_index/" +:+ link_href)) /\
                          str_in "#" link_href = false) new))
    in Hloop.
  - destruct Hloop as (news & -> & Hnews). cbn [app].
    clear - Hnews. induction Hnews as [|x new xs news Hnew _ IH]; [done|].
    cbn [concat]. by apply Forall_app.
  - clear. intros link acc s acc' s'.
    unfold bind at 1. unfold lift_result at 1.
    destruct (tag_get link "href") as [href|]; [|done]. cbn [not_None].
    destruct (startswith href "../examples_built").
    2:{ unfold ret. intros [= <- <-]. exists []. by rewrite app_nil_r. }
    unfold bind, lift_result, ret.
    destruct (requests_get R _ _ s) as [[response|e] s1]; [|done].
    destruct (json_ response) as [example_json|e]; [|done].
    destruct (json_getitem example_json "title") as [title|e]; [|done].
    destruct (json_getitem example_json "body") as [body|e]; [|done].
    destruct (json_str body) as [body'|e]; [|done].
    destruct (str_split "#" href) as [|link_href pieces] eqn:Hsplit; [done|].
    cbn [first_item].
    destruct (not_None (p_text _)) as [description|e]; [|done].
    intros [= <- <-]. eexists. split; [reflexivity|].
    constructor; [|done]. exists link_href. split; [done|].
    by apply (str_split_head _ _ _ _ Hsplit).
Qed.

Lemma gallery_links_carry_no_fragment_witness :
  exists examples_list,
    JList [JDict [("title", JStr "Quick start");
                  ("link", JStr "/documentation/1.0/examples_index/../examples_built/quick_start/");
                  ("description", JStr "Quick start.");
                  ("images", JList [JStr "<img>"])]]
    = JList examples_list /\
    Forall (fun example =>
              exists link_href,
                json_getitem example "link"
                = Return (JStr ("/documentation/" +:+ "1.0"
                                +:+ "/examples_index/" +:+ link_href)) /\
                str_in "#" link_href = false)
           examples_list.
Proof.
  apply (gallery_links_carry_no_fragment (sample_config true) docs_remote
           sample_soup "1.0" []
           ["https://raw.githubusercontent.com/dipy/dipy_web/gh-pages/1.0/examples_index.fjson";
            "https://raw.githubusercontent.com/dipy/dipy_web/gh-pages/1.0/examples_built/quick_start.fjson"]).
  vm_compute. reflexivity.
Defined.

(** ** Pages that are missing *)

Lemma get_fjson_missing {W} (R : Remote W) base_url version path (w : W) :
  (forall url headers w0, exists response w1,
      requests_get R url headers w0 = (Return response, w1) /\
      status_code response = 404) ->
  exists w', get_fjson R base_url version path w = (Return None, w').
Proof.
  intros Hmissing. unfold get_fjson. cbv zeta. unfold bind, ret.
  edestruct Hmissing as (r1 & w1 & -> & ->). cbn [Nat.eqb].
  edestruct Hmissing as (r2 & w2 & -> & ->). cbn [Nat.eqb].
  by eexists.
Qed.

Lemma get_docs_displayed version t i d :
  (i, d) ∈ rows t -> DocumentationLink.displayed d = true ->
  exists o rest, get_docs version t = o :: rest.
Proof.
  intros Hin Hdisp. unfold get_docs.
  assert (order_by_version_desc
            (objects_filter (fun _ d' => DocumentationLink.displayed d') t) <> [])
    as Hfall.
  { intros Hnil. apply order_by_version_desc_nil in Hnil.
    assert (obj_of_row (i, d) ∈ objects_filter
              (fun _ d' => DocumentationLink.displayed d') t) as Ho.
    { apply elem_of_objects_filter. by exists (i, d). }
    rewrite Hnil in Ho. by apply elem_of_nil in Ho. }
  cbv zeta.
  match goal with
  | |- context [ is_nil ?first ] => destruct first as [|o rest]
  end; cbn [is_nil]; [|by eexists _, _].
  destruct (order_by_version_desc _) as [|o rest]; [done|by eexists _, _].
Qed.

(** When every page asked for is missing (404), none of the four fetchers
    fails: on a table with a displayed record, the tutorials, the gallery,
    the introduction and the publications all come back as the empty
    list. *)
Theorem fetchers_return_empty_list_when_pages_are_missing {W}
    (cfg : DocConfig) (R : Remote W) (P : Soup) (version : option string)
    (count : nat) (s : Site W) (i : nat) (d : Doc) :
  (i, d) ∈ rows (docs s) ->
  DocumentationLink.displayed d = true ->
  (forall url headers w, exists response w',
      requests_get R url headers w = (Return response, w') /\
      status_code response = 404) ->
  (exists s', get_doc_examples (scraping cfg R P) version s
              = (Return (JList []), s')) /\
  (exists s', get_doc_examples_images (scraping cfg R P) version s
              = (Return (JList []), s')) /\
  (exists s', get_dipy_intro cfg R version s = (Return (JList []), s')) /\
  (exists s', get_dipy_publications cfg R P count s = (Return (JList []), s')).
Proof.
  intros Hin Hdisp Hmissing.
  destruct (get_docs_displayed version _ _ _ Hin Hdisp) as (o & rest & Hdocs).
  destruct (get_docs_displayed None _ _ _ Hin Hdisp) as (o' & rest' & Hdocs').
  unfold get_doc_examples, get_doc_examples_images, get_dipy_intro,
    get_dipy_publications.
  rewrite !(resolve_version_head _ _ _ _ _ _ Hdocs).
  rewrite (resolve_version_head _ _ _ _ _ _ Hdocs').
  cbn [scraping scrape_examples scrape_gallery]. cbv zeta.
  split; [|split; [|split]].
  - unfold outbound, scrape_doc_examples. cbv zeta. unfold bind at 1.
    edestruct (get_fjson_missing R) as [w' ->]; [exact Hmissing|].
    by eexists.
  - unfold outbound, scrape_doc_examples_images. cbv zeta. unfold bind at 1.
    edestruct (get_fjson_missing R) as [w' ->]; [exact Hmissing|].
    by eexists.
  - unfold bind, outbound, ret.
    edestruct Hmissing as (r1 & w1 & -> & ->). cbn [Nat.eqb world].
    edestruct Hmissing as (r2 & w2 & -> & ->). cbn [Nat.eqb].
    by eexists.
  - unfold bind at 1. unfold outbound.
    edestruct (get_fjson_missing R) as [w' ->]; [exact Hmissing|].
    by eexists.
Qed.

Lemma fetchers_return_empty_list_when_pages_are_missing_witness :
  (exists s', get_doc_examples
                (scraping (sample_config true) (sample_remote "") sample_soup)
                None (mkSite store_1_0_dev ∅ 0)
              = (Return (JList []), s')) /\
  (exists s', get_doc_examples_images
                (scraping (sample_config true) (sample_remote "") sample_soup)
                None (mkSite store_1_0_dev ∅ 0)
              = (Return (JList []), s')) /\
  (exists s', get_dipy_intro (sample_config true) (sample_remote "") None
                (mkSite store_1_0_dev ∅ 0)
              = (Return (JList []), s')) /\
  (exists s', get_dipy_publications (sample_config true) (sample_remote "")
                sample_soup 3 (mkSite store_1_0_dev ∅ 0)
              = (Return (JList []), s')).
Proof.
  apply (fetchers_return_empty_list_when_pages_are_missing
           (sample_config true) (sample_remote "") sample_soup None 3
           (mkSite store_1_0_dev ∅ 0) 1 (refreshed_doc "1.0")).
  - simpl. left.
  - reflexivity.
  - intros url headers w. by eexists _, _.
Defined.
